(** * Aqua Clock: regulation core

    Shallow embedding of the water-level regulation code of the Aqua Clock
    firmware (ESP32, Arduino C++):

    - [faults.h]         the 32-bit fault bitmap and its macros,
    - [RangeUtil.h]      the median-of-three range filter,
    - [ColumnManager.h]  the fill/drain valve state machine of one column,
    - [TankManager.h]    the feed-pump state machine of the reservoir.

    Integers are modelled as [Z]; where the C++ code narrows a value
    (the [int16_t delta] of the control loop, the 32-bit millisecond
    counters) the wrap-around is written out.  The target is an ESP32, so
    [int] is 32 bits wide and a [uint16_t] operand is promoted to [int]. *)

From Stdlib Require Import ZArith List Bool String Lia Permutation.
Import ListNotations.
Local Open Scope Z_scope.

(** ** Machine integers *)

Definition uint8 (z : Z) : Prop := 0 <= z < 2 ^ 8.
Definition uint16 (z : Z) : Prop := 0 <= z < 2 ^ 16.
Definition uint32 (z : Z) : Prop := 0 <= z < 2 ^ 32.

(** Conversion of an [int] to [int16_t] (two's complement, modulo 2^16). *)
Definition to_int16 (z : Z) : Z := (z + 2 ^ 15) mod 2 ^ 16 - 2 ^ 15.

(** Conversion to [uint32_t]. *)
Definition to_uint32 (z : Z) : Z := z mod 2 ^ 32.

(** Conversion to [uint16_t]. *)
Definition to_uint16 (z : Z) : Z := z mod 2 ^ 16.

(** ** faults.h *)

Inductive SYSTEM_FAULT_T : Type :=
| FAULT_I2C_MUX_OFFLINE
| FAULT_I2C_MUX_PORT_0_FAIL
| FAULT_I2C_MUX_PORT_1_FAIL
| FAULT_I2C_MUX_PORT_2_FAIL
| FAULT_VL53L1X_SENSOR_1_INIT_FAIL
| FAULT_VL53L1X_SENSOR_2_INIT_FAIL
| FAULT_VL53L1X_SENSOR_3_INIT_FAIL
| FAULT_VL53L1X_UNKNOWN_INIT_FAIL
| FAULT_VL53L1X_SENSOR_1_TIMEOUT
| FAULT_VL53L1X_SENSOR_2_TIMEOUT
| FAULT_VL53L1X_SENSOR_3_TIMEOUT
| FAULT_VL53L1X_UNKNOWN_TIMEOUT
| FAULT_RV8803_RTC_INIT_FAIL
| FAULT_RV8803_RTC_READ_FAULT
| FAULT_RV8803_RTC_SET_TIME_FAULT
| FAULT_SX1509_IO_EXPANDER_INIT_FAIL
| FAULT_TANK_FILL_TIMEOUT
| FAULT_TANK_LEVEL_SENSE_FAIL
| FAULT_NVM_FAIL.

(** The enumerators' values. *)
Definition fault_bit (x : SYSTEM_FAULT_T) : Z :=
  match x with
  | FAULT_I2C_MUX_OFFLINE => 0
  | FAULT_I2C_MUX_PORT_0_FAIL => 1
  | FAULT_I2C_MUX_PORT_1_FAIL => 2
  | FAULT_I2C_MUX_PORT_2_FAIL => 3
  | FAULT_VL53L1X_SENSOR_1_INIT_FAIL => 4
  | FAULT_VL53L1X_SENSOR_2_INIT_FAIL => 5
  | FAULT_VL53L1X_SENSOR_3_INIT_FAIL => 6
  | FAULT_VL53L1X_UNKNOWN_INIT_FAIL => 7
  | FAULT_VL53L1X_SENSOR_1_TIMEOUT => 8
  | FAULT_VL53L1X_SENSOR_2_TIMEOUT => 9
  | FAULT_VL53L1X_SENSOR_3_TIMEOUT => 10
  | FAULT_VL53L1X_UNKNOWN_TIMEOUT => 11
  | FAULT_RV8803_RTC_INIT_FAIL => 12
  | FAULT_RV8803_RTC_READ_FAULT => 13
  | FAULT_RV8803_RTC_SET_TIME_FAULT => 14
  | FAULT_SX1509_IO_EXPANDER_INIT_FAIL => 15
  | FAULT_TANK_FILL_TIMEOUT => 16
  | FAULT_TANK_LEVEL_SENSE_FAIL => 17
  | FAULT_NVM_FAIL => 18
  end.

(** [#define FAULT_SET(x) system_faults = (system_faults | ((uint32_t)1 << x))] *)
Definition FAULT_SET_bits (system_faults : Z) (x : SYSTEM_FAULT_T) : Z :=
  Z.lor system_faults (Z.shiftl 1 (fault_bit x)).

(** [#define FAULT_CLEAR(x) system_faults = (system_faults &= ~((uint32_t)1 << x))]:
    the complement is taken on 32 bits. *)
Definition FAULT_CLEAR_bits (system_faults : Z) (x : SYSTEM_FAULT_T) : Z :=
  Z.land system_faults (to_uint32 (Z.lnot (Z.shiftl 1 (fault_bit x)))).

(** [#define FAULT_ACTIVE(x) ((system_faults & (uint32_t)1 << x) != 0)] *)
Definition FAULT_ACTIVE_bits (system_faults : Z) (x : SYSTEM_FAULT_T) : bool :=
  negb (Z.land system_faults (Z.shiftl 1 (fault_bit x)) =? 0).

(** ** The board: what the regulators share

    The SX1509 IO expander is seen through the level of each of its pins
    ([true] is HIGH); [digitalWrite] changes one pin, [digitalRead] reads
    one.  [Serial] is the list of what was printed, oldest first. *)

Definition SX1509 : Type := Z -> bool.

Definition HIGH : bool := true.
Definition LOW : bool := false.

Definition digitalWrite (io : SX1509) (pin : Z) (level : bool) : SX1509 :=
  fun p => if p =? pin then level else io p.

Definition digitalRead (io : SX1509) (pin : Z) : bool := io pin.

Inductive SerialItem : Type :=
| Print (s : string)
| PrintNum (n : Z)
| Println (s : string)
| PrintlnNum (n : Z).

Record Board : Type := mkBoard {
  system_faults : Z;
  io_expander : SX1509;
  Serial : list SerialItem
}.

(** ** A state monad over one object and the board *)

Section StateMonad.
Variable Obj : Type.

Definition M (A : Type) : Type := Obj * Board -> A * (Obj * Board).

Definition ret {A} (a : A) : M A := fun w => (a, w).

Definition bind {A B} (c : M A) (k : A -> M B) : M B :=
  fun w => let (a, w') := c w in k a w'.

(** Read a member of [this]. *)
Definition this {A} (f : Obj -> A) : M A := fun w => (f (fst w), w).

(** Assign to the members of [this]. *)
Definition assign (f : Obj -> Obj) : M unit := fun w => (tt, (f (fst w), snd w)).

Definition board {A} (f : Board -> A) : M A := fun w => (f (snd w), w).

Definition on_board (f : Board -> Board) : M unit :=
  fun w => (tt, (fst w, f (snd w))).

Definition when (b : bool) (c : M unit) : M unit :=
  if b then c else ret tt.

Definition FAULT_SET (x : SYSTEM_FAULT_T) : M unit :=
  on_board (fun b => mkBoard (FAULT_SET_bits (system_faults b) x)
                             (io_expander b) (Serial b)).

Definition FAULT_ACTIVE (x : SYSTEM_FAULT_T) : M bool :=
  board (fun b => FAULT_ACTIVE_bits (system_faults b) x).

Definition io_digitalWrite (pin : Z) (level : bool) : M unit :=
  on_board (fun b => mkBoard (system_faults b)
                             (digitalWrite (io_expander b) pin level) (Serial b)).

Definition io_digitalRead (pin : Z) : M bool :=
  board (fun b => digitalRead (io_expander b) pin).

Definition Serial_out (item : SerialItem) : M unit :=
  on_board (fun b => mkBoard (system_faults b) (io_expander b)
                             (Serial b ++ [item])).

Definition run {A} (c : M A) (o : Obj) (b : Board) : A * (Obj * Board) := c (o, b).
Definition result {A} (c : M A) (o : Obj) (b : Board) : A := fst (c (o, b)).
Definition object_after {A} (c : M A) (o : Obj) (b : Board) : Obj := fst (snd (c (o, b))).
Definition board_after {A} (c : M A) (o : Obj) (b : Board) : Board := snd (snd (c (o, b))).
End StateMonad.

Arguments ret {Obj A} a.
Arguments bind {Obj A B} c k.
Arguments this {Obj A} f.
Arguments assign {Obj} f.
Arguments board {Obj A} f.
Arguments on_board {Obj} f.
Arguments when {Obj} b c.
Arguments FAULT_SET {Obj} x.
Arguments FAULT_ACTIVE {Obj} x.
Arguments io_digitalWrite {Obj} pin level.
Arguments io_digitalRead {Obj} pin.
Arguments Serial_out {Obj} item.
Arguments run {Obj A} c o b.
Arguments result {Obj A} c o b.
Arguments object_after {Obj A} c o b.
Arguments board_after {Obj A} c o b.

Declare Scope aqua_scope.
Delimit Scope aqua_scope with aqua.
Notation "x <- c ;; k" := (bind c (fun x => k))
  (at level 61, c at next level, right associativity) : aqua_scope.
Notation "c ;; k" := (bind c (fun _ => k))
  (at level 61, right associativity) : aqua_scope.
Local Open Scope aqua_scope.

(** What holds of the result and the state a computation ends in, and
    what a computation keeps true. *)
Definition wp {Obj A} (c : M Obj A) (Q : A -> Obj * Board -> Prop)
  (w : Obj * Board) : Prop :=
  Q (fst (c w)) (snd (c w)).

Definition preserves {Obj A} (P : Obj * Board -> Prop) (c : M Obj A) : Prop :=
  forall w, P w -> P (snd (c w)).

(** A computation that acts on the board only. *)
Definition board_only {Obj} (c : M Obj unit) : Prop :=
  forall w, exists b', c w = (tt, (fst w, b')).

(** ** RangeUtil.h: the median-of-three filter *)

Module RangeUtil.

Definition HISTORY_SIZE : nat := 3.

(** The members the filter uses; [_range_history] is the array of the
    last [HISTORY_SIZE] raw readings, newest first. *)
Record RangeUtil : Type := mkRangeUtil {
  _range_history : list Z;
  _linearized_median_range : Z;
  _median_index : nat
}.

(** [a[i]] and [a[i] = v] on the history array. *)
Definition at_index (a : list Z) (i : nat) : Z := nth i a 0.

Fixpoint store (a : list Z) (i : nat) (v : Z) : list Z :=
  match a, i with
  | [], _ => []
  | _ :: tl, O => v :: tl
  | x :: tl, S j => x :: store tl j v
  end.

(** The locals of the first loop of [process_reading]. *)
Record Extremes : Type := mkExtremes {
  max_range : Z;
  max_range_index : nat;
  min_range : Z;
  min_range_index : nat
}.

(** One iteration of "Find highest and lowest". *)
Definition scan_step (a : list Z) (x : Extremes) (i : nat) : Extremes :=
  let x1 :=
    if at_index a i >? max_range x
    then mkExtremes (at_index a i) i (min_range x) (min_range_index x)
    else x in
  if at_index a i <? min_range x1
  then mkExtremes (max_range x1) (max_range_index x1) (at_index a i) i
  else x1.

Definition find_extremes (a : list Z) : Extremes :=
  fold_left (scan_step a) (seq 0 HISTORY_SIZE) (mkExtremes 0 0 65535 0).

(** The second loop: the first index that is neither the minimum's nor
    the maximum's; [_median_index] keeps its value when there is none. *)
Definition find_median_index (x : Extremes) (old : nat) : nat :=
  match find (fun i => negb (i =? min_range_index x)%nat
                        && negb (i =? max_range_index x)%nat)
             (seq 0 HISTORY_SIZE) with
  | Some i => i
  | None => old
  end.

Definition process_reading (reading : Z) (r : RangeUtil) : Z * RangeUtil :=
  let h := _range_history r in
  let h := store h 2 (at_index h 1) in
  let h := store h 1 (at_index h 0) in
  let h := store h 0 reading in
  let x := find_extremes h in
  let m := find_median_index x (_median_index r) in
  (at_index h m, mkRangeUtil h (_linearized_median_range r) m).

Definition Get_Newest_Reading (r : RangeUtil) : Z := at_index (_range_history r) 0.

Definition Get_Median_Reading (r : RangeUtil) : Z :=
  at_index (_range_history r) (_median_index r).

Definition Set_Linearized_Median_Reading (linearized_range : Z) (r : RangeUtil)
  : RangeUtil :=
  mkRangeUtil (_range_history r) linearized_range (_median_index r).

Definition Get_Linearized_Median_Reading (r : RangeUtil) : Z :=
  _linearized_median_range r.

(** A filter whose history holds three samples. *)
Definition populated (r : RangeUtil) : Prop :=
  List.length (_range_history r) = HISTORY_SIZE /\ Forall uint16 (_range_history r).

(** [m] is the middle of the samples [a] by numeric order. *)
Definition middle_value (a : list Z) (m : Z) : Prop :=
  exists lo hi, Permutation [lo; m; hi] a /\ lo <= m <= hi.

(** The first index holding the largest (smallest) sample. *)
Definition first_max_index (a : list Z) (i : nat) : Prop :=
  (i < List.length a)%nat /\
  (forall j, (j < List.length a)%nat -> at_index a j <= at_index a i) /\
  (forall j, (j < i)%nat -> at_index a j < at_index a i).

Definition first_min_index (a : list Z) (i : nat) : Prop :=
  (i < List.length a)%nat /\
  (forall j, (j < List.length a)%nat -> at_index a i <= at_index a j) /\
  (forall j, (j < i)%nat -> at_index a i < at_index a j).

(** A filter before its first reading, and a run of readings. *)
Definition zero_filled : RangeUtil := mkRangeUtil [0; 0; 0] 0 0.

Definition feed (readings : list Z) (r : RangeUtil) : RangeUtil :=
  fold_left (fun r x => snd (process_reading x r)) readings r.

End RangeUtil.

(** ** ColumnManager.h: the valve regulator of one column *)

Module ColumnManager.

Inductive COLUMN_STATE_TYPE_T : Type :=
| COLUMN_IDLE
| COLUMN_DRAIN_ACTIVE
| COLUMN_DRAIN_SETTLE
| COLUMN_FILL_ACTIVE
| COLUMN_FILL_SETTLE
| COLUMN_MANUAL_DRAIN
| COLUMN_MANUAL_FILL
| COLUMN_ERROR_STATE.

Inductive CONTROL_ERROR_STATE_TYPE_T : Type :=
| CONTROL_ERROR_DEADBAND
| CONTROL_ERROR_POSITIVE
| CONTROL_ERROR_NEGATIVE.

Definition control_error_eqb (a b : CONTROL_ERROR_STATE_TYPE_T) : bool :=
  match a, b with
  | CONTROL_ERROR_DEADBAND, CONTROL_ERROR_DEADBAND => true
  | CONTROL_ERROR_POSITIVE, CONTROL_ERROR_POSITIVE => true
  | CONTROL_ERROR_NEGATIVE, CONTROL_ERROR_NEGATIVE => true
  | _, _ => false
  end.

(** The data members.  [_io_expander] points into the board;
    [_time_in_current_state] is the value the [elapsedMillis] member
    reads, in milliseconds. *)
Record ColumnManager : Type := mkColumnManager {
  _feed_valve_actuator_pin : Z;
  _drain_valve_actuator_pin : Z;
  _column_num : Z;
  _setpoint_mm : Z;
  _elevation_lower_limit : Z;
  _elevation_upper_limit : Z;
  _elevation_mm : Z;
  _setpoint_deadband : Z;
  _regulator_enable : bool;
  _logging_enable : bool;
  _state : COLUMN_STATE_TYPE_T;
  _time_in_current_state : Z;
  _manual_drain_period : Z;
  _manual_fill_period : Z;
  _drain_dwell_period : Z;
  _fill_dwell_period : Z;
  _max_column_drain_period : Z;
  _max_column_fill_period : Z;
  _request_manual_fill : bool;
  _request_manual_drain : bool;
  _control_error_state : CONTROL_ERROR_STATE_TYPE_T
}.

(** Assignment to one member. *)
Definition set_setpoint_mm (v : Z) (o : ColumnManager) : ColumnManager :=
  mkColumnManager (_feed_valve_actuator_pin o) (_drain_valve_actuator_pin o)
    (_column_num o) v (_elevation_lower_limit o) (_elevation_upper_limit o)
    (_elevation_mm o) (_setpoint_deadband o) (_regulator_enable o)
    (_logging_enable o) (_state o) (_time_in_current_state o)
    (_manual_drain_period o) (_manual_fill_period o) (_drain_dwell_period o)
    (_fill_dwell_period o) (_max_column_drain_period o)
    (_max_column_fill_period o) (_request_manual_fill o)
    (_request_manual_drain o) (_control_error_state o).

Definition set_elevation_mm (v : Z) (o : ColumnManager) : ColumnManager :=
  mkColumnManager (_feed_valve_actuator_pin o) (_drain_valve_actuator_pin o)
    (_column_num o) (_setpoint_mm o) (_elevation_lower_limit o)
    (_elevation_upper_limit o) v (_setpoint_deadband o) (_regulator_enable o)
    (_logging_enable o) (_state o) (_time_in_current_state o)
    (_manual_drain_period o) (_manual_fill_period o) (_drain_dwell_period o)
    (_fill_dwell_period o) (_max_column_drain_period o)
    (_max_column_fill_period o) (_request_manual_fill o)
    (_request_manual_drain o) (_control_error_state o).

Definition set_regulator_enable (v : bool) (o : ColumnManager) : ColumnManager :=
  mkColumnManager (_feed_valve_actuator_pin o) (_drain_valve_actuator_pin o)
    (_column_num o) (_setpoint_mm o) (_elevation_lower_limit o)
    (_elevation_upper_limit o) (_elevation_mm o) (_setpoint_deadband o) v
    (_logging_enable o) (_state o) (_time_in_current_state o)
    (_manual_drain_period o) (_manual_fill_period o) (_drain_dwell_period o)
    (_fill_dwell_period o) (_max_column_drain_period o)
    (_max_column_fill_period o) (_request_manual_fill o)
    (_request_manual_drain o) (_control_error_state o).

Definition set_logging_enable (v : bool) (o : ColumnManager) : ColumnManager :=
  mkColumnManager (_feed_valve_actuator_pin o) (_drain_valve_actuator_pin o)
    (_column_num o) (_setpoint_mm o) (_elevation_lower_limit o)
    (_elevation_upper_limit o) (_elevation_mm o) (_setpoint_deadband o)
    (_regulator_enable o) v (_state o) (_time_in_current_state o)
    (_manual_drain_period o) (_manual_fill_period o) (_drain_dwell_period o)
    (_fill_dwell_period o) (_max_column_drain_period o)
    (_max_column_fill_period o) (_request_manual_fill o)
    (_request_manual_drain o) (_control_error_state o).

Definition set_state (v : COLUMN_STATE_TYPE_T) (o : ColumnManager) : ColumnManager :=
  mkColumnManager (_feed_valve_actuator_pin o) (_drain_valve_actuator_pin o)
    (_column_num o) (_setpoint_mm o) (_elevation_lower_limit o)
    (_elevation_upper_limit o) (_elevation_mm o) (_setpoint_deadband o)
    (_regulator_enable o) (_logging_enable o) v (_time_in_current_state o)
    (_manual_drain_period o) (_manual_fill_period o) (_drain_dwell_period o)
    (_fill_dwell_period o) (_max_column_drain_period o)
    (_max_column_fill_period o) (_request_manual_fill o)
    (_request_manual_drain o) (_control_error_state o).

Definition set_time_in_current_state (v : Z) (o : ColumnManager) : ColumnManager :=
  mkColumnManager (_feed_valve_actuator_pin o) (_drain_valve_actuator_pin o)
    (_column_num o) (_setpoint_mm o) (_elevation_lower_limit o)
    (_elevation_upper_limit o) (_elevation_mm o) (_setpoint_deadband o)
    (_regulator_enable o) (_logging_enable o) (_state o) v
    (_manual_drain_period o) (_manual_fill_period o) (_drain_dwell_period o)
    (_fill_dwell_period o) (_max_column_drain_period o)
    (_max_column_fill_period o) (_request_manual_fill o)
    (_request_manual_drain o) (_control_error_state o).

Definition set_manual_drain_period (v : Z) (o : ColumnManager) : ColumnManager :=
  mkColumnManager (_feed_valve_actuator_pin o) (_drain_valve_actuator_pin o)
    (_column_num o) (_setpoint_mm o) (_elevation_lower_limit o)
    (_elevation_upper_limit o) (_elevation_mm o) (_setpoint_deadband o)
    (_regulator_enable o) (_logging_enable o) (_state o)
    (_time_in_current_state o) v (_manual_fill_period o)
    (_drain_dwell_period o) (_fill_dwell_period o)
    (_max_column_drain_period o) (_max_column_fill_period o)
    (_request_manual_fill o) (_request_manual_drain o)
    (_control_error_state o).

Definition set_manual_fill_period (v : Z) (o : ColumnManager) : ColumnManager :=
  mkColumnManager (_feed_valve_actuator_pin o) (_drain_valve_actuator_pin o)
    (_column_num o) (_setpoint_mm o) (_elevation_lower_limit o)
    (_elevation_upper_limit o) (_elevation_mm o) (_setpoint_deadband o)
    (_regulator_enable o) (_logging_enable o) (_state o)
    (_time_in_current_state o) (_manual_drain_period o) v
    (_drain_dwell_period o) (_fill_dwell_period o)
    (_max_column_drain_period o) (_max_column_fill_period o)
    (_request_manual_fill o) (_request_manual_drain o)
    (_control_error_state o).

Definition set_request_manual_fill (v : bool) (o : ColumnManager) : ColumnManager :=
  mkColumnManager (_feed_valve_actuator_pin o) (_drain_valve_actuator_pin o)
    (_column_num o) (_setpoint_mm o) (_elevation_lower_limit o)
    (_elevation_upper_limit o) (_elevation_mm o) (_setpoint_deadband o)
    (_regulator_enable o) (_logging_enable o) (_state o)
    (_time_in_current_state o) (_manual_drain_period o)
    (_manual_fill_period o) (_drain_dwell_period o) (_fill_dwell_period o)
    (_max_column_drain_period o) (_max_column_fill_period o) v
    (_request_manual_drain o) (_control_error_state o).

Definition set_request_manual_drain (v : bool) (o : ColumnManager) : ColumnManager :=
  mkColumnManager (_feed_valve_actuator_pin o) (_drain_valve_actuator_pin o)
    (_column_num o) (_setpoint_mm o) (_elevation_lower_limit o)
    (_elevation_upper_limit o) (_elevation_mm o) (_setpoint_deadband o)
    (_regulator_enable o) (_logging_enable o) (_state o)
    (_time_in_current_state o) (_manual_drain_period o)
    (_manual_fill_period o) (_drain_dwell_period o) (_fill_dwell_period o)
    (_max_column_drain_period o) (_max_column_fill_period o)
    (_request_manual_fill o) v (_control_error_state o).

Definition set_control_error_state (v : CONTROL_ERROR_STATE_TYPE_T) (o : ColumnManager) : ColumnManager :=
  mkColumnManager (_feed_valve_actuator_pin o) (_drain_valve_actuator_pin o)
    (_column_num o) (_setpoint_mm o) (_elevation_lower_limit o)
    (_elevation_upper_limit o) (_elevation_mm o) (_setpoint_deadband o)
    (_regulator_enable o) (_logging_enable o) (_state o)
    (_time_in_current_state o) (_manual_drain_period o)
    (_manual_fill_period o) (_drain_dwell_period o) (_fill_dwell_period o)
    (_max_column_drain_period o) (_max_column_fill_period o)
    (_request_manual_fill o) (_request_manual_drain o) v.

Definition Method (A : Type) : Type := M ColumnManager A.

(** Adjust valves to allow water to flow from the top tank into the
    column.  The pins are [uint8_t], the tests [pin >= 0] are kept. *)
Definition start_filling : Method unit :=
  feed <- this _feed_valve_actuator_pin ;;
  when (feed >=? 0) (io_digitalWrite feed HIGH) ;;
  drain <- this _drain_valve_actuator_pin ;;
  when (drain >=? 0) (io_digitalWrite drain LOW).

(** Adjust the valves to allow water to flow from the column to the drain
    tank. *)
Definition start_draining : Method unit :=
  fault <- FAULT_ACTIVE FAULT_SX1509_IO_EXPANDER_INIT_FAIL ;;
  when (negb fault)
    (feed <- this _feed_valve_actuator_pin ;;
     when (feed >=? 0) (io_digitalWrite feed LOW) ;;
     drain <- this _drain_valve_actuator_pin ;;
     when (drain >=? 0) (io_digitalWrite drain HIGH)).

(** Close all valves and keep the water level constant. *)
Definition stop_flows : Method unit :=
  fault <- FAULT_ACTIVE FAULT_SX1509_IO_EXPANDER_INIT_FAIL ;;
  when (negb fault)
    (feed <- this _feed_valve_actuator_pin ;;
     when (feed >=? 0) (io_digitalWrite feed LOW) ;;
     drain <- this _drain_valve_actuator_pin ;;
     when (drain >=? 0) (io_digitalWrite drain LOW)).

(** The member initialisers of the class, then the constructor's
    assignments. *)
Definition members (column_num feed_pin drain_pin
                    elevation_lower_limit elevation_upper_limit : Z)
  : ColumnManager :=
  {| _feed_valve_actuator_pin := feed_pin;
     _drain_valve_actuator_pin := drain_pin;
     _column_num := column_num;
     _setpoint_mm := 150;
     _elevation_lower_limit := elevation_lower_limit;
     _elevation_upper_limit := elevation_upper_limit;
     _elevation_mm := 150;
     _setpoint_deadband := 4;
     _regulator_enable := false;
     _logging_enable := false;
     _state := COLUMN_IDLE;
     _time_in_current_state := 0;
     _manual_drain_period := 2000;
     _manual_fill_period := 2000;
     _drain_dwell_period := 1000;
     _fill_dwell_period := 1000;
     _max_column_drain_period := 60000;
     _max_column_fill_period := 60000;
     _request_manual_fill := false;
     _request_manual_drain := false;
     _control_error_state := CONTROL_ERROR_DEADBAND |}.

(** The constructor: capture the parameters, then [stop_flows()]. *)
Definition constructor (column_num feed_pin drain_pin
                        elevation_lower_limit elevation_upper_limit : Z)
                       (b : Board) : ColumnManager * Board :=
  snd (run stop_flows
           (members column_num feed_pin drain_pin
                    elevation_lower_limit elevation_upper_limit) b).

Definition Get_State : Method COLUMN_STATE_TYPE_T := this _state.

Definition Get_Control_Error_State : Method CONTROL_ERROR_STATE_TYPE_T :=
  this _control_error_state.

Definition Set_Regulator_Enable (enable : bool) : Method unit :=
  assign (set_regulator_enable enable).

Definition Is_Column_Regulator_Enabled : Method bool := this _regulator_enable.

Definition Get_Target_Setpoint_MM : Method Z := this _setpoint_mm.

Definition Set_Elevation_Reading_MM (elevation_mm : Z) : Method bool :=
  assign (set_elevation_mm elevation_mm) ;;
  ret false.

Definition Get_Elevation_Reading_MM : Method Z := this _elevation_mm.

Definition Manual_Drain (period : Z) : Method bool :=
  assign (set_manual_drain_period period) ;;
  assign (set_request_manual_drain true) ;;
  ret false.

Definition Manual_Fill (period : Z) : Method bool :=
  assign (set_manual_fill_period period) ;;
  assign (set_request_manual_fill true) ;;
  ret false.

Definition Enable_Logging : Method unit := assign (set_logging_enable true).

Definition Disable_Logging : Method unit := assign (set_logging_enable false).

(** Evaluate if the control loop is outside or inside the deadband.
    [int16_t delta = _elevation_mm - _setpoint_mm]: the operands are
    promoted to [int], the difference is narrowed to 16 bits; [abs(delta)]
    is an [int] and so is the promoted [_setpoint_deadband]. *)
Definition control_loop_update : Method CONTROL_ERROR_STATE_TYPE_T :=
  elevation <- this _elevation_mm ;;
  setpoint <- this _setpoint_mm ;;
  deadband <- this _setpoint_deadband ;;
  let delta := to_int16 (elevation - setpoint) in
  if Z.abs delta <=? deadband then ret CONTROL_ERROR_DEADBAND
  else if delta >? 0 then ret CONTROL_ERROR_POSITIVE
  else ret CONTROL_ERROR_NEGATIVE.

(** The logging block that follows a transition. *)
Definition log_line (msg : string) : Method unit :=
  logging <- this _logging_enable ;;
  when logging
    (Serial_out (Print "COLUMN ") ;;
     n <- this _column_num ;;
     Serial_out (PrintNum n) ;;
     Serial_out (Println msg)).

(** The head of [Update]: store the inputs and clamp the setpoint. *)
Definition store_inputs (current_elevation_mm setpoint_mm : Z) : Method unit :=
  assign (set_elevation_mm current_elevation_mm) ;;
  assign (set_setpoint_mm setpoint_mm) ;;
  sp <- this _setpoint_mm ;;
  lower <- this _elevation_lower_limit ;;
  when (sp <? lower) (assign (set_setpoint_mm lower)) ;;
  sp <- this _setpoint_mm ;;
  upper <- this _elevation_upper_limit ;;
  when (sp >? upper) (assign (set_setpoint_mm upper)).

(** Requests to manually actuate the valves. *)
Definition manual_requests : Method unit :=
  fill <- this _request_manual_fill ;;
  when fill
    (assign (set_request_manual_fill false) ;;
     assign (set_state COLUMN_MANUAL_FILL) ;;
     assign (set_time_in_current_state 0) ;;
     log_line ": current state to COLUMN_MANUAL_FILL") ;;
  drain <- this _request_manual_drain ;;
  when drain
    (assign (set_request_manual_drain false) ;;
     assign (set_state COLUMN_MANUAL_DRAIN) ;;
     assign (set_time_in_current_state 0) ;;
     log_line ": current state to COLUMN_MANUAL_DRAIN").

(** The cases of the [switch (_state)]; each gives the value of [busy]. *)
Definition case_COLUMN_IDLE : Method bool :=
  stop_flows ;;
  enabled <- this _regulator_enable ;;
  when enabled
    (err <- this _control_error_state ;;
     if control_error_eqb err CONTROL_ERROR_POSITIVE then
       assign (set_state COLUMN_FILL_ACTIVE) ;;
       assign (set_time_in_current_state 0) ;;
       log_line ": COLUMN_IDLE to COLUMN_FILL_ACTIVE"
     else if control_error_eqb err CONTROL_ERROR_NEGATIVE then
       assign (set_state COLUMN_DRAIN_ACTIVE) ;;
       assign (set_time_in_current_state 0) ;;
       log_line ": COLUMN_IDLE to COLUMN_DRAIN_ACTIVE"
     else ret tt) ;;
  ret false.

Definition case_COLUMN_DRAIN_ACTIVE : Method bool :=
  enabled <- this _regulator_enable ;;
  if negb enabled then
    assign (set_state COLUMN_DRAIN_SETTLE) ;;
    assign (set_time_in_current_state 0) ;;
    ret false
  else
    err <- this _control_error_state ;;
    t <- this _time_in_current_state ;;
    limit <- this _max_column_drain_period ;;
    if negb (control_error_eqb err CONTROL_ERROR_NEGATIVE) then
      stop_flows ;;
      assign (set_state COLUMN_DRAIN_SETTLE) ;;
      assign (set_time_in_current_state 0) ;;
      log_line ": COLUMN_DRAIN_ACTIVE to COLUMN_DRAIN_SETTLE" ;;
      ret false
    else if t >=? limit then
      stop_flows ;;
      Serial_out (Println "ERROR: Spent too long in COLUMN_DRAIN_ACTIVE state!") ;;
      assign (set_state COLUMN_ERROR_STATE) ;;
      assign (set_time_in_current_state 0) ;;
      log_line ": COLUMN_DRAIN_ACTIVE to COLUMN_ERROR_STATE" ;;
      ret false
    else
      start_draining ;;
      ret true.

Definition case_COLUMN_DRAIN_SETTLE : Method bool :=
  stop_flows ;;
  t <- this _time_in_current_state ;;
  dwell <- this _drain_dwell_period ;;
  when (t >=? dwell)
    (assign (set_state COLUMN_IDLE) ;;
     assign (set_time_in_current_state 0) ;;
     log_line ": COLUMN_DRAIN_SETTLE to COLUMN_IDLE") ;;
  ret false.

Definition case_COLUMN_FILL_ACTIVE : Method bool :=
  enabled <- this _regulator_enable ;;
  if negb enabled then
    assign (set_state COLUMN_FILL_SETTLE) ;;
    assign (set_time_in_current_state 0) ;;
    ret false
  else
    err <- this _control_error_state ;;
    t <- this _time_in_current_state ;;
    limit <- this _max_column_fill_period ;;
    if negb (control_error_eqb err CONTROL_ERROR_POSITIVE) then
      stop_flows ;;
      assign (set_state COLUMN_FILL_SETTLE) ;;
      assign (set_time_in_current_state 0) ;;
      log_line ": COLUMN_FILL_ACTIVE to COLUMN_FILL_SETTLE" ;;
      ret false
    else if t >=? limit then
      stop_flows ;;
      Serial_out (Println "ERROR: Spent too long in COLUMN_FILL_ACTIVE state!") ;;
      assign (set_state COLUMN_ERROR_STATE) ;;
      assign (set_time_in_current_state 0) ;;
      log_line ": COLUMN_FILL_ACTIVE to COLUMN_ERROR_SETTLE" ;;
      ret false
    else
      start_filling ;;
      ret true.

Definition case_COLUMN_FILL_SETTLE : Method bool :=
  stop_flows ;;
  t <- this _time_in_current_state ;;
  dwell <- this _fill_dwell_period ;;
  when (t >=? dwell)
    (assign (set_state COLUMN_IDLE) ;;
     assign (set_time_in_current_state 0) ;;
     log_line ": COLUMN_FILL_SETTLE to COLUMN_IDLE") ;;
  ret false.

Definition case_COLUMN_MANUAL_DRAIN : Method bool :=
  start_draining ;;
  t <- this _time_in_current_state ;;
  period <- this _manual_drain_period ;;
  when (t >=? period)
    (assign (set_state COLUMN_IDLE) ;;
     log_line ": COLUMN_MANUAL_DRAIN to COLUMN_IDLE") ;;
  ret true.

Definition case_COLUMN_MANUAL_FILL : Method bool :=
  start_filling ;;
  t <- this _time_in_current_state ;;
  period <- this _manual_fill_period ;;
  when (t >=? period)
    (assign (set_state COLUMN_IDLE) ;;
     log_line ": COLUMN_MANUAL_FILL to COLUMN_IDLE") ;;
  ret true.

Definition case_COLUMN_ERROR_STATE : Method bool :=
  stop_flows ;;
  ret false.

(** "Run a state machine to manage regulation": the [switch]. *)
Definition state_machine : Method bool :=
  st <- this _state ;;
  match st with
  | COLUMN_IDLE => case_COLUMN_IDLE
  | COLUMN_DRAIN_ACTIVE => case_COLUMN_DRAIN_ACTIVE
  | COLUMN_DRAIN_SETTLE => case_COLUMN_DRAIN_SETTLE
  | COLUMN_FILL_ACTIVE => case_COLUMN_FILL_ACTIVE
  | COLUMN_FILL_SETTLE => case_COLUMN_FILL_SETTLE
  | COLUMN_MANUAL_DRAIN => case_COLUMN_MANUAL_DRAIN
  | COLUMN_MANUAL_FILL => case_COLUMN_MANUAL_FILL
  | COLUMN_ERROR_STATE => case_COLUMN_ERROR_STATE
  end.

(** Update the valve regulation periodically.  Returns true if it is busy
    adjusting the water level. *)
Definition Update (current_elevation_mm setpoint_mm : Z) : Method bool :=
  store_inputs current_elevation_mm setpoint_mm ;;
  manual_requests ;;
  err <- control_loop_update ;;
  assign (set_control_error_state err) ;;
  state_machine.

(** Milliseconds go by: the [elapsedMillis] member follows [millis()],
    a 32-bit counter. *)
Definition elapse (dt : Z) (o : ColumnManager) : ColumnManager :=
  set_time_in_current_state (to_uint32 (_time_in_current_state o + dt)) o.

(** The ranges the C++ types give the members. *)
Record well_typed (o : ColumnManager) : Prop := {
  wt_feed_pin : uint8 (_feed_valve_actuator_pin o);
  wt_drain_pin : uint8 (_drain_valve_actuator_pin o);
  wt_setpoint : uint16 (_setpoint_mm o);
  wt_lower_limit : uint16 (_elevation_lower_limit o);
  wt_upper_limit : uint16 (_elevation_upper_limit o);
  wt_elevation : uint16 (_elevation_mm o);
  wt_deadband : uint16 (_setpoint_deadband o);
  wt_time : uint32 (_time_in_current_state o);
  wt_manual_drain_period : uint32 (_manual_drain_period o);
  wt_manual_fill_period : uint32 (_manual_fill_period o)
}.

(** The setpoint [Update] works with: the argument clamped by the two
    [if]s, lower limit first. *)
Definition clamped (o : ColumnManager) (setpoint_mm : Z) : Z :=
  let sp := if setpoint_mm <? _elevation_lower_limit o
            then _elevation_lower_limit o else setpoint_mm in
  if sp >? _elevation_upper_limit o then _elevation_upper_limit o else sp.

(** What can happen to a column regulator and its board between two
    observations: a call of a public member function, time going by, or
    the rest of the firmware acting on the board (faults set or cleared,
    other pins of the expander driven or read, serial output) without
    touching the two valve pins, which this regulator owns. *)
Inductive step : ColumnManager * Board -> ColumnManager * Board -> Prop :=
| step_Update : forall w elevation setpoint,
    uint16 elevation -> uint16 setpoint ->
    step w (snd (Update elevation setpoint w))
| step_Set_Regulator_Enable : forall w enable,
    step w (snd (Set_Regulator_Enable enable w))
| step_Set_Elevation_Reading_MM : forall w elevation,
    uint16 elevation ->
    step w (snd (Set_Elevation_Reading_MM elevation w))
| step_Manual_Drain : forall w period,
    uint32 period ->
    step w (snd (Manual_Drain period w))
| step_Manual_Fill : forall w period,
    uint32 period ->
    step w (snd (Manual_Fill period w))
| step_Enable_Logging : forall w, step w (snd (Enable_Logging w))
| step_Disable_Logging : forall w, step w (snd (Disable_Logging w))
| step_elapse : forall o b dt,
    0 <= dt ->
    step (o, b) (elapse dt o, b)
| step_board : forall o b b',
    io_expander b' (_feed_valve_actuator_pin o)
      = io_expander b (_feed_valve_actuator_pin o) ->
    io_expander b' (_drain_valve_actuator_pin o)
      = io_expander b (_drain_valve_actuator_pin o) ->
    step (o, b) (o, b').

Inductive reachable (w0 : ColumnManager * Board) : ColumnManager * Board -> Prop :=
| reachable_start : reachable w0 w0
| reachable_step : forall w w', reachable w0 w -> step w w' -> reachable w0 w'.

(** The level the regulator's two valve pins are driven at. *)
Definition feed_valve (w : ColumnManager * Board) : bool :=
  digitalRead (io_expander (snd w)) (_feed_valve_actuator_pin (fst w)).

Definition drain_valve (w : ColumnManager * Board) : bool :=
  digitalRead (io_expander (snd w)) (_drain_valve_actuator_pin (fst w)).

Definition both_valves_active (w : ColumnManager * Board) : Prop :=
  feed_valve w = HIGH /\ drain_valve w = HIGH.

Definition both_valves_stopped (w : ColumnManager * Board) : Prop :=
  feed_valve w = LOW /\ drain_valve w = LOW.



(** The states whose case starts by closing the valves and opens none. *)
Definition resting (st : COLUMN_STATE_TYPE_T) : bool :=
  match st with
  | COLUMN_IDLE | COLUMN_DRAIN_SETTLE | COLUMN_FILL_SETTLE
  | COLUMN_ERROR_STATE => true
  | _ => false
  end.

Definition no_requests (o : ColumnManager) : Prop :=
  _request_manual_fill o = false /\ _request_manual_drain o = false.

(** The state a call leaves, and the state after [dt] milliseconds. *)
Definition after {A} (c : Method A) (w : ColumnManager * Board)
  : ColumnManager * Board := snd (c w).

Definition wait (dt : Z) (w : ColumnManager * Board) : ColumnManager * Board :=
  (elapse dt (fst w), snd w).


(** The hour column on a board without faults: feed valve on expander
    pin 15, drain valve on pin 11, limits 50 and 305, regulator enabled. *)
Definition hour_column : ColumnManager * Board :=
  after (Set_Regulator_Enable true)
        (constructor 1 15 11 50 305 (mkBoard 0 (fun _ => LOW) [])).

(** The hour column while it fills: the reading is 300, the setpoint 150. *)
Definition hour_column_filling : ColumnManager * Board :=
  after (Update 300 150) (after (Update 300 150) hour_column).

Definition expander_fault (w : ColumnManager * Board) : bool :=
  FAULT_ACTIVE_bits (system_faults (snd w)) FAULT_SX1509_IO_EXPANDER_INIT_FAIL.

(** One pass of the main loop over this regulator: [dt] milliseconds go
    by, then [Update] is called; and a run of such passes. *)
Definition pass (input : Z * Z * Z) (w : ColumnManager * Board)
  : ColumnManager * Board :=
  let '(dt, elevation, setpoint) := input in
  after (Update elevation setpoint) (wait dt w).

Definition passes (inputs : list (Z * Z * Z)) (w : ColumnManager * Board)
  : ColumnManager * Board :=
  fold_left (fun w input => pass input w) inputs w.

(** The two states in which the regulator opens a valve on its own. *)
Definition active (st : COLUMN_STATE_TYPE_T) : bool :=
  match st with
  | COLUMN_DRAIN_ACTIVE | COLUMN_FILL_ACTIVE => true
  | _ => false
  end.

(** The hour column with a manual fill of 150 ms requested, as the
    valve menu of the user interface does. *)
Definition hour_column_manual_fill : ColumnManager * Board :=
  after (Manual_Fill 150) hour_column.

End ColumnManager.

(** ** TankManager.h: the feed-pump regulator of the reservoir *)

Module TankManager.

Inductive TANK_STATE_TYPE_T : Type :=
| TANK_IDLE
| TANK_FILL_ACTIVE
| TANK_FILL_SETTLE
| TANK_MANUAL_FILL
| TANK_FILL_TIMEOUT_FAULT.

(** The data members; the two [elapsedMillis] members are the values
    they read, in milliseconds. *)
Record TankManager : Type := mkTankManager {
  _feed_pump_drive_pin : Z;
  _feed_tank_level_high_pin : Z;
  _feed_tank_level_low_pin : Z;
  _feed_tank_level_above_high : bool;
  _feed_tank_level_above_low : bool;
  _pump_active : bool;
  _enable : bool;
  _enable_logging : bool;
  _state : TANK_STATE_TYPE_T;
  _time_in_current_state : Z;
  _time_since_last_update : Z;
  _request_manual_fill : bool;
  _manual_fill_period : Z;
  _post_pump_settle_period : Z
}.

Definition TANK_UPDATE_PERIOD_MSEC : Z := 10.
Definition MAX_PUMP_FILL_TIME_MSEC : Z := 30000.

(** Assignment to one member. *)
Definition set_feed_tank_level_above_high (v : bool) (o : TankManager) : TankManager :=
  mkTankManager (_feed_pump_drive_pin o) (_feed_tank_level_high_pin o)
    (_feed_tank_level_low_pin o) v (_feed_tank_level_above_low o)
    (_pump_active o) (_enable o) (_enable_logging o) (_state o)
    (_time_in_current_state o) (_time_since_last_update o)
    (_request_manual_fill o) (_manual_fill_period o)
    (_post_pump_settle_period o).

Definition set_feed_tank_level_above_low (v : bool) (o : TankManager) : TankManager :=
  mkTankManager (_feed_pump_drive_pin o) (_feed_tank_level_high_pin o)
    (_feed_tank_level_low_pin o) (_feed_tank_level_above_high o) v
    (_pump_active o) (_enable o) (_enable_logging o) (_state o)
    (_time_in_current_state o) (_time_since_last_update o)
    (_request_manual_fill o) (_manual_fill_period o)
    (_post_pump_settle_period o).

Definition set_pump_active (v : bool) (o : TankManager) : TankManager :=
  mkTankManager (_feed_pump_drive_pin o) (_feed_tank_level_high_pin o)
    (_feed_tank_level_low_pin o) (_feed_tank_level_above_high o)
    (_feed_tank_level_above_low o) v (_enable o) (_enable_logging o)
    (_state o) (_time_in_current_state o) (_time_since_last_update o)
    (_request_manual_fill o) (_manual_fill_period o)
    (_post_pump_settle_period o).

Definition set_enable (v : bool) (o : TankManager) : TankManager :=
  mkTankManager (_feed_pump_drive_pin o) (_feed_tank_level_high_pin o)
    (_feed_tank_level_low_pin o) (_feed_tank_level_above_high o)
    (_feed_tank_level_above_low o) (_pump_active o) v (_enable_logging o)
    (_state o) (_time_in_current_state o) (_time_since_last_update o)
    (_request_manual_fill o) (_manual_fill_period o)
    (_post_pump_settle_period o).

Definition set_enable_logging (v : bool) (o : TankManager) : TankManager :=
  mkTankManager (_feed_pump_drive_pin o) (_feed_tank_level_high_pin o)
    (_feed_tank_level_low_pin o) (_feed_tank_level_above_high o)
    (_feed_tank_level_above_low o) (_pump_active o) (_enable o) v (_state o)
    (_time_in_current_state o) (_time_since_last_update o)
    (_request_manual_fill o) (_manual_fill_period o)
    (_post_pump_settle_period o).

Definition set_state (v : TANK_STATE_TYPE_T) (o : TankManager) : TankManager :=
  mkTankManager (_feed_pump_drive_pin o) (_feed_tank_level_high_pin o)
    (_feed_tank_level_low_pin o) (_feed_tank_level_above_high o)
    (_feed_tank_level_above_low o) (_pump_active o) (_enable o)
    (_enable_logging o) v (_time_in_current_state o)
    (_time_since_last_update o) (_request_manual_fill o)
    (_manual_fill_period o) (_post_pump_settle_period o).

Definition set_time_in_current_state (v : Z) (o : TankManager) : TankManager :=
  mkTankManager (_feed_pump_drive_pin o) (_feed_tank_level_high_pin o)
    (_feed_tank_level_low_pin o) (_feed_tank_level_above_high o)
    (_feed_tank_level_above_low o) (_pump_active o) (_enable o)
    (_enable_logging o) (_state o) v (_time_since_last_update o)
    (_request_manual_fill o) (_manual_fill_period o)
    (_post_pump_settle_period o).

Definition set_time_since_last_update (v : Z) (o : TankManager) : TankManager :=
  mkTankManager (_feed_pump_drive_pin o) (_feed_tank_level_high_pin o)
    (_feed_tank_level_low_pin o) (_feed_tank_level_above_high o)
    (_feed_tank_level_above_low o) (_pump_active o) (_enable o)
    (_enable_logging o) (_state o) (_time_in_current_state o) v
    (_request_manual_fill o) (_manual_fill_period o)
    (_post_pump_settle_period o).

Definition set_request_manual_fill (v : bool) (o : TankManager) : TankManager :=
  mkTankManager (_feed_pump_drive_pin o) (_feed_tank_level_high_pin o)
    (_feed_tank_level_low_pin o) (_feed_tank_level_above_high o)
    (_feed_tank_level_above_low o) (_pump_active o) (_enable o)
    (_enable_logging o) (_state o) (_time_in_current_state o)
    (_time_since_last_update o) v (_manual_fill_period o)
    (_post_pump_settle_period o).

Definition set_manual_fill_period (v : Z) (o : TankManager) : TankManager :=
  mkTankManager (_feed_pump_drive_pin o) (_feed_tank_level_high_pin o)
    (_feed_tank_level_low_pin o) (_feed_tank_level_above_high o)
    (_feed_tank_level_above_low o) (_pump_active o) (_enable o)
    (_enable_logging o) (_state o) (_time_in_current_state o)
    (_time_since_last_update o) (_request_manual_fill o) v
    (_post_pump_settle_period o).

Definition Method (A : Type) : Type := M TankManager A.

Definition update_feed_tank_level_status : Method unit :=
  high_pin <- this _feed_tank_level_high_pin ;;
  when (high_pin >=? 0)
    (level <- io_digitalRead high_pin ;;
     assign (set_feed_tank_level_above_high (negb level))) ;;
  low_pin <- this _feed_tank_level_low_pin ;;
  when (low_pin >=? 0)
    (level <- io_digitalRead low_pin ;;
     assign (set_feed_tank_level_above_low (negb level))).

Definition start_pumping : Method unit :=
  pin <- this _feed_pump_drive_pin ;;
  when (pin >=? 0)
    (io_digitalWrite pin HIGH ;;
     assign (set_pump_active true)).

Definition stop_pumping : Method unit :=
  pin <- this _feed_pump_drive_pin ;;
  when (pin >=? 0)
    (io_digitalWrite pin LOW ;;
     assign (set_pump_active false)).

Definition members (feed_pump_pin feed_tank_level_sense_low_pin
                    feed_tank_level_sense_high_pin : Z) : TankManager :=
  {| _feed_pump_drive_pin := feed_pump_pin;
     _feed_tank_level_high_pin := feed_tank_level_sense_high_pin;
     _feed_tank_level_low_pin := feed_tank_level_sense_low_pin;
     _feed_tank_level_above_high := false;
     _feed_tank_level_above_low := false;
     _pump_active := false;
     _enable := false;
     _enable_logging := false;
     _state := TANK_IDLE;
     _time_in_current_state := 0;
     _time_since_last_update := 0;
     _request_manual_fill := false;
     _manual_fill_period := 2000;
     _post_pump_settle_period := 1000 |}.

Definition constructor (feed_pump_pin feed_tank_level_sense_low_pin
                        feed_tank_level_sense_high_pin : Z)
                       (b : Board) : TankManager * Board :=
  snd (run stop_pumping
           (members feed_pump_pin feed_tank_level_sense_low_pin
                    feed_tank_level_sense_high_pin) b).

Definition Get_State : Method TANK_STATE_TYPE_T := this _state.

Definition Is_Feed_Tank_Above_High_Mark : Method bool :=
  this _feed_tank_level_above_high.

Definition Is_Feed_Tank_Above_Low_Mark : Method bool :=
  this _feed_tank_level_above_low.

Definition Is_Tank_Regulator_Enabled : Method bool := this _enable.

Definition Set_Regulator_Enable (enable : bool) : Method unit :=
  assign (set_enable enable).

Definition Manual_Fill (period : Z) : Method bool :=
  assign (set_manual_fill_period period) ;;
  assign (set_request_manual_fill true) ;;
  ret false.

Definition Is_Pump_Active : Method bool := this _pump_active.

Definition Enable_Logging : Method unit := assign (set_enable_logging true).

Definition Disable_Logging : Method unit := assign (set_enable_logging false).

Definition log_println (msg : string) : Method unit :=
  logging <- this _enable_logging ;;
  when logging (Serial_out (Println msg)).

(** The cases of the [switch (_state)]. *)
Definition case_TANK_IDLE : Method unit :=
  stop_pumping ;;
  request <- this _request_manual_fill ;;
  if request then
    assign (set_request_manual_fill false) ;;
    logging <- this _enable_logging ;;
    when logging
      (Serial_out (Print "TANK: Starting tank manual fill: ") ;;
       period <- this _manual_fill_period ;;
       Serial_out (PrintlnNum period)) ;;
    assign (set_state TANK_MANUAL_FILL) ;;
    assign (set_time_in_current_state 0)
  else
    enabled <- this _enable ;;
    when enabled
      (above_low <- Is_Feed_Tank_Above_Low_Mark ;;
       when (negb above_low)
         (assign (set_state TANK_FILL_ACTIVE) ;;
          assign (set_time_in_current_state 0) ;;
          log_println "TANK: IDLE to FILL_ACTIVE")).

Definition case_TANK_FILL_ACTIVE : Method unit :=
  enabled <- this _enable ;;
  when (negb enabled)
    (assign (set_state TANK_IDLE) ;;
     assign (set_time_in_current_state 0)) ;;
  start_pumping ;;
  above_high <- Is_Feed_Tank_Above_High_Mark ;;
  when above_high
    (stop_pumping ;;
     assign (set_state TANK_FILL_SETTLE) ;;
     assign (set_time_in_current_state 0) ;;
     log_println "TANK: FILL_ACTIVE to FILL_SETTLE") ;;
  t <- this _time_in_current_state ;;
  when (t >=? MAX_PUMP_FILL_TIME_MSEC)
    (FAULT_SET FAULT_TANK_FILL_TIMEOUT).

Definition case_TANK_FILL_SETTLE : Method unit :=
  enabled <- this _enable ;;
  when (negb enabled)
    (assign (set_state TANK_IDLE) ;;
     assign (set_time_in_current_state 0)) ;;
  stop_pumping ;;
  t <- this _time_in_current_state ;;
  settle <- this _post_pump_settle_period ;;
  when (t >=? settle)
    (assign (set_state TANK_IDLE) ;;
     assign (set_time_in_current_state 0) ;;
     log_println "TANK: FILL_SETTLE to TANK_IDLE").

Definition case_TANK_MANUAL_FILL : Method unit :=
  start_pumping ;;
  t <- this _time_in_current_state ;;
  period <- this _manual_fill_period ;;
  when (t >=? period)
    (assign (set_state TANK_IDLE) ;;
     assign (set_time_in_current_state 0)).

(** Stay here till the fault is manually cleared or system restarted. *)
Definition case_TANK_FILL_TIMEOUT_FAULT : Method unit := ret tt.

(** "Update the state machine to manage regulation sequencing": the
    [switch]. *)
Definition state_machine : Method unit :=
  st <- this _state ;;
  match st with
  | TANK_IDLE => case_TANK_IDLE
  | TANK_FILL_ACTIVE => case_TANK_FILL_ACTIVE
  | TANK_FILL_SETTLE => case_TANK_FILL_SETTLE
  | TANK_MANUAL_FILL => case_TANK_MANUAL_FILL
  | TANK_FILL_TIMEOUT_FAULT => case_TANK_FILL_TIMEOUT_FAULT
  end.

(** Periodic update of the tank manager. *)
Definition Update : Method bool :=
  update_feed_tank_level_status ;;
  above_low <- Is_Feed_Tank_Above_Low_Mark ;;
  above_high <- Is_Feed_Tank_Above_High_Mark ;;
  when (Bool.eqb above_low false && Bool.eqb above_high true)
    (FAULT_SET FAULT_TANK_LEVEL_SENSE_FAIL) ;;
  since <- this _time_since_last_update ;;
  if since <? TANK_UPDATE_PERIOD_MSEC then ret true
  else
    assign (set_time_since_last_update 0) ;;
    state_machine ;;
    ret false.

(** Milliseconds go by on both [elapsedMillis] members. *)
Definition elapse (dt : Z) (o : TankManager) : TankManager :=
  set_time_since_last_update (to_uint32 (_time_since_last_update o + dt))
    (set_time_in_current_state (to_uint32 (_time_in_current_state o + dt)) o).

(** The level the pump pin is driven at. *)
Definition pump_pin (w : TankManager * Board) : bool :=
  digitalRead (io_expander (snd w)) (_feed_pump_drive_pin (fst w)).

(** The rate limiter turns this call of [Update] away. *)
Definition rate_limited (o : TankManager) : bool :=
  _time_since_last_update o <? TANK_UPDATE_PERIOD_MSEC.

(** The state a call leaves, and the state after [dt] milliseconds. *)
Definition after {A} (c : Method A) (w : TankManager * Board)
  : TankManager * Board := snd (c w).

Definition wait (dt : Z) (w : TankManager * Board) : TankManager * Board :=
  (elapse dt (fst w), snd w).

(** The feed tank with both level switches dry (they read HIGH): pump on
    expander pin 8, low switch on pin 0, high switch on pin 1, no fault,
    regulator enabled. *)
Definition dry_tank : TankManager * Board :=
  after (Set_Regulator_Enable true)
        (constructor 8 0 1
           (mkBoard 0 (fun p => if p =? 0 then HIGH
                                else if p =? 1 then HIGH else LOW) [])).

(** The same tank, pumping for 10 ms. *)
Definition tank_pumping : TankManager * Board :=
  wait 10 (after Update (wait 10 (after Update (wait 10 dry_tank)))).

(** A tank in the middle of a manual fill of 2000 ms, and an idle tank
    with a manual fill requested, each due for an update. *)
Definition tank_in_manual_fill : TankManager :=
  set_time_since_last_update 10
    (set_time_in_current_state 500
       (set_state TANK_MANUAL_FILL (members 8 0 1))).

Definition tank_with_request : TankManager :=
  set_time_since_last_update 10
    (set_request_manual_fill true (set_manual_fill_period 150 (members 8 0 1))).

(** What can happen to the tank regulator and its board between two
    observations: a call of a public member function, time going by, or
    the rest of the firmware and the water acting on the board (faults,
    serial output, the level switches and other pins) without touching
    the pump pin, which this regulator owns. *)
Inductive step : TankManager * Board -> TankManager * Board -> Prop :=
| step_Update : forall w, step w (snd (Update w))
| step_Set_Regulator_Enable : forall w enable,
    step w (snd (Set_Regulator_Enable enable w))
| step_Manual_Fill : forall w period,
    uint32 period -> step w (snd (Manual_Fill period w))
| step_Enable_Logging : forall w, step w (snd (Enable_Logging w))
| step_Disable_Logging : forall w, step w (snd (Disable_Logging w))
| step_elapse : forall o b dt, 0 <= dt -> step (o, b) (elapse dt o, b)
| step_board : forall o b b',
    io_expander b' (_feed_pump_drive_pin o)
      = io_expander b (_feed_pump_drive_pin o) ->
    step (o, b) (o, b').

Inductive reachable (w0 : TankManager * Board) : TankManager * Board -> Prop :=
| reachable_start : reachable w0 w0
| reachable_step : forall w w', reachable w0 w -> step w w' -> reachable w0 w'.

(** The level switches read LOW when wet. *)
Definition high_switch_wet (w : TankManager * Board) : bool :=
  negb (digitalRead (io_expander (snd w)) (_feed_tank_level_high_pin (fst w))).

Definition low_switch_wet (w : TankManager * Board) : bool :=
  negb (digitalRead (io_expander (snd w)) (_feed_tank_level_low_pin (fst w))).

Definition fault_active (x : SYSTEM_FAULT_T) (w : TankManager * Board) : bool :=
  FAULT_ACTIVE_bits (system_faults (snd w)) x.

(** An idle, disabled tank whose high switch is wet and whose low switch
    is dry. *)
Definition contradicting_tank : TankManager * Board :=
  constructor 8 0 1
    (mkBoard 0 (fun p => if p =? 0 then HIGH else LOW) []).

End TankManager.

(** ** RangeUtil.h: the sensor around the filter

    The members of [RangeUtil] that [Startup] and [Update] use beside
    those of the filter; the filter's members are [_readings].  The
    VL53L1X driver is seen through what it answers during one call. *)

Module RangeSensor.

Inductive RANGE_SENSOR_STATE_T : Type :=
| RANGE_SENSOR_UNINITIALIZED
| RANGE_SENSOR_INIT_ERROR
| RANGE_SENSOR_WORKING
| RANGE_SENSOR_TIMEOUT.

Definition sensor_state_eqb (a b : RANGE_SENSOR_STATE_T) : bool :=
  match a, b with
  | RANGE_SENSOR_UNINITIALIZED, RANGE_SENSOR_UNINITIALIZED => true
  | RANGE_SENSOR_INIT_ERROR, RANGE_SENSOR_INIT_ERROR => true
  | RANGE_SENSOR_WORKING, RANGE_SENSOR_WORKING => true
  | RANGE_SENSOR_TIMEOUT, RANGE_SENSOR_TIMEOUT => true
  | _, _ => false
  end.

(** The answers of the driver: [init()], [dataReady()] and [read()]. *)
Record VL53L1X : Type := mkVL53L1X {
  init : bool;
  dataReady : bool;
  read : Z
}.

Record RangeUtil : Type := mkRangeUtil {
  _sensor_num : Z;
  _sensor_state : RANGE_SENSOR_STATE_T;
  _time_since_last_read_msec : Z;
  _readings : RangeUtil.RangeUtil
}.

Definition READ_TIMEOUT_MSEC : Z := 200.

Definition set_sensor_state (v : RANGE_SENSOR_STATE_T) (o : RangeUtil) : RangeUtil :=
  mkRangeUtil (_sensor_num o) v (_time_since_last_read_msec o) (_readings o).

Definition set_time_since_last_read_msec (v : Z) (o : RangeUtil) : RangeUtil :=
  mkRangeUtil (_sensor_num o) (_sensor_state o) v (_readings o).

Definition set_readings (v : RangeUtil.RangeUtil) (o : RangeUtil) : RangeUtil :=
  mkRangeUtil (_sensor_num o) (_sensor_state o) (_time_since_last_read_msec o) v.

Definition Method (A : Type) : Type := M RangeUtil A.

(** The constructor: the sensor number; the history of a global object
    is zero-filled. *)
Definition constructor (sensor_num : Z) : RangeUtil :=
  mkRangeUtil sensor_num RANGE_SENSOR_UNINITIALIZED 0 RangeUtil.zero_filled.

(** The [switch (_sensor_num)] of [Startup] and the one of [Update]. *)
Definition init_fault (sensor_num : Z) : SYSTEM_FAULT_T :=
  match sensor_num with
  | 1 => FAULT_VL53L1X_SENSOR_1_INIT_FAIL
  | 2 => FAULT_VL53L1X_SENSOR_2_INIT_FAIL
  | 3 => FAULT_VL53L1X_SENSOR_3_INIT_FAIL
  | _ => FAULT_VL53L1X_UNKNOWN_INIT_FAIL
  end.

Definition timeout_fault (sensor_num : Z) : SYSTEM_FAULT_T :=
  match sensor_num with
  | 1 => FAULT_VL53L1X_SENSOR_1_TIMEOUT
  | 2 => FAULT_VL53L1X_SENSOR_2_TIMEOUT
  | 3 => FAULT_VL53L1X_SENSOR_3_TIMEOUT
  | _ => FAULT_VL53L1X_UNKNOWN_TIMEOUT
  end.

(** Setup the range sensor.  The configuration calls on the driver leave
    no trace in the object. *)
Definition Startup (device : VL53L1X) : Method bool :=
  if Bool.eqb (init device) false then
    assign (set_sensor_state RANGE_SENSOR_INIT_ERROR) ;;
    Serial_out (Print "Failed to boot VL53L1X for sensor: ") ;;
    n <- this _sensor_num ;;
    Serial_out (PrintlnNum n) ;;
    FAULT_SET (init_fault n) ;;
    ret false
  else
    assign (set_sensor_state RANGE_SENSOR_WORKING) ;;
    ret true.

(** The filter's [process_reading] on the members of this object. *)
Definition process_reading (reading : Z) : Method Z :=
  r <- this _readings ;;
  assign (set_readings (snd (RangeUtil.process_reading reading r))) ;;
  ret (fst (RangeUtil.process_reading reading r)).

(** Range sensor master loop. *)
Definition Update (device : VL53L1X) : Method unit :=
  st <- this _sensor_state ;;
  when (sensor_state_eqb st RANGE_SENSOR_WORKING)
    (when (dataReady device)
       (current_range <- process_reading (read device) ;;
        assign (set_time_since_last_read_msec 0)) ;;
     t <- this _time_since_last_read_msec ;;
     when (t >=? READ_TIMEOUT_MSEC)
       (n <- this _sensor_num ;;
        FAULT_SET (timeout_fault n))).

Definition Get_State : Method RANGE_SENSOR_STATE_T := this _sensor_state.

Definition Get_Newest_Reading : Method Z :=
  r <- this _readings ;; ret (RangeUtil.Get_Newest_Reading r).

Definition Get_Median_Reading : Method Z :=
  r <- this _readings ;; ret (RangeUtil.Get_Median_Reading r).

(** Milliseconds go by. *)
Definition elapse (dt : Z) (o : RangeUtil) : RangeUtil :=
  set_time_since_last_read_msec (to_uint32 (_time_since_last_read_msec o + dt)) o.

(** A driver that has a reading, and one that has none. *)
Definition with_reading (reading : Z) : VL53L1X := mkVL53L1X true true reading.
Definition without_reading : VL53L1X := mkVL53L1X true false 0.

(** Sensor 2, started, 250 ms after its last reading. *)
Definition sensor_2_late : RangeUtil :=
  elapse 250 (set_sensor_state RANGE_SENSOR_WORKING (constructor 2)).

End RangeSensor.

(** ** ClockManager.h: the clock and its sleep window

    The RV-8803 driver is seen through what it answers during one call. *)

Module ClockManager.

Inductive CLOCK_MANAGER_STATE_T : Type :=
| CLOCK_MANAGER_UNINITIALIZED
| CLOCK_MANAGER_INIT_ERROR
| CLOCK_MANAGER_WORKING
| CLOCK_MANAGER_TIMEOUT.

Definition clock_state_eqb (a b : CLOCK_MANAGER_STATE_T) : bool :=
  match a, b with
  | CLOCK_MANAGER_UNINITIALIZED, CLOCK_MANAGER_UNINITIALIZED => true
  | CLOCK_MANAGER_INIT_ERROR, CLOCK_MANAGER_INIT_ERROR => true
  | CLOCK_MANAGER_WORKING, CLOCK_MANAGER_WORKING => true
  | CLOCK_MANAGER_TIMEOUT, CLOCK_MANAGER_TIMEOUT => true
  | _, _ => false
  end.

(** The answers of the driver: [begin()], [updateTime()], the getters,
    [setTime(...)] and [setEpoch(...)]. *)
Record RV8803 : Type := mkRV8803 {
  begin : bool;
  updateTime : bool;
  getSeconds : Z;
  getMinutes : Z;
  getHours : Z;
  getDate : Z;
  getWeekday : Z;
  getMonth : Z;
  getYear : Z;
  setTime : bool;
  setEpoch : bool
}.

Record ClockManager : Type := mkClockManager {
  _clock_manager_state : CLOCK_MANAGER_STATE_T;
  _time_since_last_update : Z;
  _online : bool;
  _rtc_seconds : Z;
  _rtc_minutes : Z;
  _rtc_hours : Z;
  _rtc_date : Z;
  _rtc_weekday : Z;
  _rtc_month : Z;
  _rtc_year : Z;
  _wake_hour : Z;
  _wake_min : Z;
  _sleep_hour : Z;
  _sleep_min : Z;
  _in_sleep : bool
}.

Definition RTC_UPDATE_PERIOD_MSEC : Z := 1000.

Definition set_clock_manager_state (v : CLOCK_MANAGER_STATE_T) (o : ClockManager) : ClockManager :=
  mkClockManager v (_time_since_last_update o) (_online o) (_rtc_seconds o)
    (_rtc_minutes o) (_rtc_hours o) (_rtc_date o) (_rtc_weekday o)
    (_rtc_month o) (_rtc_year o) (_wake_hour o) (_wake_min o) (_sleep_hour o)
    (_sleep_min o) (_in_sleep o).

Definition set_time_since_last_update (v : Z) (o : ClockManager) : ClockManager :=
  mkClockManager (_clock_manager_state o) v (_online o) (_rtc_seconds o)
    (_rtc_minutes o) (_rtc_hours o) (_rtc_date o) (_rtc_weekday o)
    (_rtc_month o) (_rtc_year o) (_wake_hour o) (_wake_min o) (_sleep_hour o)
    (_sleep_min o) (_in_sleep o).

Definition set_rtc_seconds (v : Z) (o : ClockManager) : ClockManager :=
  mkClockManager (_clock_manager_state o) (_time_since_last_update o)
    (_online o) v (_rtc_minutes o) (_rtc_hours o) (_rtc_date o)
    (_rtc_weekday o) (_rtc_month o) (_rtc_year o) (_wake_hour o) (_wake_min o)
    (_sleep_hour o) (_sleep_min o) (_in_sleep o).

Definition set_rtc_minutes (v : Z) (o : ClockManager) : ClockManager :=
  mkClockManager (_clock_manager_state o) (_time_since_last_update o)
    (_online o) (_rtc_seconds o) v (_rtc_hours o) (_rtc_date o)
    (_rtc_weekday o) (_rtc_month o) (_rtc_year o) (_wake_hour o) (_wake_min o)
    (_sleep_hour o) (_sleep_min o) (_in_sleep o).

Definition set_rtc_hours (v : Z) (o : ClockManager) : ClockManager :=
  mkClockManager (_clock_manager_state o) (_time_since_last_update o)
    (_online o) (_rtc_seconds o) (_rtc_minutes o) v (_rtc_date o)
    (_rtc_weekday o) (_rtc_month o) (_rtc_year o) (_wake_hour o) (_wake_min o)
    (_sleep_hour o) (_sleep_min o) (_in_sleep o).

Definition set_rtc_date (v : Z) (o : ClockManager) : ClockManager :=
  mkClockManager (_clock_manager_state o) (_time_since_last_update o)
    (_online o) (_rtc_seconds o) (_rtc_minutes o) (_rtc_hours o) v
    (_rtc_weekday o) (_rtc_month o) (_rtc_year o) (_wake_hour o) (_wake_min o)
    (_sleep_hour o) (_sleep_min o) (_in_sleep o).

Definition set_rtc_weekday (v : Z) (o : ClockManager) : ClockManager :=
  mkClockManager (_clock_manager_state o) (_time_since_last_update o)
    (_online o) (_rtc_seconds o) (_rtc_minutes o) (_rtc_hours o) (_rtc_date o)
    v (_rtc_month o) (_rtc_year o) (_wake_hour o) (_wake_min o)
    (_sleep_hour o) (_sleep_min o) (_in_sleep o).

Definition set_rtc_month (v : Z) (o : ClockManager) : ClockManager :=
  mkClockManager (_clock_manager_state o) (_time_since_last_update o)
    (_online o) (_rtc_seconds o) (_rtc_minutes o) (_rtc_hours o) (_rtc_date o)
    (_rtc_weekday o) v (_rtc_year o) (_wake_hour o) (_wake_min o)
    (_sleep_hour o) (_sleep_min o) (_in_sleep o).

Definition set_rtc_year (v : Z) (o : ClockManager) : ClockManager :=
  mkClockManager (_clock_manager_state o) (_time_since_last_update o)
    (_online o) (_rtc_seconds o) (_rtc_minutes o) (_rtc_hours o) (_rtc_date o)
    (_rtc_weekday o) (_rtc_month o) v (_wake_hour o) (_wake_min o)
    (_sleep_hour o) (_sleep_min o) (_in_sleep o).

Definition set_wake_hour (v : Z) (o : ClockManager) : ClockManager :=
  mkClockManager (_clock_manager_state o) (_time_since_last_update o)
    (_online o) (_rtc_seconds o) (_rtc_minutes o) (_rtc_hours o) (_rtc_date o)
    (_rtc_weekday o) (_rtc_month o) (_rtc_year o) v (_wake_min o)
    (_sleep_hour o) (_sleep_min o) (_in_sleep o).

Definition set_wake_min (v : Z) (o : ClockManager) : ClockManager :=
  mkClockManager (_clock_manager_state o) (_time_since_last_update o)
    (_online o) (_rtc_seconds o) (_rtc_minutes o) (_rtc_hours o) (_rtc_date o)
    (_rtc_weekday o) (_rtc_month o) (_rtc_year o) (_wake_hour o) v
    (_sleep_hour o) (_sleep_min o) (_in_sleep o).

Definition set_sleep_hour (v : Z) (o : ClockManager) : ClockManager :=
  mkClockManager (_clock_manager_state o) (_time_since_last_update o)
    (_online o) (_rtc_seconds o) (_rtc_minutes o) (_rtc_hours o) (_rtc_date o)
    (_rtc_weekday o) (_rtc_month o) (_rtc_year o) (_wake_hour o) (_wake_min o)
    v (_sleep_min o) (_in_sleep o).

Definition set_sleep_min (v : Z) (o : ClockManager) : ClockManager :=
  mkClockManager (_clock_manager_state o) (_time_since_last_update o)
    (_online o) (_rtc_seconds o) (_rtc_minutes o) (_rtc_hours o) (_rtc_date o)
    (_rtc_weekday o) (_rtc_month o) (_rtc_year o) (_wake_hour o) (_wake_min o)
    (_sleep_hour o) v (_in_sleep o).

Definition set_in_sleep (v : bool) (o : ClockManager) : ClockManager :=
  mkClockManager (_clock_manager_state o) (_time_since_last_update o)
    (_online o) (_rtc_seconds o) (_rtc_minutes o) (_rtc_hours o) (_rtc_date o)
    (_rtc_weekday o) (_rtc_month o) (_rtc_year o) (_wake_hour o) (_wake_min o)
    (_sleep_hour o) (_sleep_min o) v.

Definition Method (A : Type) : Type := M ClockManager A.

(** Detect if the current time is between the sleep and wake window.
    The three [uint32_t] locals are sums of products of promoted
    [uint8_t] members. *)
Definition detect_sleep_window : Method bool :=
  hours <- this _rtc_hours ;;
  minutes <- this _rtc_minutes ;;
  seconds <- this _rtc_seconds ;;
  wake_hour <- this _wake_hour ;;
  wake_min <- this _wake_min ;;
  sleep_hour <- this _sleep_hour ;;
  sleep_min <- this _sleep_min ;;
  let time_seconds := to_uint32 (hours * 3600 + minutes * 60 + seconds) in
  let wake_seconds := to_uint32 (wake_hour * 3600 + wake_min * 60) in
  let sleep_seconds := to_uint32 (sleep_hour * 3600 + sleep_min * 60) in
  let in_wake_window :=
    if wake_seconds <=? sleep_seconds
    then (time_seconds >=? wake_seconds) && (time_seconds <=? sleep_seconds)
    else (time_seconds >=? wake_seconds) || (time_seconds <=? sleep_seconds) in
  ret (negb in_wake_window).

(** Setup the clock manager. *)
Definition Startup (rtc : RV8803) : Method bool :=
  if Bool.eqb (begin rtc) false then
    FAULT_SET FAULT_RV8803_RTC_INIT_FAIL ;;
    assign (set_clock_manager_state CLOCK_MANAGER_INIT_ERROR) ;;
    Serial_out (Println "ERROR: offboard RV-8803 RTC device init fault!") ;;
    ret false
  else
    Serial_out (Println "RV-8803 offboard RTC online!") ;;
    assign (set_clock_manager_state CLOCK_MANAGER_WORKING) ;;
    ret true.

(** Master loop. *)
Definition Update (rtc : RV8803) : Method unit :=
  since <- this _time_since_last_update ;;
  when (since >=? RTC_UPDATE_PERIOD_MSEC)
    (assign (set_time_since_last_update 0) ;;
     st <- this _clock_manager_state ;;
     when (clock_state_eqb st CLOCK_MANAGER_WORKING)
       (if Bool.eqb (updateTime rtc) false then
          FAULT_SET FAULT_RV8803_RTC_READ_FAULT ;;
          Serial_out (Println "ERROR: Failed to read offboard RTC time!") ;;
          assign (set_clock_manager_state CLOCK_MANAGER_TIMEOUT)
        else
          assign (set_rtc_seconds (getSeconds rtc)) ;;
          assign (set_rtc_minutes (getMinutes rtc)) ;;
          assign (set_rtc_hours (getHours rtc)) ;;
          assign (set_rtc_date (getDate rtc)) ;;
          assign (set_rtc_weekday (getWeekday rtc)) ;;
          assign (set_rtc_month (getMonth rtc)) ;;
          assign (set_rtc_year (getYear rtc)) ;;
          sleeping <- detect_sleep_window ;;
          assign (set_in_sleep sleeping))).

Definition Is_Working : Method bool :=
  st <- this _clock_manager_state ;;
  ret (clock_state_eqb st CLOCK_MANAGER_WORKING).

Definition Is_Sleep_Time : Method bool := this _in_sleep.

(** Set time and date using discrete values for all time fields. *)
Definition Set_Time (rtc : RV8803) : Method bool :=
  st <- this _clock_manager_state ;;
  if clock_state_eqb st CLOCK_MANAGER_WORKING then
    if Bool.eqb (setTime rtc) false then
      FAULT_SET FAULT_RV8803_RTC_SET_TIME_FAULT ;;
      assign (set_clock_manager_state CLOCK_MANAGER_TIMEOUT) ;;
      Serial_out (Println "ERROR: Failed to set RTC time!") ;;
      ret false
    else ret true
  else ret false.

(** Set all time values with a single epoch number. *)
Definition Set_Time_Epoch (rtc : RV8803) : Method bool :=
  st <- this _clock_manager_state ;;
  if clock_state_eqb st CLOCK_MANAGER_WORKING then
    if Bool.eqb (setEpoch rtc) false then
      FAULT_SET FAULT_RV8803_RTC_SET_TIME_FAULT ;;
      assign (set_clock_manager_state CLOCK_MANAGER_TIMEOUT) ;;
      Serial_out (Println "ERROR: Failed to set RTC time Epoch!") ;;
      ret false
    else ret true
  else ret false.

Definition Set_Wake_Hour (hour : Z) : Method unit := assign (set_wake_hour hour).
Definition Set_Wake_Min (min : Z) : Method unit := assign (set_wake_min min).
Definition Set_Sleep_Hour (hour : Z) : Method unit := assign (set_sleep_hour hour).
Definition Set_Sleep_Min (min : Z) : Method unit := assign (set_sleep_min min).

(** The time of day and the two ends of the wake window, in seconds. *)
Definition time_seconds (o : ClockManager) : Z :=
  _rtc_hours o * 3600 + _rtc_minutes o * 60 + _rtc_seconds o.

Definition wake_seconds (o : ClockManager) : Z :=
  _wake_hour o * 3600 + _wake_min o * 60.

Definition sleep_seconds (o : ClockManager) : Z :=
  _sleep_hour o * 3600 + _sleep_min o * 60.

(** The [uint8_t] members that [detect_sleep_window] reads. *)
Definition time_typed (o : ClockManager) : Prop :=
  uint8 (_rtc_hours o) /\ uint8 (_rtc_minutes o) /\ uint8 (_rtc_seconds o) /\
  uint8 (_wake_hour o) /\ uint8 (_wake_min o) /\
  uint8 (_sleep_hour o) /\ uint8 (_sleep_min o).

(** A working clock at the given time of day, with the window of the
    comment above [detect_sleep_window]: wake at 07:00, sleep at 17:00. *)
Definition clock_at (hours minutes seconds : Z) : ClockManager :=
  mkClockManager CLOCK_MANAGER_WORKING 1001 false seconds minutes hours
    1 0 1 2024 7 0 17 0 false.

(** A driver that answers with the given time of day. *)
Definition rtc_at (hours minutes seconds : Z) : RV8803 :=
  mkRV8803 true true seconds minutes hours 1 0 1 2024 true true.

Definition rtc_offline : RV8803 :=
  mkRV8803 false false 0 0 0 0 0 0 0 false false.

(** Milliseconds go by on the [elapsedMillis] member. *)
Definition elapse (dt : Z) (o : ClockManager) : ClockManager :=
  set_time_since_last_update (to_uint32 (_time_since_last_update o + dt)) o.

(** What can happen to the clock manager short of a new [Startup]: a
    call of any other public member function that assigns to a member,
    whatever the driver answers, or time going by. *)
Inductive step : ClockManager * Board -> ClockManager * Board -> Prop :=
| step_Update : forall rtc w, step w (snd (Update rtc w))
| step_Set_Time : forall rtc w, step w (snd (Set_Time rtc w))
| step_Set_Time_Epoch : forall rtc w, step w (snd (Set_Time_Epoch rtc w))
| step_Set_Wake_Hour : forall hour w, step w (snd (Set_Wake_Hour hour w))
| step_Set_Wake_Min : forall min w, step w (snd (Set_Wake_Min min w))
| step_Set_Sleep_Hour : forall hour w, step w (snd (Set_Sleep_Hour hour w))
| step_Set_Sleep_Min : forall min w, step w (snd (Set_Sleep_Min min w))
| step_elapse : forall o b dt, 0 <= dt -> step (o, b) (elapse dt o, b).

Inductive reachable (w0 : ClockManager * Board) : ClockManager * Board -> Prop :=
| reachable_start : reachable w0 w0
| reachable_step : forall w w', reachable w0 w -> step w w' -> reachable w0 w'.

End ClockManager.

(** ** UIManager.h: the setpoint adjustment of the manual setpoint menu *)

Module UIManager.

(** [int16_t new_setpoint = cur_setpoint + inc_value]; the comparison
    promotes both sides to [int]; the result is returned as [uint16_t]. *)
Definition increment_setpoint (cur_setpoint inc_value setpoint_max : Z) : Z :=
  let new_setpoint := to_int16 (cur_setpoint + inc_value) in
  if new_setpoint >=? setpoint_max then setpoint_max
  else to_uint16 new_setpoint.

Definition decrement_setpoint (cur_setpoint dec_value setpoint_min : Z) : Z :=
  let new_setpoint := to_int16 (cur_setpoint - dec_value) in
  if new_setpoint <=? setpoint_min then setpoint_min
  else to_uint16 new_setpoint.

End UIManager.

(** * Properties *)

(** ** The median filter *)

Section MedianOfThree.
Import RangeUtil.

Lemma populated_inv (r : RangeUtil) :
  populated r ->
  exists a b c, _range_history r = [a; b; c] /\ uint16 a /\ uint16 b /\ uint16 c.
Proof.
  intros [Hlen Hall].
  destruct (_range_history r) as [|a [|b [|c [|d t]]]]; try discriminate Hlen.
  exists a, b, c.
  inversion Hall as [|? ? Ha Hbc]; subst.
  inversion Hbc as [|? ? Hb Hc]; subst.
  inversion Hc; subst.
  auto.
Qed.

Ltac perm3 :=
  first
    [ apply Permutation_refl
    | apply perm_swap
    | apply perm_skip; apply perm_swap
    | eapply perm_trans; [apply perm_swap | apply perm_skip; apply perm_swap]
    | eapply perm_trans; [apply perm_skip; apply perm_swap | apply perm_swap]
    | eapply perm_trans;
      [apply perm_swap
      | eapply perm_trans; [apply perm_skip; apply perm_swap | apply perm_swap]] ].

Ltac plain t :=
  lazymatch t with
  | Z0 => idtac
  | Zpos _ => idtac
  | _ => is_var t
  end.

(** Decide one comparison between plain terms, innermost first, and let
    the [if]s and projections around it reduce. *)
Ltac split_compare :=
  repeat (match goal with
          | |- context [?x <? ?y] =>
              plain x; plain y; destruct (Z.ltb_spec x y)
          end;
          cbn [max_range min_range max_range_index min_range_index];
          try lia).

Ltac index_cases j :=
  destruct j as [|[|[|j]]]; cbn in *; try lia.

Ltac check_indices :=
  repeat split; try lia; try discriminate;
  let j := fresh "j" in
  let Hj := fresh "Hj" in
  intros j Hj; index_cases j; auto.

Ltac merge_equal x y := try (assert (y = x) by lia; subst y).

Ltac pick_neighbours :=
  lazymatch goal with
  | |- exists lo hi, Permutation _ [?x; ?y; ?z] /\ _ =>
      first
        [ exists x, y; split; [perm3 | lia]
        | exists x, z; split; [perm3 | lia]
        | exists y, x; split; [perm3 | lia]
        | exists y, z; split; [perm3 | lia]
        | exists z, x; split; [perm3 | lia]
        | exists z, y; split; [perm3 | lia]
        | exists x, x; split; [perm3 | lia] ]
  end.

Example median_10_10_20 : Get_Median_Reading (feed [10; 10; 20] zero_filled) = 10.
Proof. reflexivity. Qed.

Example median_5_20_20 : Get_Median_Reading (feed [5; 20; 20] zero_filled) = 20.
Proof. reflexivity. Qed.

Example median_all_equal : Get_Median_Reading (feed [7; 7; 7] zero_filled) = 7.
Proof. reflexivity. Qed.

(** C6. After a reading is inserted into a populated 3-slot history, the
    history holds the new reading followed by the two newest old ones,
    and [Get_Median_Reading] (which is also what [process_reading]
    returns) is the middle of these three 16-bit samples by numeric order,
    ties included.  The index it reads is the least index that is neither
    the first index of the maximum nor the first index of the minimum. *)
Theorem C6_median_of_three (r : RangeUtil) (reading : Z) :
  populated r -> uint16 reading ->
  let r' := snd (process_reading reading r) in
  _range_history r'
    = [reading; at_index (_range_history r) 0; at_index (_range_history r) 1] /\
  fst (process_reading reading r) = Get_Median_Reading r' /\
  middle_value (_range_history r') (Get_Median_Reading r') /\
  exists imax imin,
    first_max_index (_range_history r') imax /\
    first_min_index (_range_history r') imin /\
    _median_index r' <> imax /\ _median_index r' <> imin /\
    forall j, (j < _median_index r')%nat -> j = imax \/ j = imin.
Proof.
  intros Hp Hr.
  destruct (populated_inv r Hp) as (a & b & c & Hh & Ha & Hb & Hc).
  unfold process_reading, Get_Median_Reading. rewrite Hh.
  cbn [store at_index nth snd fst _range_history _median_index].
  split; [reflexivity|]. split; [reflexivity|].
  unfold find_extremes, find_median_index, middle_value,
    first_max_index, first_min_index.
  cbn [seq HISTORY_SIZE fold_left].
  unfold scan_step, at_index.
  cbn [nth max_range min_range max_range_index min_range_index].
  rewrite !Z.gtb_ltb.
  unfold uint16 in *. change (2 ^ 16) with 65536 in *.
  split_compare; cbn.
  all: split;
    [ merge_equal reading a; merge_equal reading b; merge_equal a b;
      pick_neighbours
    | ].
  all: first
         [ exists 0%nat, 0%nat; solve [check_indices]
         | exists 0%nat, 1%nat; solve [check_indices]
         | exists 0%nat, 2%nat; solve [check_indices]
         | exists 1%nat, 0%nat; solve [check_indices]
         | exists 1%nat, 2%nat; solve [check_indices]
         | exists 2%nat, 0%nat; solve [check_indices]
         | exists 2%nat, 1%nat; solve [check_indices] ].
Qed.

(** The theorem at the specification's first sample run. *)
Lemma C6_median_of_three_witness :
  populated (feed [10; 10] zero_filled) /\ uint16 20 /\
  middle_value [20; 10; 10]
               (Get_Median_Reading (snd (process_reading 20 (feed [10; 10] zero_filled)))).
Proof.
  assert (Hp : populated (feed [10; 10] zero_filled)).
  { split; [reflexivity|]. cbn. repeat constructor; unfold uint16; lia. }
  assert (Hr : uint16 20) by (unfold uint16; lia).
  split; [exact Hp|]. split; [exact Hr|].
  exact (proj1 (proj2 (proj2 (C6_median_of_three _ 20 Hp Hr)))).
Defined.

(** *** The filter on a stream of readings *)

(** The median of the new history, from the two samples that stay. *)
Lemma median_of_new_history (r : RangeUtil) (reading a b c : Z) :
  _range_history r = [a; b; c] ->
  uint16 reading -> uint16 a -> uint16 b ->
  let r' := snd (process_reading reading r) in
  let m := Get_Median_Reading r' in
  _range_history r' = [reading; a; b] /\
  middle_value [reading; a; b] m /\
  ((reading <= m /\ a <= m) \/ (reading <= m /\ b <= m) \/ (a <= m /\ b <= m)) /\
  ((m <= reading /\ m <= a) \/ (m <= reading /\ m <= b) \/ (m <= a /\ m <= b)).
Proof.
  intros Hh Hr Ha Hb.
  unfold process_reading, Get_Median_Reading. rewrite Hh.
  cbn [store at_index nth snd fst _range_history _median_index].
  split; [reflexivity|].
  unfold find_extremes, find_median_index, middle_value.
  cbn [seq HISTORY_SIZE fold_left].
  unfold scan_step, at_index.
  cbn [nth max_range min_range max_range_index min_range_index].
  rewrite !Z.gtb_ltb.
  unfold uint16 in *. change (2 ^ 16) with 65536 in *.
  split_compare; cbn.
  all: split; [| split; lia].
  all: merge_equal reading a; merge_equal reading b; merge_equal a b;
    pick_neighbours.
Qed.

Lemma process_reading_length (r : RangeUtil) (reading : Z) :
  List.length (_range_history r) = HISTORY_SIZE ->
  List.length (_range_history (snd (process_reading reading r))) = HISTORY_SIZE.
Proof.
  intros Hlen.
  destruct (_range_history r) as [|a [|b [|c [|d t]]]] eqn:Hh;
    try discriminate Hlen.
  unfold process_reading. rewrite Hh. reflexivity.
Qed.

Lemma feed_length (l : list Z) (r : RangeUtil) :
  List.length (_range_history r) = HISTORY_SIZE ->
  List.length (_range_history (feed l r)) = HISTORY_SIZE.
Proof.
  revert r. induction l as [|x l IH]; intros r Hlen; [exact Hlen|].
  cbn [feed fold_left]. apply IH, process_reading_length, Hlen.
Qed.

Lemma process_reading_history (r : RangeUtil) (reading a b c : Z) :
  _range_history r = [a; b; c] ->
  _range_history (snd (process_reading reading r)) = [reading; a; b].
Proof. intros Hh. unfold process_reading. rewrite Hh. reflexivity. Qed.

(** X3. The filter rejects a single outlier: when two of the three
    samples of the new history lie in a band, so does the median. *)
Theorem X3_median_rejects_one_outlier (r : RangeUtil) (reading lo hi : Z) :
  populated r -> uint16 reading ->
  let a := at_index (_range_history r) 0 in
  let b := at_index (_range_history r) 1 in
  (lo <= reading <= hi /\ lo <= a <= hi) \/
  (lo <= reading <= hi /\ lo <= b <= hi) \/
  (lo <= a <= hi /\ lo <= b <= hi) ->
  lo <= Get_Median_Reading (snd (process_reading reading r)) <= hi.
Proof.
  intros Hp Hr.
  destruct (populated_inv r Hp) as (a & b & c & Hh & Ha & Hb & Hc).
  rewrite Hh. cbn [at_index nth]. intros Hband.
  destruct (median_of_new_history r reading a b c Hh Hr Ha Hb)
    as (_ & _ & Hle & Hge).
  cbv zeta in Hle, Hge. lia.
Qed.

Lemma X3_median_rejects_one_outlier_witness :
  148 <= Get_Median_Reading
           (snd (process_reading 4000 (feed [150; 149] zero_filled))) <= 152.
Proof.
  assert (Hp : populated (feed [150; 149] zero_filled)).
  { split; [reflexivity|]. cbn. repeat constructor; unfold uint16; lia. }
  assert (Hr : uint16 4000) by (unfold uint16; lia).
  apply (X3_median_rejects_one_outlier _ 4000 148 152 Hp Hr).
  right; right. cbn. lia.
Defined.

(** X4. The filter forgets: after any run of readings that ends with
    the 16-bit readings [a], [b], [c], the history is [c; b; a] and the
    median is their middle value, whatever came before. *)
Theorem X4_median_depends_on_last_three
  (r : RangeUtil) (earlier : list Z) (a b c : Z) :
  List.length (_range_history r) = HISTORY_SIZE ->
  uint16 a -> uint16 b -> uint16 c ->
  let r' := feed (earlier ++ [a; b; c]) r in
  _range_history r' = [c; b; a] /\
  Get_Newest_Reading r' = c /\
  middle_value [c; b; a] (Get_Median_Reading r').
Proof.
  intros Hlen Ha Hb Hc. cbv zeta.
  unfold feed. rewrite fold_left_app. fold (feed earlier r).
  pose proof (feed_length earlier r Hlen) as Hlen'.
  destruct (_range_history (feed earlier r)) as [|x [|y [|z [|u t]]]] eqn:Hh;
    try discriminate Hlen'.
  cbn [fold_left].
  pose proof (process_reading_history _ a x y z Hh) as H1.
  pose proof (process_reading_history _ b a x y H1) as H2.
  destruct (median_of_new_history _ c b a x H2 Hc Hb Ha) as (H3 & Hmid & _).
  cbv zeta in Hmid.
  split; [exact H3|]. split; [|exact Hmid].
  unfold Get_Newest_Reading. rewrite H3. reflexivity.
Qed.

Lemma X4_median_depends_on_last_three_witness :
  _range_history (feed ([7; 9000] ++ [150; 152; 151]) zero_filled)
  = [151; 152; 150].
Proof.
  assert (H : uint16 150 /\ uint16 152 /\ uint16 151)
    by (unfold uint16; lia).
  destruct H as (Ha & Hb & Hc).
  exact (proj1 (X4_median_depends_on_last_three zero_filled [7; 9000]
                  150 152 151 eq_refl Ha Hb Hc)).
Defined.

End MedianOfThree.

(** ** Reasoning about computations *)

Section Logic.
Context {Obj : Type}.
Implicit Types (w : Obj * Board).

Lemma wp_bind {A B} (c : M Obj A) (k : A -> M Obj B) Q w :
  wp c (fun a w' => wp (k a) Q w') w -> wp (bind c k) Q w.
Proof. unfold wp, bind. destruct (c w) as [a w']. auto. Qed.

Lemma wp_ret {A} (a : A) (Q : A -> Obj * Board -> Prop) w :
  Q a w -> wp (ret a) Q w.
Proof. auto. Qed.

Lemma wp_this {A} (f : Obj -> A) (Q : A -> Obj * Board -> Prop) w :
  Q (f (fst w)) w -> wp (this f) Q w.
Proof. auto. Qed.

Lemma wp_assign (f : Obj -> Obj) (Q : unit -> Obj * Board -> Prop) w :
  Q tt (f (fst w), snd w) -> wp (assign f) Q w.
Proof. auto. Qed.

Lemma wp_board {A} (f : Board -> A) (Q : A -> Obj * Board -> Prop) w :
  Q (f (snd w)) w -> wp (board f) Q w.
Proof. auto. Qed.

Lemma wp_on_board (f : Board -> Board) (Q : unit -> Obj * Board -> Prop) w :
  Q tt (fst w, f (snd w)) -> wp (on_board f) Q w.
Proof. auto. Qed.

Lemma wp_when (b : bool) (c : M Obj unit) Q w :
  (b = true -> wp c Q w) -> (b = false -> Q tt w) -> wp (when b c) Q w.
Proof.
  intros Ht Hf. destruct b; [exact (Ht eq_refl) | exact (Hf eq_refl)].
Qed.

Lemma wp_if {A} (b : bool) (c1 c2 : M Obj A) Q w :
  (b = true -> wp c1 Q w) -> (b = false -> wp c2 Q w) ->
  wp (if b then c1 else c2) Q w.
Proof.
  intros Ht Hf. destruct b; [exact (Ht eq_refl) | exact (Hf eq_refl)].
Qed.

Lemma wp_conseq {A} (c : M Obj A) (Q Q' : A -> Obj * Board -> Prop) w :
  wp c Q' w -> (forall a w', Q' a w' -> Q a w') -> wp c Q w.
Proof. unfold wp. auto. Qed.

Lemma wp_preserves {A} (c : M Obj A) (P : Obj * Board -> Prop) w :
  preserves P c -> P w -> wp c (fun _ w' => P w') w.
Proof. unfold wp, preserves. auto. Qed.

Lemma preserves_bind {A B} P (c : M Obj A) (k : A -> M Obj B) :
  preserves P c -> (forall a, preserves P (k a)) -> preserves P (bind c k).
Proof.
  unfold preserves, bind. intros Hc Hk w Hw.
  specialize (Hc w Hw). destruct (c w) as [a w']. apply Hk, Hc.
Qed.

Lemma preserves_ret {A} P (a : A) : preserves P (ret (Obj := Obj) a).
Proof. intros w Hw. exact Hw. Qed.

Lemma preserves_this {A} P (f : Obj -> A) : preserves P (this f).
Proof. intros w Hw. exact Hw. Qed.

Lemma preserves_board {A} P (f : Board -> A) : preserves P (board (Obj := Obj) f).
Proof. intros w Hw. exact Hw. Qed.

Lemma preserves_when P (b : bool) (c : M Obj unit) :
  preserves P c -> preserves P (when b c).
Proof. destruct b; [auto | intros _; apply preserves_ret]. Qed.

Lemma preserves_if {A} P (b : bool) (c1 c2 : M Obj A) :
  preserves P c1 -> preserves P c2 -> preserves P (if b then c1 else c2).
Proof. destruct b; auto. Qed.

Lemma preserves_assign P (f : Obj -> Obj) :
  (forall o b, P (o, b) -> P (f o, b)) -> preserves P (assign f).
Proof. intros H [o b] Hw. apply H, Hw. Qed.

Lemma preserves_on_board P (f : Board -> Board) :
  (forall o b, P (o, b) -> P (o, f b)) -> preserves P (on_board (Obj := Obj) f).
Proof. intros H [o b] Hw. apply H, Hw. Qed.

End Logic.

(** Walk down a computation whose parts all keep [P]; [leaf] settles the
    assignments and the board accesses, [block] the member functions that
    are taken whole. *)
Ltac preserving block leaf :=
  repeat
    (intros;
     lazymatch goal with
     | |- preserves _ (bind _ _) => apply preserves_bind
     | |- preserves _ (ret _) => apply preserves_ret
     | |- preserves _ (this _) => apply preserves_this
     | |- preserves _ (board _) => apply preserves_board
     | |- preserves _ (when _ _) => apply preserves_when
     | |- preserves _ (if _ then _ else _) => apply preserves_if
     | |- preserves _ (assign _) => apply preserves_assign; leaf
     | |- preserves _ (on_board _) => apply preserves_on_board; leaf
     | |- preserves _ (match ?x with _ => _ end) => destruct x
     | |- preserves _ _ => block
     end).

(** Run a computation forwards from a given state: [reduce] computes the
    member accesses, [known] rewrites with what is known of the state,
    [methods] opens the member functions met on the way. *)
Ltac wp_forwards reduce known methods :=
  repeat (reduce; known; reduce;
          lazymatch goal with
          | |- wp (bind _ _) _ _ => apply wp_bind
          | |- wp (ret _) _ _ => apply wp_ret
          | |- wp (this _) _ _ => apply wp_this
          | |- wp (assign _) _ _ => apply wp_assign
          | |- wp (board _) _ _ => apply wp_board
          | |- wp (on_board _) _ _ => apply wp_on_board
          | |- wp (when _ _) _ _ => apply wp_when; intro
          | |- wp (if _ then _ else _) _ _ => apply wp_if; intro
          | |- wp (match ?x with _ => _ end) _ _ => destruct x
          | |- wp _ _ _ => methods
          end);
  reduce.

(** ** Fault bits *)

Lemma fault_bit_range (x : SYSTEM_FAULT_T) : 0 <= fault_bit x < 32.
Proof. destruct x; cbn; lia. Qed.

Lemma FAULT_ACTIVE_testbit (faults : Z) (x : SYSTEM_FAULT_T) :
  FAULT_ACTIVE_bits faults x = Z.testbit faults (fault_bit x).
Proof.
  unfold FAULT_ACTIVE_bits.
  pose proof (fault_bit_range x) as Hx.
  rewrite Z.shiftl_1_l.
  destruct (Z.testbit faults (fault_bit x)) eqn:Hb.
  - apply negb_true_iff, Z.eqb_neq. intros H0.
    assert (Ht : Z.testbit (Z.land faults (2 ^ fault_bit x)) (fault_bit x) = true).
    { rewrite Z.land_spec, Hb, Z.pow2_bits_true by lia. reflexivity. }
    rewrite H0, Z.bits_0 in Ht. discriminate.
  - apply negb_false_iff, Z.eqb_eq. apply Z.bits_inj'. intros n Hn.
    rewrite Z.land_spec, Z.bits_0.
    destruct (Z.eq_dec n (fault_bit x)) as [->|Hne].
    + rewrite Hb. reflexivity.
    + rewrite Z.pow2_bits_false by lia. apply andb_false_r.
Qed.

Lemma FAULT_SET_active (faults : Z) (x : SYSTEM_FAULT_T) :
  FAULT_ACTIVE_bits (FAULT_SET_bits faults x) x = true.
Proof.
  pose proof (fault_bit_range x) as Hx.
  rewrite FAULT_ACTIVE_testbit. unfold FAULT_SET_bits.
  rewrite Z.lor_spec, Z.shiftl_1_l, Z.pow2_bits_true by lia.
  apply orb_true_r.
Qed.

Lemma FAULT_SET_others (faults : Z) (x y : SYSTEM_FAULT_T) :
  x <> y ->
  FAULT_ACTIVE_bits (FAULT_SET_bits faults x) y = FAULT_ACTIVE_bits faults y.
Proof.
  intros Hxy.
  pose proof (fault_bit_range x) as Hx. pose proof (fault_bit_range y) as Hy.
  rewrite !FAULT_ACTIVE_testbit. unfold FAULT_SET_bits.
  rewrite Z.lor_spec, Z.shiftl_1_l, Z.pow2_bits_false; [apply orb_false_r|].
  intros Heq. apply Hxy. destruct x, y; cbn in Heq; congruence.
Qed.

(** ** The column regulator *)

Section Column.
Import ColumnManager.

Ltac reduce_members :=
  cbn [fst snd negb andb orb when control_error_eqb resting
       _feed_valve_actuator_pin _drain_valve_actuator_pin _column_num
       _setpoint_mm _elevation_lower_limit _elevation_upper_limit _elevation_mm
       _setpoint_deadband _regulator_enable _logging_enable _state
       _time_in_current_state _manual_drain_period _manual_fill_period
       _drain_dwell_period _fill_dwell_period _max_column_drain_period
       _max_column_fill_period _request_manual_fill _request_manual_drain
       _control_error_state system_faults io_expander Serial
       set_setpoint_mm set_elevation_mm set_regulator_enable set_logging_enable
       set_state set_time_in_current_state set_manual_drain_period
       set_manual_fill_period set_request_manual_fill set_request_manual_drain
       set_control_error_state] in *.

Ltac unfold_board_ops :=
  unfold FAULT_ACTIVE, FAULT_SET, io_digitalWrite, io_digitalRead, Serial_out.

(** An assignment or a board access that the invariant does not look at. *)
Ltac untouched :=
  let o := fresh "o" in
  let b := fresh "b" in
  let H := fresh "H" in
  intros o b H; reduce_members; exact H.

(** State [P (snd (c w))] as a [wp]. *)
Ltac as_wp :=
  lazymatch goal with
  | |- ?P (snd (?c ?w)) => change (wp c (fun _ w' => P w') w)
  end.

Lemma control_loop_update_run (w : ColumnManager * Board) :
  control_loop_update w = (fst (control_loop_update w), w).
Proof.
  unfold control_loop_update, bind, this, ret; cbn [fst snd].
  destruct (_ <=? _); [reflexivity|]. destruct (_ >? _); reflexivity.
Qed.

Lemma control_loop_update_preserves P : preserves P control_loop_update.
Proof. intros w Hw. rewrite control_loop_update_run. exact Hw. Qed.

Lemma store_inputs_run e s o b :
  store_inputs e s (o, b)
  = (tt, (set_setpoint_mm (clamped o s) (set_elevation_mm e o), b)).
Proof.
  unfold store_inputs, clamped, bind, this, assign, when, ret.
  reduce_members.
  destruct (s <? _elevation_lower_limit o); reduce_members;
    destruct (_ >? _elevation_upper_limit o); reflexivity.
Qed.

Lemma wp_store_inputs e s Q o b :
  Q tt (set_setpoint_mm (clamped o s) (set_elevation_mm e o), b) ->
  wp (store_inputs e s) Q (o, b).
Proof. unfold wp. rewrite store_inputs_run. auto. Qed.

Lemma wp_control_loop_update Q w :
  Q (fst (control_loop_update w)) w -> wp control_loop_update Q w.
Proof. unfold wp. rewrite control_loop_update_run. auto. Qed.

Lemma wp_board_only (c : Method unit) Q w :
  board_only c -> (forall b', Q tt (fst w, b')) -> wp c Q w.
Proof. intros Hc HQ. unfold wp. destruct (Hc w) as [b' ->]. apply HQ. Qed.

Ltac board_only_op :=
  intros [o b];
  unfold stop_flows, start_filling, start_draining, log_line;
  unfold_board_ops; unfold bind, this, board, on_board, when, ret;
  reduce_members;
  repeat match goal with
         | |- context [if ?c then _ else _] => destruct c; reduce_members
         end;
  eexists; reflexivity.

Lemma stop_flows_board_only : board_only stop_flows.
Proof. board_only_op. Qed.

Lemma start_filling_board_only : board_only start_filling.
Proof. board_only_op. Qed.

Lemma start_draining_board_only : board_only start_draining.
Proof. board_only_op. Qed.

Lemma log_line_board_only msg : board_only (log_line msg).
Proof. board_only_op. Qed.

(** Run [Update] forwards.  [blocks] says how the valve operations and
    the logging are taken, [known] rewrites with what is known. *)
Ltac column_methods blocks :=
  lazymatch goal with
  | |- wp (store_inputs _ _) _ _ => apply wp_store_inputs
  | |- wp control_loop_update _ _ => apply wp_control_loop_update
  | |- wp (Update _ _) _ _ => unfold Update
  | |- wp manual_requests _ _ => unfold manual_requests
  | |- wp state_machine _ _ => unfold state_machine
  | |- wp case_COLUMN_IDLE _ _ => unfold case_COLUMN_IDLE
  | |- wp case_COLUMN_DRAIN_ACTIVE _ _ => unfold case_COLUMN_DRAIN_ACTIVE
  | |- wp case_COLUMN_DRAIN_SETTLE _ _ => unfold case_COLUMN_DRAIN_SETTLE
  | |- wp case_COLUMN_FILL_ACTIVE _ _ => unfold case_COLUMN_FILL_ACTIVE
  | |- wp case_COLUMN_FILL_SETTLE _ _ => unfold case_COLUMN_FILL_SETTLE
  | |- wp case_COLUMN_MANUAL_DRAIN _ _ => unfold case_COLUMN_MANUAL_DRAIN
  | |- wp case_COLUMN_MANUAL_FILL _ _ => unfold case_COLUMN_MANUAL_FILL
  | |- wp case_COLUMN_ERROR_STATE _ _ => unfold case_COLUMN_ERROR_STATE
  | |- wp (Serial_out _) _ _ => unfold Serial_out
  | |- wp _ _ _ => blocks
  end.

Ltac wp_walk blocks known :=
  wp_forwards ltac:(reduce_members) known ltac:(idtac; column_methods blocks).

(** Looking at the object only: the board is forgotten at each valve
    operation and each log line. *)
Ltac blocks_forgotten :=
  lazymatch goal with
  | |- wp stop_flows _ _ =>
      apply (wp_board_only _ _ _ stop_flows_board_only); intro
  | |- wp start_filling _ _ =>
      apply (wp_board_only _ _ _ start_filling_board_only); intro
  | |- wp start_draining _ _ =>
      apply (wp_board_only _ _ _ start_draining_board_only); intro
  | |- wp (log_line _) _ _ =>
      apply (wp_board_only _ _ _ (log_line_board_only _)); intro
  end.

(** Looking at the board too. *)
Ltac blocks_opened :=
  lazymatch goal with
  | |- wp stop_flows _ _ => unfold stop_flows; unfold_board_ops
  | |- wp start_filling _ _ => unfold start_filling; unfold_board_ops
  | |- wp start_draining _ _ => unfold start_draining; unfold_board_ops
  | |- wp (log_line _) _ _ => unfold log_line; unfold_board_ops
  end.

Ltac wp_object known := wp_walk ltac:(idtac; blocks_forgotten) known.
Ltac wp_full known := wp_walk ltac:(idtac; blocks_opened) known.

Ltac unfold_methods :=
  unfold Update, store_inputs, manual_requests, state_machine,
    case_COLUMN_IDLE, case_COLUMN_DRAIN_ACTIVE, case_COLUMN_DRAIN_SETTLE,
    case_COLUMN_FILL_ACTIVE, case_COLUMN_FILL_SETTLE,
    case_COLUMN_MANUAL_DRAIN, case_COLUMN_MANUAL_FILL, case_COLUMN_ERROR_STATE,
    Set_Regulator_Enable, Set_Elevation_Reading_MM, Manual_Drain, Manual_Fill,
    Enable_Logging, Disable_Logging.

Ltac unfold_blocks :=
  unfold stop_flows, start_filling, start_draining, log_line;
  unfold_board_ops.

Ltac keeps leaf :=
  unfold_methods; unfold_blocks;
  preserving ltac:(apply control_loop_update_preserves) leaf.


Lemma Update_keeps_faults e s F :
  preserves (fun w => system_faults (snd w) = F) (Update e s).
Proof. keeps untouched. Qed.


Lemma Update_keeps_pins e s feed drain :
  preserves (fun w => _feed_valve_actuator_pin (fst w) = feed /\
                      _drain_valve_actuator_pin (fst w) = drain) (Update e s).
Proof. keeps untouched. Qed.


Lemma state_machine_keeps_no_requests :
  preserves (fun w => no_requests (fst w)) state_machine.
Proof. unfold no_requests. keeps untouched. Qed.

(** After [Update] no manual request is pending. *)
Lemma Update_clears_requests e s w : no_requests (fst (snd (Update e s w))).
Proof.
  change (wp (Update e s) (fun _ w' => no_requests (fst w')) w).
  destruct w as [o b]. unfold Update.
  apply wp_bind, wp_store_inputs, wp_bind.
  apply wp_conseq with (Q' := fun _ w' => no_requests (fst w')).
  - destruct o. unfold no_requests.
    wp_object idtac; auto.
  - intros _ w' Hw'. apply wp_bind, wp_control_loop_update, wp_bind, wp_assign.
    apply wp_preserves with (P := fun w => no_requests (fst w)).
    + apply state_machine_keeps_no_requests.
    + destruct w' as [o' b']. exact Hw'.
Qed.



Ltac split_control_error :=
  repeat match goal with
         | H : context [fst (control_loop_update ?w)] |- _ =>
             destruct (fst (control_loop_update w))
         end.

(** The error state is left by a manual request only. *)
Lemma Update_error_state_stays e s o b :
  _state o = COLUMN_ERROR_STATE -> no_requests o ->
  _state (fst (snd (Update e s (o, b)))) = COLUMN_ERROR_STATE.
Proof.
  intros Hst [Hrf Hrd].
  change (wp (Update e s)
             (fun _ w' => _state (fst w') = COLUMN_ERROR_STATE) (o, b)).
  destruct o. reduce_members. subst.
  wp_object idtac; reflexivity.
Qed.

(** The fill timeout: error state, and no other way out of FillActive
    while the error stays Positive. *)
Lemma Update_from_fill_active e s o b :
  _state o = COLUMN_FILL_ACTIVE -> _regulator_enable o = true ->
  no_requests o ->
  let o' := fst (snd (Update e s (o, b))) in
  _state o'
  = match _control_error_state o' with
    | CONTROL_ERROR_POSITIVE =>
        if _time_in_current_state o >=? _max_column_fill_period o
        then COLUMN_ERROR_STATE else COLUMN_FILL_ACTIVE
    | _ => COLUMN_FILL_SETTLE
    end.
Proof.
  intros Hst Hen [Hrf Hrd].
  change (wp (Update e s)
             (fun _ w' =>
                _state (fst w')
                = match _control_error_state (fst w') with
                  | CONTROL_ERROR_POSITIVE =>
                      if _time_in_current_state o >=? _max_column_fill_period o
                      then COLUMN_ERROR_STATE else COLUMN_FILL_ACTIVE
                  | _ => COLUMN_FILL_SETTLE
                  end) (o, b)).
  destruct o. reduce_members. subst.
  wp_object idtac; split_control_error; try discriminate;
    repeat match goal with
           | H : (_ >=? _) = _ |- _ => rewrite H
           end;
    reflexivity.
Qed.

(** Disabled in an active state: the settle state, and the board as it
    was, so that an open valve stays open. *)
Lemma Update_disabled_in_active e s o b :
  _regulator_enable o = false -> no_requests o ->
  (_state o = COLUMN_FILL_ACTIVE ->
   _state (fst (snd (Update e s (o, b)))) = COLUMN_FILL_SETTLE /\
   snd (snd (Update e s (o, b))) = b) /\
  (_state o = COLUMN_DRAIN_ACTIVE ->
   _state (fst (snd (Update e s (o, b)))) = COLUMN_DRAIN_SETTLE /\
   snd (snd (Update e s (o, b))) = b).
Proof.
  intros Hen [Hrf Hrd].
  change (wp (Update e s)
             (fun _ w' =>
                (_state o = COLUMN_FILL_ACTIVE ->
                 _state (fst w') = COLUMN_FILL_SETTLE /\ snd w' = b) /\
                (_state o = COLUMN_DRAIN_ACTIVE ->
                 _state (fst w') = COLUMN_DRAIN_SETTLE /\ snd w' = b)) (o, b)).
  destruct o. reduce_members. subst.
  destruct _state0;
    try (split; intros Hst; discriminate Hst);
    wp_full idtac; split; intros Hst; try discriminate Hst; auto.
Qed.

(** A manual actuation that has run its time: back to Idle, the time in
    state as it was. *)
Lemma Update_manual_return e s o b :
  no_requests o ->
  (_state o = COLUMN_MANUAL_FILL /\
   _time_in_current_state o >= _manual_fill_period o) \/
  (_state o = COLUMN_MANUAL_DRAIN /\
   _time_in_current_state o >= _manual_drain_period o) ->
  let o' := fst (snd (Update e s (o, b))) in
  _state o' = COLUMN_IDLE /\
  _time_in_current_state o' = _time_in_current_state o.
Proof.
  intros [Hrf Hrd] Hst.
  change (wp (Update e s)
             (fun _ w' =>
                _state (fst w') = COLUMN_IDLE /\
                _time_in_current_state (fst w') = _time_in_current_state o)
             (o, b)).
  destruct o. reduce_members. subst.
  destruct Hst as [[Hst Ht] | [Hst Ht]]; subst; apply Z.geb_ge in Ht;
    wp_object ltac:(rewrite ?Ht); try discriminate; auto.
Qed.

(** Every other transition resets the time in state. *)
Lemma Update_other_transitions_reset e s o b :
  no_requests o ->
  _state o <> COLUMN_MANUAL_FILL -> _state o <> COLUMN_MANUAL_DRAIN ->
  let o' := fst (snd (Update e s (o, b))) in
  _state o' <> _state o -> _time_in_current_state o' = 0.
Proof.
  intros [Hrf Hrd] Hnf Hnd.
  change (wp (Update e s)
             (fun _ w' =>
                _state (fst w') <> _state o ->
                _time_in_current_state (fst w') = 0) (o, b)).
  destruct o. reduce_members. subst.
  destruct _state0; try congruence;
    wp_object idtac; intros Hneq; try reflexivity; congruence.
Qed.

(** *** The valves *)

Section Valves.
Variables feed drain : Z.
Hypothesis feed_pin : 0 <= feed.
Hypothesis drain_pin : 0 <= drain.
Hypothesis two_pins : feed <> drain.

Lemma feed_test : (feed >=? 0) = true.
Proof. apply Z.geb_le. lia. Qed.

Lemma drain_test : (drain >=? 0) = true.
Proof. apply Z.geb_le. lia. Qed.

Ltac valve_levels :=
  unfold both_valves_active, both_valves_stopped, feed_valve, drain_valve,
    digitalRead, digitalWrite, HIGH, LOW in *;
  reduce_members;
  repeat match goal with
         | |- context [?x =? ?y] =>
             destruct (Z.eqb_spec x y); try (exfalso; lia)
         end.












(** From a resting state and without requests, [Update] leaves both
    valves closed, the expander being there. *)
Lemma Update_stops e s o b :
  _feed_valve_actuator_pin o = feed ->
  _drain_valve_actuator_pin o = drain ->
  resting (_state o) = true ->
  no_requests o ->
  expander_fault (o, b) = false ->
  both_valves_stopped (snd (Update e s (o, b))).
Proof.
  intros Hf Hd Hst [Hrf Hrd] Hfault. as_wp.
  unfold expander_fault in Hfault.
  destruct o, b. reduce_members. subst.
  destruct _state0; try discriminate Hst;
    wp_full ltac:(rewrite ?Hfault, ?feed_test, ?drain_test);
    try discriminate; valve_levels; auto.
Qed.



End Valves.




(** *** The control error *)

Lemma to_int16_fits (z : Z) : - 32768 <= z <= 32767 -> to_int16 z = z.
Proof.
  intros Hz. unfold to_int16. change (2 ^ 15) with 32768.
  change (2 ^ 16) with 65536. rewrite Z.mod_small; lia.
Qed.

Lemma to_int16_wraps (z : Z) :
  - 65536 < z < 65536 ->
  to_int16 z = z \/ to_int16 z = z - 65536 \/ to_int16 z = z + 65536.
Proof.
  intros Hz. unfold to_int16. change (2 ^ 15) with 32768.
  change (2 ^ 16) with 65536.
  destruct (Z_lt_le_dec z (- 32768)); [|destruct (Z_lt_le_dec z 32768)].
  - right; right.
    replace (z + 32768) with ((z + 65536 + 32768) + (- 1) * 65536) by lia.
    rewrite Z.mod_add, Z.mod_small; lia.
  - left. rewrite Z.mod_small; lia.
  - right; left.
    replace (z + 32768) with ((z - 65536 + 32768) + 1 * 65536) by lia.
    rewrite Z.mod_add, Z.mod_small; lia.
Qed.

Lemma to_int16_range (z : Z) : - 32768 <= to_int16 z <= 32767.
Proof.
  unfold to_int16. change (2 ^ 15) with 32768. change (2 ^ 16) with 65536.
  pose proof (Z.mod_pos_bound (z + 32768) 65536). lia.
Qed.

(** What [control_loop_update] returns. *)
Lemma control_loop_update_value o b :
  fst (control_loop_update (o, b))
  = let delta := to_int16 (_elevation_mm o - _setpoint_mm o) in
    if Z.abs delta <=? _setpoint_deadband o then CONTROL_ERROR_DEADBAND
    else if delta >? 0 then CONTROL_ERROR_POSITIVE
    else CONTROL_ERROR_NEGATIVE.
Proof.
  unfold control_loop_update, bind, this, ret. cbn [fst snd]. cbv zeta.
  destruct (_ <=? _); [reflexivity|]. destruct (_ >? _); reflexivity.
Qed.

Lemma clamped_uint16 o s :
  uint16 (_elevation_lower_limit o) -> uint16 (_elevation_upper_limit o) ->
  uint16 s -> uint16 (clamped o s).
Proof.
  unfold clamped. intros Hl Hu Hs.
  destruct (s <? _); destruct (_ >? _); assumption.
Qed.

(** [Update] stores the reading and the clamped setpoint, and the control
    error that [control_loop_update] finds for them. *)
Lemma Update_control_error e s o b :
  let o' := fst (snd (Update e s (o, b))) in
  _elevation_mm o' = e /\
  _setpoint_mm o' = clamped o s /\
  _setpoint_deadband o' = _setpoint_deadband o /\
  _control_error_state o'
  = fst (control_loop_update
           (set_setpoint_mm (clamped o s) (set_elevation_mm e o), b)).
Proof.
  cbv zeta.
  set (v := fst (control_loop_update _)).
  change (wp (Update e s)
             (fun _ w' => _elevation_mm (fst w') = e /\
                          _setpoint_mm (fst w') = clamped o s /\
                          _setpoint_deadband (fst w') = _setpoint_deadband o /\
                          _control_error_state (fst w') = v) (o, b)).
  unfold Update. apply wp_bind, wp_store_inputs, wp_bind.
  apply wp_conseq
    with (Q' := fun _ w' => _elevation_mm (fst w') = e /\
                            _setpoint_mm (fst w') = clamped o s /\
                            _setpoint_deadband (fst w') = _setpoint_deadband o).
  - apply wp_preserves; [keeps untouched | reduce_members; auto].
  - intros _ [o2 b2] (H1 & H2 & H3). reduce_members.
    apply wp_bind, wp_control_loop_update, wp_bind, wp_assign.
    apply wp_preserves; [keeps untouched|].
    reduce_members. repeat split; auto.
    subst v. rewrite !control_loop_update_value. reduce_members.
    rewrite H1, H2, H3. reflexivity.
Qed.

(** From Idle, enabled and without requests, the control error decides
    the next state. *)
Lemma Update_from_idle e s o b :
  _state o = COLUMN_IDLE -> _regulator_enable o = true -> no_requests o ->
  let o' := fst (snd (Update e s (o, b))) in
  _state o' = match _control_error_state o' with
              | CONTROL_ERROR_POSITIVE => COLUMN_FILL_ACTIVE
              | CONTROL_ERROR_NEGATIVE => COLUMN_DRAIN_ACTIVE
              | CONTROL_ERROR_DEADBAND => COLUMN_IDLE
              end.
Proof.
  intros Hst Hen [Hrf Hrd].
  change (wp (Update e s)
             (fun _ w' =>
                _state (fst w') = match _control_error_state (fst w') with
                                  | CONTROL_ERROR_POSITIVE => COLUMN_FILL_ACTIVE
                                  | CONTROL_ERROR_NEGATIVE => COLUMN_DRAIN_ACTIVE
                                  | CONTROL_ERROR_DEADBAND => COLUMN_IDLE
                                  end) (o, b)).
  destruct o. reduce_members. subst.
  wp_object idtac;
    repeat match goal with
           | H : context [fst (control_loop_update ?w)] |- _ =>
               destruct (fst (control_loop_update w))
           end;
    try discriminate; reflexivity.
Qed.

(** C1 (amended). [Update] clamps the setpoint and recomputes the control
    error; when the difference between the reading and the clamped
    setpoint fits the 16-bit [delta], the error is Positive exactly when
    the reading is ABOVE the setpoint by more than the deadband, and
    Negative exactly when it is below by more than the deadband (a
    larger reading is a lower water level).  So from Idle, enabled and
    with no manual request pending, a reading above the setpoint leads
    to FillActive and a reading below it to DrainActive. *)
Theorem C1_control_error_sign (o : ColumnManager) (b : Board) (e s : Z) :
  well_typed o -> uint16 e -> uint16 s ->
  Z.abs (e - clamped o s) <= 32767 ->
  let sp := clamped o s in
  let db := _setpoint_deadband o in
  let o' := fst (snd (Update e s (o, b))) in
  _setpoint_mm o' = sp /\
  (_control_error_state o' = CONTROL_ERROR_POSITIVE
   <-> sp < e /\ Z.abs (e - sp) > db) /\
  (_control_error_state o' = CONTROL_ERROR_NEGATIVE
   <-> e < sp /\ Z.abs (e - sp) > db) /\
  (_state o = COLUMN_IDLE -> _regulator_enable o = true -> no_requests o ->
   (sp < e /\ Z.abs (e - sp) > db -> _state o' = COLUMN_FILL_ACTIVE) /\
   (e < sp /\ Z.abs (e - sp) > db -> _state o' = COLUMN_DRAIN_ACTIVE)).
Proof.
  intros Hwt He Hs Hfit. cbv zeta.
  destruct (Update_control_error e s o b) as (_ & Hsp & _ & Hce).
  rewrite control_loop_update_value in Hce. reduce_members. cbv zeta in Hce.
  rewrite to_int16_fits in Hce by lia.
  pose proof (wt_deadband o Hwt) as Hdb. unfold uint16 in Hdb.
  assert (Hpos : _control_error_state (fst (snd (Update e s (o, b))))
                 = CONTROL_ERROR_POSITIVE
                 <-> clamped o s < e /\
                     Z.abs (e - clamped o s) > _setpoint_deadband o).
  { rewrite Hce.
    destruct (Z.leb_spec (Z.abs (e - clamped o s)) (_setpoint_deadband o));
      [|destruct (Z.gtb_spec (e - clamped o s) 0)];
      split; intros Hcase; try discriminate; try reflexivity; lia. }
  assert (Hneg : _control_error_state (fst (snd (Update e s (o, b))))
                 = CONTROL_ERROR_NEGATIVE
                 <-> e < clamped o s /\
                     Z.abs (e - clamped o s) > _setpoint_deadband o).
  { rewrite Hce.
    destruct (Z.leb_spec (Z.abs (e - clamped o s)) (_setpoint_deadband o));
      [|destruct (Z.gtb_spec (e - clamped o s) 0)];
      split; intros Hcase; try discriminate; try reflexivity; lia. }
  split; [exact Hsp|]. split; [exact Hpos|]. split; [exact Hneg|].
  intros Hst Hen Hrq.
  pose proof (Update_from_idle e s o b Hst Hen Hrq) as Hnext. cbv zeta in Hnext.
  split; intros Hcase.
  - apply Hpos in Hcase. rewrite Hcase in Hnext. exact Hnext.
  - apply Hneg in Hcase. rewrite Hcase in Hnext. exact Hnext.
Qed.

(** What the 16-bit [delta] makes of the deadband: the control error
    after [Update] is Deadband when the exact difference between the
    reading and the clamped setpoint is at most the deadband, and also
    when it is so large (65536 minus the deadband, or more) that [delta]
    wraps into the deadband; and in no other case. *)
Lemma deadband_up_to_delta_wrap (o : ColumnManager) (b : Board) (e s : Z) :
  well_typed o -> uint16 e -> uint16 s ->
  let sp := clamped o s in
  let db := _setpoint_deadband o in
  let o' := fst (snd (Update e s (o, b))) in
  _control_error_state o' = CONTROL_ERROR_DEADBAND
  <-> Z.abs (e - sp) <= db \/ 65536 - db <= Z.abs (e - sp).
Proof.
  intros Hwt He Hs. cbv zeta.
  destruct (Update_control_error e s o b) as (_ & _ & _ & Hce).
  rewrite control_loop_update_value in Hce. reduce_members. cbv zeta in Hce.
  rewrite Hce.
  pose proof (clamped_uint16 o s (wt_lower_limit o Hwt) (wt_upper_limit o Hwt) Hs)
    as Hsp.
  pose proof (wt_deadband o Hwt) as Hdb.
  unfold uint16 in *. change (2 ^ 16) with 65536 in *.
  pose proof (to_int16_range (e - clamped o s)) as Hr.
  destruct (to_int16_wraps (e - clamped o s)) as [Hw | [Hw | Hw]]; [lia | | |];
    destruct (Z.leb_spec (Z.abs (to_int16 (e - clamped o s)))
                         (_setpoint_deadband o));
    try destruct (to_int16 (e - clamped o s) >? 0);
    split; intros Hcase; try discriminate; try reflexivity; lia.
Qed.


(** *** Concrete runs *)

Ltac by_running :=
  repeat split;
  try (vm_compute; reflexivity);
  try (unfold uint8, uint16, uint32; lia);
  try (let H := fresh in intro H; vm_compute in H; discriminate H).


(** C1, as stated, fails: with the reading 100 below the setpoint 150 by
    more than the deadband 4, the control error is Negative, not
    Positive, and Idle leads to DrainActive, not FillActive. *)
Lemma C1_counterexample :
  let o' := fst (after (Update 100 150) hour_column) in
  _state (fst hour_column) = COLUMN_IDLE /\
  _regulator_enable (fst hour_column) = true /\
  _setpoint_mm o' = 150 /\
  100 < 150 /\ Z.abs (100 - 150) > _setpoint_deadband o' /\
  _control_error_state o' <> CONTROL_ERROR_POSITIVE /\
  _control_error_state o' = CONTROL_ERROR_NEGATIVE /\
  _state o' <> COLUMN_FILL_ACTIVE /\
  _state o' = COLUMN_DRAIN_ACTIVE.
Proof. by_running. Qed.

(** Beyond the range of the 16-bit [delta] the sign is lost: the reading
    40000 is above the setpoint 50 and the control error is Negative. *)
Example control_error_sign_wraps :
  let o' := fst (after (Update 40000 50) hour_column) in
  _setpoint_mm o' = 50 /\
  _control_error_state o' = CONTROL_ERROR_NEGATIVE /\
  to_int16 (40000 - 50) = -25586.
Proof. by_running. Qed.

Lemma C1_control_error_sign_witness :
  _control_error_state (fst (after (Update 300 150) hour_column))
  = CONTROL_ERROR_POSITIVE /\
  _state (fst (after (Update 300 150) hour_column)) = COLUMN_FILL_ACTIVE.
Proof.
  assert (Hwt : well_typed (fst hour_column)) by (constructor; by_running).
  assert (He : uint16 300) by (unfold uint16; lia).
  assert (Hs : uint16 150) by (unfold uint16; lia).
  assert (Hfit : Z.abs (300 - clamped (fst hour_column) 150) <= 32767)
    by (vm_compute; discriminate).
  destruct (C1_control_error_sign (fst hour_column) (snd hour_column)
              300 150 Hwt He Hs Hfit) as (_ & Hpos & _ & Hnext).
  assert (Hcase : clamped (fst hour_column) 150 < 300 /\
                  Z.abs (300 - clamped (fst hour_column) 150)
                  > _setpoint_deadband (fst hour_column))
    by (split; vm_compute; reflexivity).
  split.
  - apply Hpos. exact Hcase.
  - apply Hnext; [reflexivity | reflexivity | split; reflexivity | exact Hcase].
Defined.

(** C7 at its failing input: a regulator with the lower limit 0,
    enabled, in Idle; the reading is 65535, the setpoint 0.  The two
    differ by 65535, far more than the deadband 4 ("at setpoint if
    within +/- this value"), but the difference is narrowed to the
    16-bit [delta], which is -1: the control error is Deadband, and the
    regulator stays in Idle with both valves closed, this [Update] and
    the next.  One millimetre less, at 65531, the error is Negative. *)
Theorem C7_deadband_lost_to_delta_wrap :
  let w := after (Set_Regulator_Enable true)
                 (constructor 1 15 11 0 305 (mkBoard 0 (fun _ => LOW) [])) in
  let w' := after (Update 65535 0) w in
  (_elevation_mm (fst w') = 65535 /\ _setpoint_mm (fst w') = 0 /\
   _setpoint_deadband (fst w') = 4 /\
   ~ Z.abs (_elevation_mm (fst w') - _setpoint_mm (fst w'))
     <= _setpoint_deadband (fst w')) /\
  to_int16 (65535 - 0) = -1 /\
  _control_error_state (fst w') = CONTROL_ERROR_DEADBAND /\
  (_state (fst w') = COLUMN_IDLE /\
   _state (fst (after (Update 65535 0) w')) = COLUMN_IDLE /\
   both_valves_stopped (after (Update 65535 0) w')) /\
  _control_error_state (fst (after (Update 65531 0) w)) = CONTROL_ERROR_NEGATIVE.
Proof.
  repeat split; try (vm_compute; reflexivity).
  intros Hle. vm_compute in Hle. apply Hle. reflexivity.
Qed.

Example deadband_of_hour_column :
  _control_error_state (fst (after (Update 152 150) hour_column))
  = CONTROL_ERROR_DEADBAND.
Proof.
  assert (Hwt : well_typed (fst hour_column)) by (constructor; by_running).
  assert (He : uint16 152) by (unfold uint16; lia).
  assert (Hs : uint16 150) by (unfold uint16; lia).
  apply (deadband_up_to_delta_wrap (fst hour_column) (snd hour_column)
           152 150 Hwt He Hs).
  left. vm_compute. discriminate.
Qed.


(** C3 at its failing input: the hour column has been filling for the
    maximum fill period with the error still Positive.  [Update] closes
    the valves and enters the error state, and prints the error line,
    but the fault bitmap is as it was: no fault is active. *)
Theorem C3_fill_timeout_registers_no_fault :
  let w := wait 60000 hour_column_filling in
  let w' := after (Update 300 150) w in
  (_state (fst w) = COLUMN_FILL_ACTIVE /\
   _regulator_enable (fst w) = true /\
   _time_in_current_state (fst w) = _max_column_fill_period (fst w)) /\
  (_control_error_state (fst w') = CONTROL_ERROR_POSITIVE /\
   _state (fst w') = COLUMN_ERROR_STATE /\
   both_valves_stopped w' /\
   Serial (snd w')
   = [Println "ERROR: Spent too long in COLUMN_FILL_ACTIVE state!"]) /\
  system_faults (snd w') = 0 /\
  forall x, FAULT_ACTIVE_bits (system_faults (snd w')) x = false.
Proof. by_running. Qed.

(** C5 at its failing input: the hour column is filling (draining), the
    regulator is disabled.  The next [Update] moves to the settle state
    and leaves the valve open; the valve closes on the [Update] after. *)
Theorem C5_disable_leaves_valve_open :
  let filling := after (Set_Regulator_Enable false) hour_column_filling in
  let draining :=
    after (Set_Regulator_Enable false)
          (after (Update 100 150) (after (Update 100 150) hour_column)) in
  (_state (fst filling) = COLUMN_FILL_ACTIVE /\
   feed_valve filling = HIGH /\
   _state (fst (after (Update 300 150) filling)) = COLUMN_FILL_SETTLE /\
   feed_valve (after (Update 300 150) filling) = HIGH /\
   feed_valve (after (Update 300 150) (after (Update 300 150) filling)) = LOW) /\
  (_state (fst draining) = COLUMN_DRAIN_ACTIVE /\
   drain_valve draining = HIGH /\
   _state (fst (after (Update 100 150) draining)) = COLUMN_DRAIN_SETTLE /\
   drain_valve (after (Update 100 150) draining) = HIGH /\
   drain_valve (after (Update 100 150) (after (Update 100 150) draining)) = LOW).
Proof. by_running. Qed.

(** C9 at its failing input: a manual fill (drain) of 150 ms has run its
    time.  [Update] returns to Idle and the time-in-state counter still
    reads 150. *)
Theorem C9_manual_return_keeps_timer :
  let filled :=
    wait 150 (after (Update 150 150) (after (Manual_Fill 150) hour_column)) in
  let drained :=
    wait 150 (after (Update 150 150) (after (Manual_Drain 150) hour_column)) in
  (_state (fst filled) = COLUMN_MANUAL_FILL /\
   _state (fst (after (Update 150 150) filled)) = COLUMN_IDLE /\
   _time_in_current_state (fst (after (Update 150 150) filled)) = 150) /\
  (_state (fst drained) = COLUMN_MANUAL_DRAIN /\
   _state (fst (after (Update 150 150) drained)) = COLUMN_IDLE /\
   _time_in_current_state (fst (after (Update 150 150) drained)) = 150).
Proof. by_running. Qed.

(** *** More of the regulator *)

Ltac pin_levels :=
  unfold both_valves_active, both_valves_stopped, feed_valve, drain_valve,
    expander_fault, digitalRead, digitalWrite, HIGH, LOW in *;
  reduce_members;
  repeat match goal with
         | |- context [?x =? ?y] =>
             destruct (Z.eqb_spec x y); try (exfalso; lia)
         end.

Lemma pin_test (pin : Z) : uint8 pin -> (pin >=? 0) = true.
Proof. intros [H _]. apply Z.geb_le. exact H. Qed.

(** X9. A manual fill request preempts whatever the regulator is doing:
    from any state (the error state too), enabled or not, with the
    expander fault active or not, and with no manual drain requested,
    the next [Update] is busy, is in ManualFill with the time in state
    at zero and the request taken, and drives the feed valve HIGH and
    the drain valve LOW. *)
Theorem X9_manual_fill_preempts (e s : Z) (o : ColumnManager) (b : Board) :
  uint8 (_feed_valve_actuator_pin o) -> uint8 (_drain_valve_actuator_pin o) ->
  _feed_valve_actuator_pin o <> _drain_valve_actuator_pin o ->
  _request_manual_fill o = true -> _request_manual_drain o = false ->
  0 < _manual_fill_period o ->
  let w' := snd (Update e s (o, b)) in
  fst (Update e s (o, b)) = true /\
  _state (fst w') = COLUMN_MANUAL_FILL /\
  _time_in_current_state (fst w') = 0 /\
  no_requests (fst w') /\
  feed_valve w' = HIGH /\ drain_valve w' = LOW.
Proof.
  intros Hf Hd Hne Hrf Hrd Hp. cbv zeta.
  apply pin_test in Hf. apply pin_test in Hd.
  assert (Hper : (0 >=? _manual_fill_period o) = false)
    by (rewrite Z.geb_leb; apply Z.leb_gt; exact Hp).
  change (wp (Update e s)
            (fun r w' =>
               r = true /\
               _state (fst w') = COLUMN_MANUAL_FILL /\
               _time_in_current_state (fst w') = 0 /\
               no_requests (fst w') /\
               feed_valve w' = HIGH /\ drain_valve w' = LOW) (o, b)).
  unfold no_requests.
  destruct o, b. reduce_members. subst.
  wp_full ltac:(rewrite ?Hf, ?Hd, ?Hper);
    try discriminate; repeat split; pin_levels; reflexivity.
Qed.

Lemma X9_manual_fill_preempts_witness :
  let w := after (Manual_Fill 150)
                 (after (Update 300 150) (wait 60000 hour_column_filling)) in
  _state (fst (after (Update 300 150) (wait 60000 hour_column_filling)))
  = COLUMN_ERROR_STATE /\
  _state (fst (snd (Update 300 150 (fst w, snd w)))) = COLUMN_MANUAL_FILL /\
  feed_valve (snd (Update 300 150 (fst w, snd w))) = HIGH.
Proof.
  cbv zeta. split; [vm_compute; reflexivity|].
  set (w := after (Manual_Fill 150)
                  (after (Update 300 150) (wait 60000 hour_column_filling))).
  assert (Hf : uint8 (_feed_valve_actuator_pin (fst w)))
    by (vm_compute; split; [discriminate | reflexivity]).
  assert (Hd : uint8 (_drain_valve_actuator_pin (fst w)))
    by (vm_compute; split; [discriminate | reflexivity]).
  assert (Hne : _feed_valve_actuator_pin (fst w) <> _drain_valve_actuator_pin (fst w))
    by (vm_compute; discriminate).
  assert (Hrf : _request_manual_fill (fst w) = true) by (vm_compute; reflexivity).
  assert (Hrd : _request_manual_drain (fst w) = false) by (vm_compute; reflexivity).
  assert (Hp : 0 < _manual_fill_period (fst w)) by (vm_compute; reflexivity).
  destruct (X9_manual_fill_preempts 300 150 (fst w) (snd w) Hf Hd Hne Hrf Hrd Hp)
    as (_ & Hst & _ & _ & Hfeed & _).
  split; [exact Hst | exact Hfeed].
Defined.

(** X10. A manual drain request preempts too, and wins over a manual
    fill requested at the same time: the next [Update] is busy and in
    ManualDrain with the time in state at zero and both requests taken.
    The valves are driven (feed LOW, drain HIGH) when the expander fault
    is inactive; when it is active the expander is not written. *)
Theorem X10_manual_drain_preempts (e s : Z) (o : ColumnManager) (b : Board) :
  uint8 (_feed_valve_actuator_pin o) -> uint8 (_drain_valve_actuator_pin o) ->
  _feed_valve_actuator_pin o <> _drain_valve_actuator_pin o ->
  _request_manual_drain o = true ->
  0 < _manual_drain_period o ->
  let w' := snd (Update e s (o, b)) in
  fst (Update e s (o, b)) = true /\
  _state (fst w') = COLUMN_MANUAL_DRAIN /\
  _time_in_current_state (fst w') = 0 /\
  no_requests (fst w') /\
  (expander_fault (o, b) = false ->
   feed_valve w' = LOW /\ drain_valve w' = HIGH) /\
  (expander_fault (o, b) = true -> io_expander (snd w') = io_expander b).
Proof.
  intros Hf Hd Hne Hrd Hp. cbv zeta.
  apply pin_test in Hf. apply pin_test in Hd.
  assert (Hper : (0 >=? _manual_drain_period o) = false)
    by (rewrite Z.geb_leb; apply Z.leb_gt; exact Hp).
  change (wp (Update e s)
            (fun r w' =>
               r = true /\
               _state (fst w') = COLUMN_MANUAL_DRAIN /\
               _time_in_current_state (fst w') = 0 /\
               no_requests (fst w') /\
               (expander_fault (o, b) = false ->
                feed_valve w' = LOW /\ drain_valve w' = HIGH) /\
               (expander_fault (o, b) = true ->
                io_expander (snd w') = io_expander b)) (o, b)).
  unfold no_requests.
  destruct o, b. reduce_members. subst.
  wp_full ltac:(rewrite ?Hf, ?Hd, ?Hper);
    try discriminate; repeat split; try reflexivity;
    intros; pin_levels;
    try match goal with
        | Hfault : FAULT_ACTIVE_bits _ _ = _ |- _ => rewrite Hfault in *
        end;
    try discriminate; try reflexivity; try assumption;
    split; reflexivity.
Qed.

Lemma X10_manual_drain_preempts_witness :
  let w := after (Manual_Drain 150) hour_column_manual_fill in
  _state (fst (snd (Update 150 150 (fst w, snd w)))) = COLUMN_MANUAL_DRAIN /\
  drain_valve (snd (Update 150 150 (fst w, snd w))) = HIGH.
Proof.
  cbv zeta.
  set (w := after (Manual_Drain 150) hour_column_manual_fill).
  assert (Hf : uint8 (_feed_valve_actuator_pin (fst w)))
    by (vm_compute; split; [discriminate | reflexivity]).
  assert (Hd : uint8 (_drain_valve_actuator_pin (fst w)))
    by (vm_compute; split; [discriminate | reflexivity]).
  assert (Hne : _feed_valve_actuator_pin (fst w) <> _drain_valve_actuator_pin (fst w))
    by (vm_compute; discriminate).
  assert (Hrd : _request_manual_drain (fst w) = true) by (vm_compute; reflexivity).
  assert (Hp : 0 < _manual_drain_period (fst w)) by (vm_compute; reflexivity).
  destruct (X10_manual_drain_preempts 150 150 (fst w) (snd w) Hf Hd Hne Hrd Hp)
    as (_ & Hst & _ & _ & Hdrive & _).
  split; [exact Hst|].
  apply Hdrive. vm_compute. reflexivity.
Defined.

Lemma preserves_from_wp {A} (P : ColumnManager * Board -> Prop) (c : Method A) :
  (forall w, P w -> wp c (fun _ w' => P w') w) -> preserves P c.
Proof. intros H w Hw. exact (H w Hw). Qed.

Ltac other_pin_op :=
  let o := fresh "o" in
  let b := fresh "b" in
  apply preserves_from_wp;
  intros [o b] (Hf & Hd & Hv); reduce_members;
  wp_full ltac:(rewrite ?Hf, ?Hd);
  repeat split; auto;
  unfold digitalWrite;
  repeat match goal with
         | |- context [?x =? ?y] =>
             destruct (Z.eqb_spec x y); try congruence
         end.

Lemma stop_flows_other_pins (f d p : Z) (v : bool) :
  p <> f -> p <> d ->
  preserves (fun w => _feed_valve_actuator_pin (fst w) = f /\
                      _drain_valve_actuator_pin (fst w) = d /\
                      io_expander (snd w) p = v) stop_flows.
Proof. intros Hpf Hpd. other_pin_op. Qed.

Lemma start_filling_other_pins (f d p : Z) (v : bool) :
  p <> f -> p <> d ->
  preserves (fun w => _feed_valve_actuator_pin (fst w) = f /\
                      _drain_valve_actuator_pin (fst w) = d /\
                      io_expander (snd w) p = v) start_filling.
Proof. intros Hpf Hpd. other_pin_op. Qed.

Lemma start_draining_other_pins (f d p : Z) (v : bool) :
  p <> f -> p <> d ->
  preserves (fun w => _feed_valve_actuator_pin (fst w) = f /\
                      _drain_valve_actuator_pin (fst w) = d /\
                      io_expander (snd w) p = v) start_draining.
Proof. intros Hpf Hpd. other_pin_op. Qed.

Lemma Update_other_pins (e s f d p : Z) (v : bool) :
  p <> f -> p <> d ->
  preserves (fun w => _feed_valve_actuator_pin (fst w) = f /\
                      _drain_valve_actuator_pin (fst w) = d /\
                      io_expander (snd w) p = v) (Update e s).
Proof.
  intros Hpf Hpd.
  unfold_methods; unfold log_line; unfold_board_ops.
  preserving
    ltac:(first [ apply stop_flows_other_pins; assumption
                | apply start_filling_other_pins; assumption
                | apply start_draining_other_pins; assumption
                | apply control_loop_update_preserves ])
    untouched.
Qed.

(** X11. [Update] writes no pin of the expander but the two valve pins
    of its regulator, and leaves the fault bitmap as it is. *)
Theorem X11_update_keeps_to_its_pins
  (e s : Z) (o : ColumnManager) (b : Board) (p : Z) :
  p <> _feed_valve_actuator_pin o -> p <> _drain_valve_actuator_pin o ->
  let w' := snd (Update e s (o, b)) in
  io_expander (snd w') p = io_expander b p /\
  system_faults (snd w') = system_faults b /\
  _feed_valve_actuator_pin (fst w') = _feed_valve_actuator_pin o /\
  _drain_valve_actuator_pin (fst w') = _drain_valve_actuator_pin o.
Proof.
  intros Hpf Hpd. cbv zeta.
  destruct (Update_other_pins e s _ _ p (io_expander b p) Hpf Hpd (o, b)
              (conj eq_refl (conj eq_refl eq_refl))) as (H1 & H2 & H3).
  repeat split; try assumption.
  apply (Update_keeps_faults e s (system_faults b) (o, b)). reflexivity.
Qed.

Lemma X11_update_keeps_to_its_pins_witness :
  io_expander (snd (snd (Update 300 150 (fst hour_column, snd hour_column)))) 8
  = io_expander (snd hour_column) 8.
Proof.
  assert (Hpf : 8 <> _feed_valve_actuator_pin (fst hour_column))
    by (vm_compute; discriminate).
  assert (Hpd : 8 <> _drain_valve_actuator_pin (fst hour_column))
    by (vm_compute; discriminate).
  exact (proj1 (X11_update_keeps_to_its_pins 300 150 (fst hour_column)
                  (snd hour_column) 8 Hpf Hpd)).
Defined.

(** X12. What the returned busy flag says of the valves, the expander
    fault being inactive: after a busy [Update] exactly one of the two
    valves is driven HIGH; after an [Update] of an enabled regulator
    that is not busy both valves are LOW. *)
Theorem X12_busy_flag_and_valves (e s : Z) (o : ColumnManager) (b : Board) :
  uint8 (_feed_valve_actuator_pin o) -> uint8 (_drain_valve_actuator_pin o) ->
  _feed_valve_actuator_pin o <> _drain_valve_actuator_pin o ->
  expander_fault (o, b) = false ->
  let w' := snd (Update e s (o, b)) in
  (fst (Update e s (o, b)) = true -> feed_valve w' = negb (drain_valve w')) /\
  (fst (Update e s (o, b)) = false -> _regulator_enable o = true ->
   both_valves_stopped w').
Proof.
  intros Hf Hd Hne Hfault. cbv zeta.
  apply pin_test in Hf. apply pin_test in Hd.
  change (wp (Update e s)
            (fun r w' =>
               (r = true -> feed_valve w' = negb (drain_valve w')) /\
               (r = false -> _regulator_enable o = true ->
                both_valves_stopped w')) (o, b)).
  unfold expander_fault in Hfault.
  destruct o, b. reduce_members. subst.
  wp_full ltac:(rewrite ?Hf, ?Hd, ?Hfault);
    try discriminate; split; intros; try discriminate; try congruence;
    try match goal with
        | H : negb ?x = true, H' : ?x = true |- _ =>
            rewrite H' in H; discriminate H
        end;
    pin_levels; try reflexivity; try (split; reflexivity).
Qed.

Lemma X12_busy_flag_and_valves_witness :
  fst (Update 300 150 (fst hour_column_filling, snd hour_column_filling)) = true /\
  feed_valve (snd (Update 300 150 (fst hour_column_filling, snd hour_column_filling)))
  = negb (drain_valve
            (snd (Update 300 150 (fst hour_column_filling, snd hour_column_filling)))).
Proof.
  assert (Hf : uint8 (_feed_valve_actuator_pin (fst hour_column_filling)))
    by (vm_compute; split; [discriminate | reflexivity]).
  assert (Hd : uint8 (_drain_valve_actuator_pin (fst hour_column_filling)))
    by (vm_compute; split; [discriminate | reflexivity]).
  assert (Hne : _feed_valve_actuator_pin (fst hour_column_filling)
                <> _drain_valve_actuator_pin (fst hour_column_filling))
    by (vm_compute; discriminate).
  assert (Hbusy : fst (Update 300 150 (fst hour_column_filling,
                                       snd hour_column_filling)) = true)
    by (vm_compute; reflexivity).
  split; [exact Hbusy|].
  apply (X12_busy_flag_and_valves 300 150 (fst hour_column_filling)
           (snd hour_column_filling) Hf Hd Hne); [vm_compute; reflexivity|].
  exact Hbusy.
Defined.

(** X13. The settle dwell: in FillSettle (DrainSettle) without manual
    requests [Update] is not busy and, the expander fault being
    inactive, keeps both valves LOW.  Until the fill (drain) dwell
    period has gone by it stays there, the time in state as it was,
    whatever the control error and whether enabled or not; from then
    on it returns to Idle with the time in state at zero. *)
Theorem X13_settle_dwell (e s : Z) (o : ColumnManager) (b : Board) :
  uint8 (_feed_valve_actuator_pin o) -> uint8 (_drain_valve_actuator_pin o) ->
  no_requests o ->
  _state o = COLUMN_FILL_SETTLE \/ _state o = COLUMN_DRAIN_SETTLE ->
  let dwell := match _state o with
               | COLUMN_FILL_SETTLE => _fill_dwell_period o
               | _ => _drain_dwell_period o
               end in
  let w' := snd (Update e s (o, b)) in
  fst (Update e s (o, b)) = false /\
  (expander_fault (o, b) = false -> both_valves_stopped w') /\
  (_time_in_current_state o < dwell ->
   _state (fst w') = _state o /\
   _time_in_current_state (fst w') = _time_in_current_state o) /\
  (_time_in_current_state o >= dwell ->
   _state (fst w') = COLUMN_IDLE /\ _time_in_current_state (fst w') = 0).
Proof.
  intros Hf Hd [Hrf Hrd] Hst. cbv zeta.
  apply pin_test in Hf. apply pin_test in Hd.
  change (wp (Update e s)
            (fun r w' =>
               r = false /\
               (expander_fault (o, b) = false -> both_valves_stopped w') /\
               (_time_in_current_state o
                < match _state o with
                  | COLUMN_FILL_SETTLE => _fill_dwell_period o
                  | _ => _drain_dwell_period o
                  end ->
                _state (fst w') = _state o /\
                _time_in_current_state (fst w') = _time_in_current_state o) /\
               (_time_in_current_state o
                >= match _state o with
                   | COLUMN_FILL_SETTLE => _fill_dwell_period o
                   | _ => _drain_dwell_period o
                   end ->
                _state (fst w') = COLUMN_IDLE /\
                _time_in_current_state (fst w') = 0)) (o, b)).
  destruct o, b. reduce_members. subst.
  destruct Hst as [Hst | Hst]; subst;
    wp_full ltac:(rewrite ?Hf, ?Hd);
    repeat match goal with
           | H : (_ >=? _) = true |- _ => apply Z.geb_ge in H
           | H : (_ >=? _) = false |- _ =>
               rewrite Z.geb_leb in H; apply Z.leb_gt in H
           end;
    repeat split; intros; try lia; try reflexivity;
    pin_levels;
    try match goal with
        | Hfault : FAULT_ACTIVE_bits _ _ = _ |- _ => rewrite Hfault in *
        end;
    try discriminate; try reflexivity.
Qed.

Lemma X13_settle_dwell_witness :
  let w := after (Update 150 150) hour_column_filling in
  _state (fst w) = COLUMN_FILL_SETTLE /\
  _state (fst (snd (Update 300 150 (fst w, snd w)))) = COLUMN_FILL_SETTLE.
Proof.
  cbv zeta.
  set (w := after (Update 150 150) hour_column_filling).
  assert (Hst : _state (fst w) = COLUMN_FILL_SETTLE) by (vm_compute; reflexivity).
  assert (Hf : uint8 (_feed_valve_actuator_pin (fst w)))
    by (vm_compute; split; [discriminate | reflexivity]).
  assert (Hd : uint8 (_drain_valve_actuator_pin (fst w)))
    by (vm_compute; split; [discriminate | reflexivity]).
  assert (Hrq : no_requests (fst w)) by (split; vm_compute; reflexivity).
  split; [exact Hst|].
  destruct (X13_settle_dwell 300 150 (fst w) (snd w) Hf Hd Hrq (or_introl Hst))
    as (_ & _ & Hstay & _).
  rewrite Hst in Hstay.
  destruct Hstay as [Hsame _]; [vm_compute; reflexivity | exact Hsame].
Defined.

(** X14. [Update] stores the reading as it is and the setpoint clamped:
    with the lower limit not above the upper one, the stored setpoint
    lies between the two limits, and it is the requested setpoint when
    that lies between them. *)
Theorem X14_setpoint_clamped (e s : Z) (o : ColumnManager) (b : Board) :
  _elevation_lower_limit o <= _elevation_upper_limit o ->
  let w' := snd (Update e s (o, b)) in
  fst (Get_Elevation_Reading_MM w') = e /\
  _elevation_lower_limit o <= fst (Get_Target_Setpoint_MM w')
                           <= _elevation_upper_limit o /\
  (_elevation_lower_limit o <= s <= _elevation_upper_limit o ->
   fst (Get_Target_Setpoint_MM w') = s) /\
  (s < _elevation_lower_limit o ->
   fst (Get_Target_Setpoint_MM w') = _elevation_lower_limit o) /\
  (_elevation_upper_limit o < s ->
   fst (Get_Target_Setpoint_MM w') = _elevation_upper_limit o).
Proof.
  intros Hlim. cbv zeta.
  destruct (Update_control_error e s o b) as (He & Hsp & _).
  unfold Get_Elevation_Reading_MM, Get_Target_Setpoint_MM, this. cbn [fst].
  rewrite He, Hsp. unfold clamped.
  destruct (Z.ltb_spec s (_elevation_lower_limit o));
    rewrite Z.gtb_ltb;
    destruct (Z.ltb_spec (_elevation_upper_limit o) s);
    try destruct (Z.ltb_spec (_elevation_upper_limit o) (_elevation_lower_limit o));
    repeat split; intros; lia.
Qed.

Lemma X14_setpoint_clamped_witness :
  fst (Get_Target_Setpoint_MM (snd (Update 150 20 (fst hour_column, snd hour_column))))
  = 50.
Proof.
  assert (Hlim : _elevation_lower_limit (fst hour_column)
                 <= _elevation_upper_limit (fst hour_column))
    by (vm_compute; discriminate).
  destruct (X14_setpoint_clamped 150 20 (fst hour_column) (snd hour_column) Hlim)
    as (_ & _ & _ & Hlow & _).
  apply Hlow. vm_compute. reflexivity.
Defined.

(** One pass over a regulator that rests, is without requests and is
    disabled or in the error state: it rests again; and with the
    expander fault inactive both valves are closed. *)
Lemma pass_at_rest (input : Z * Z * Z) (o : ColumnManager) (b : Board) :
  uint8 (_feed_valve_actuator_pin o) -> uint8 (_drain_valve_actuator_pin o) ->
  no_requests o -> resting (_state o) = true ->
  _regulator_enable o = false \/ _state o = COLUMN_ERROR_STATE ->
  let w' := pass input (o, b) in
  (resting (_state (fst w')) = true /\
   (_state o = COLUMN_ERROR_STATE -> _state (fst w') = COLUMN_ERROR_STATE) /\
   no_requests (fst w') /\
   _regulator_enable (fst w') = _regulator_enable o /\
   _feed_valve_actuator_pin (fst w') = _feed_valve_actuator_pin o /\
   _drain_valve_actuator_pin (fst w') = _drain_valve_actuator_pin o /\
   expander_fault w' = expander_fault (o, b)) /\
  (expander_fault (o, b) = false -> both_valves_stopped w').
Proof.
  intros Hf Hd [Hrf Hrd] Hst Hwhy. cbv zeta.
  destruct input as [[dt e] s]. unfold pass, after, wait. cbn [fst snd].
  apply pin_test in Hf. apply pin_test in Hd.
  change (wp (Update e s)
            (fun _ w' =>
               (resting (_state (fst w')) = true /\
                (_state o = COLUMN_ERROR_STATE ->
                 _state (fst w') = COLUMN_ERROR_STATE) /\
                no_requests (fst w') /\
                _regulator_enable (fst w') = _regulator_enable o /\
                _feed_valve_actuator_pin (fst w') = _feed_valve_actuator_pin o /\
                _drain_valve_actuator_pin (fst w') = _drain_valve_actuator_pin o /\
                expander_fault w' = expander_fault (o, b)) /\
               (expander_fault (o, b) = false -> both_valves_stopped w'))
            (elapse dt o, b)).
  unfold no_requests, elapse.
  destruct o, b. reduce_members. subst.
  destruct _state0; try discriminate Hst;
    (destruct Hwhy as [Hen | Herr]; [subst | try discriminate Herr]);
    wp_full ltac:(rewrite ?Hf, ?Hd);
    try discriminate;
    repeat split; intros; try discriminate; try reflexivity;
    pin_levels;
    try match goal with
        | Hfault : FAULT_ACTIVE_bits _ _ = _ |- _ => rewrite Hfault in *
        end;
    try discriminate; try assumption; try reflexivity.
Qed.

Lemma passes_at_rest (inputs : list (Z * Z * Z)) :
  forall (o : ColumnManager) (b : Board),
  uint8 (_feed_valve_actuator_pin o) -> uint8 (_drain_valve_actuator_pin o) ->
  no_requests o -> resting (_state o) = true ->
  _regulator_enable o = false \/ _state o = COLUMN_ERROR_STATE ->
  let w' := passes inputs (o, b) in
  resting (_state (fst w')) = true /\
  (_state o = COLUMN_ERROR_STATE -> _state (fst w') = COLUMN_ERROR_STATE) /\
  no_requests (fst w') /\
  _regulator_enable (fst w') = _regulator_enable o /\
  _feed_valve_actuator_pin (fst w') = _feed_valve_actuator_pin o /\
  _drain_valve_actuator_pin (fst w') = _drain_valve_actuator_pin o /\
  expander_fault w' = expander_fault (o, b).
Proof.
  induction inputs as [|input inputs IH]; intros o b Hf Hd Hrq Hst Hwhy.
  - cbn. repeat split; auto; apply Hrq.
  - cbv zeta. unfold passes. cbn [fold_left].
    destruct (pass_at_rest input o b Hf Hd Hrq Hst Hwhy)
      as [(Hst1 & Herr1 & Hrq1 & Hen1 & Hf1 & Hd1 & Hfault1) _].
    destruct (pass input (o, b)) as [o1 b1] eqn:E1. cbn [fst snd] in *.
    assert (Hwhy1 : _regulator_enable o1 = false \/ _state o1 = COLUMN_ERROR_STATE).
    { destruct Hwhy as [Hen | Herr]; [left; congruence | right; auto]. }
    rewrite <- Hf1 in Hf. rewrite <- Hd1 in Hd.
    destruct (IH o1 b1 Hf Hd Hrq1 Hst1 Hwhy1)
      as (Hst2 & Herr2 & Hrq2 & Hen2 & Hf2 & Hd2 & Hfault2).
    fold (passes inputs (o1, b1)).
    repeat split; try apply Hrq2; try congruence; auto.
Qed.

Lemma passes_last (inputs : list (Z * Z * Z)) (w : ColumnManager * Board) :
  inputs <> [] ->
  exists input front, inputs = front ++ [input] /\
                      passes inputs w = pass input (passes front w).
Proof.
  intros Hne. destruct (exists_last Hne) as (front & input & ->).
  exists input, front. split; [reflexivity|].
  unfold passes. rewrite fold_left_app. reflexivity.
Qed.

(** X15. The error state is final for the regulator itself.  From the
    error state and without a manual request, any run of main-loop
    passes, whatever the times between them, the readings and the
    setpoints, whether the regulator is enabled or not and whether the
    expander fault is active or not, ends in the error state; and when
    the expander fault is inactive, a run of at least one pass ends
    with both valves LOW. *)
Theorem X15_error_state_is_final (inputs : list (Z * Z * Z))
    (o : ColumnManager) (b : Board) :
  uint8 (_feed_valve_actuator_pin o) -> uint8 (_drain_valve_actuator_pin o) ->
  _state o = COLUMN_ERROR_STATE -> no_requests o ->
  let w' := passes inputs (o, b) in
  _state (fst w') = COLUMN_ERROR_STATE /\
  (expander_fault (o, b) = false -> inputs <> [] -> both_valves_stopped w').
Proof.
  intros Hf Hd Hst Hrq. cbv zeta.
  assert (Hrest : resting (_state o) = true) by (rewrite Hst; reflexivity).
  split.
  - apply (passes_at_rest inputs o b Hf Hd Hrq Hrest (or_intror Hst)).
    exact Hst.
  - intros Hfault Hne.
    destruct (passes_last inputs (o, b) Hne) as (input & front & _ & ->).
    destruct (passes_at_rest front o b Hf Hd Hrq Hrest (or_intror Hst))
      as (Hst1 & Herr1 & Hrq1 & _ & Hf1 & Hd1 & Hfault1).
    destruct (passes front (o, b)) as [o1 b1]. cbn [fst snd] in *.
    rewrite <- Hf1 in Hf. rewrite <- Hd1 in Hd. rewrite <- Hfault1 in Hfault.
    apply (pass_at_rest input o1 b1 Hf Hd Hrq1 Hst1 (or_intror (Herr1 Hst))).
    exact Hfault.
Qed.

Lemma X15_error_state_is_final_witness :
  let w := after (Update 300 150) (wait 60000 hour_column_filling) in
  _state (fst w) = COLUMN_ERROR_STATE /\
  _state (fst (passes [(10, 150, 150); (10, 100, 150)] (fst w, snd w)))
  = COLUMN_ERROR_STATE /\
  both_valves_stopped (passes [(10, 150, 150); (10, 100, 150)] (fst w, snd w)).
Proof.
  cbv zeta.
  set (w := after (Update 300 150) (wait 60000 hour_column_filling)).
  assert (Hst : _state (fst w) = COLUMN_ERROR_STATE) by (vm_compute; reflexivity).
  assert (Hf : uint8 (_feed_valve_actuator_pin (fst w)))
    by (vm_compute; split; [discriminate | reflexivity]).
  assert (Hd : uint8 (_drain_valve_actuator_pin (fst w)))
    by (vm_compute; split; [discriminate | reflexivity]).
  assert (Hrq : no_requests (fst w)) by (split; vm_compute; reflexivity).
  assert (Hfault : expander_fault (fst w, snd w) = false)
    by (vm_compute; reflexivity).
  destruct (X15_error_state_is_final [(10, 150, 150); (10, 100, 150)]
              (fst w) (snd w) Hf Hd Hst Hrq) as [Hfinal Hclosed].
  split; [exact Hst|]. split; [exact Hfinal|].
  apply Hclosed; [exact Hfault | discriminate].
Defined.

(** X16. A disabled regulator at rest opens no valve on its own.  From
    a resting state (Idle, either settle state, the error state),
    disabled and without a manual request, any run of main-loop passes
    ends in a resting state, still disabled, whether the expander fault
    is active or not; and when the expander fault is inactive, a run of
    at least one pass ends with both valves LOW. *)
Theorem X16_disabled_stays_at_rest (inputs : list (Z * Z * Z))
    (o : ColumnManager) (b : Board) :
  uint8 (_feed_valve_actuator_pin o) -> uint8 (_drain_valve_actuator_pin o) ->
  _regulator_enable o = false -> resting (_state o) = true ->
  no_requests o ->
  let w' := passes inputs (o, b) in
  resting (_state (fst w')) = true /\
  _regulator_enable (fst w') = false /\
  (expander_fault (o, b) = false -> inputs <> [] -> both_valves_stopped w').
Proof.
  intros Hf Hd Hen Hrest Hrq. cbv zeta.
  destruct (passes_at_rest inputs o b Hf Hd Hrq Hrest (or_introl Hen))
    as (Hst' & _ & _ & Hen' & _).
  split; [exact Hst'|]. split; [congruence|].
  intros Hfault Hne.
  destruct (passes_last inputs (o, b) Hne) as (input & front & _ & ->).
  destruct (passes_at_rest front o b Hf Hd Hrq Hrest (or_introl Hen))
    as (Hst1 & _ & Hrq1 & Hen1 & Hf1 & Hd1 & Hfault1).
  destruct (passes front (o, b)) as [o1 b1]. cbn [fst snd] in *.
  rewrite <- Hf1 in Hf. rewrite <- Hd1 in Hd. rewrite <- Hen1 in Hen.
  rewrite <- Hfault1 in Hfault.
  apply (pass_at_rest input o1 b1 Hf Hd Hrq1 Hst1 (or_introl Hen)).
  exact Hfault.
Qed.

Lemma X16_disabled_stays_at_rest_witness :
  let w := after (Set_Regulator_Enable false) hour_column in
  resting (_state (fst (passes [(10, 300, 150); (40000, 60, 150)] (fst w, snd w))))
  = true /\
  both_valves_stopped (passes [(10, 300, 150); (40000, 60, 150)] (fst w, snd w)).
Proof.
  cbv zeta.
  set (w := after (Set_Regulator_Enable false) hour_column).
  assert (Hf : uint8 (_feed_valve_actuator_pin (fst w)))
    by (vm_compute; split; [discriminate | reflexivity]).
  assert (Hd : uint8 (_drain_valve_actuator_pin (fst w)))
    by (vm_compute; split; [discriminate | reflexivity]).
  assert (Hen : _regulator_enable (fst w) = false) by (vm_compute; reflexivity).
  assert (Hrest : resting (_state (fst w)) = true) by (vm_compute; reflexivity).
  assert (Hrq : no_requests (fst w)) by (split; vm_compute; reflexivity).
  assert (Hfault : expander_fault (fst w, snd w) = false)
    by (vm_compute; reflexivity).
  destruct (X16_disabled_stays_at_rest [(10, 300, 150); (40000, 60, 150)]
              (fst w) (snd w) Hf Hd Hen Hrest Hrq) as (Hst' & _ & Hclosed).
  split; [exact Hst'|].
  apply Hclosed; [exact Hfault | discriminate].
Defined.

(** X17. Draining, step by step.  An enabled regulator in DrainActive,
    without manual requests and with the expander fault inactive:
    while the recomputed control error is Negative and the time in
    state is below the maximum drain period, [Update] is busy, stays in
    DrainActive with the time in state as it was, and drives the drain
    valve HIGH and the feed valve LOW; with the error Negative and the
    maximum drain period reached it is not busy, enters the error state
    and closes both valves; with any other error it is not busy, enters
    DrainSettle and closes both valves.  Either way of leaving puts the
    time in state at zero. *)
Theorem X17_drain_active_step (e s : Z) (o : ColumnManager) (b : Board) :
  uint8 (_feed_valve_actuator_pin o) -> uint8 (_drain_valve_actuator_pin o) ->
  _feed_valve_actuator_pin o <> _drain_valve_actuator_pin o ->
  _state o = COLUMN_DRAIN_ACTIVE -> _regulator_enable o = true ->
  no_requests o ->
  expander_fault (o, b) = false ->
  let busy := fst (Update e s (o, b)) in
  let w' := snd (Update e s (o, b)) in
  match _control_error_state (fst w') with
  | CONTROL_ERROR_NEGATIVE =>
      if _time_in_current_state o >=? _max_column_drain_period o
      then busy = false /\ _state (fst w') = COLUMN_ERROR_STATE /\
           _time_in_current_state (fst w') = 0 /\ both_valves_stopped w'
      else busy = true /\ _state (fst w') = COLUMN_DRAIN_ACTIVE /\
           _time_in_current_state (fst w') = _time_in_current_state o /\
           drain_valve w' = HIGH /\ feed_valve w' = LOW
  | _ => busy = false /\ _state (fst w') = COLUMN_DRAIN_SETTLE /\
         _time_in_current_state (fst w') = 0 /\ both_valves_stopped w'
  end.
Proof.
  intros Hf Hd Hne Hst Hen [Hrf Hrd] Hfault. cbv zeta.
  apply pin_test in Hf. apply pin_test in Hd.
  change (wp (Update e s)
            (fun busy w' =>
               match _control_error_state (fst w') with
               | CONTROL_ERROR_NEGATIVE =>
                   if _time_in_current_state o >=? _max_column_drain_period o
                   then busy = false /\ _state (fst w') = COLUMN_ERROR_STATE /\
                        _time_in_current_state (fst w') = 0 /\
                        both_valves_stopped w'
                   else busy = true /\ _state (fst w') = COLUMN_DRAIN_ACTIVE /\
                        _time_in_current_state (fst w')
                        = _time_in_current_state o /\
                        drain_valve w' = HIGH /\ feed_valve w' = LOW
               | _ => busy = false /\ _state (fst w') = COLUMN_DRAIN_SETTLE /\
                      _time_in_current_state (fst w') = 0 /\
                      both_valves_stopped w'
               end) (o, b)).
  unfold expander_fault in Hfault.
  destruct o, b. reduce_members. subst.
  wp_full ltac:(rewrite ?Hf, ?Hd, ?Hfault);
    try discriminate; split_control_error; try discriminate;
    repeat match goal with
           | H : (_ >=? _) = _ |- _ => rewrite H
           end;
    repeat split; pin_levels; try reflexivity; try congruence.
Qed.

Lemma X17_drain_active_step_witness :
  let w := after (Update 100 150) (after (Update 100 150) hour_column) in
  _state (fst w) = COLUMN_DRAIN_ACTIVE /\
  match _control_error_state (fst (snd (Update 100 150 (fst w, snd w)))) with
  | CONTROL_ERROR_NEGATIVE =>
      if _time_in_current_state (fst w) >=? _max_column_drain_period (fst w)
      then fst (Update 100 150 (fst w, snd w)) = false /\
           _state (fst (snd (Update 100 150 (fst w, snd w)))) = COLUMN_ERROR_STATE /\
           _time_in_current_state (fst (snd (Update 100 150 (fst w, snd w)))) = 0 /\
           both_valves_stopped (snd (Update 100 150 (fst w, snd w)))
      else fst (Update 100 150 (fst w, snd w)) = true /\
           _state (fst (snd (Update 100 150 (fst w, snd w)))) = COLUMN_DRAIN_ACTIVE /\
           _time_in_current_state (fst (snd (Update 100 150 (fst w, snd w))))
           = _time_in_current_state (fst w) /\
           drain_valve (snd (Update 100 150 (fst w, snd w))) = HIGH /\
           feed_valve (snd (Update 100 150 (fst w, snd w))) = LOW
  | _ => fst (Update 100 150 (fst w, snd w)) = false /\
         _state (fst (snd (Update 100 150 (fst w, snd w)))) = COLUMN_DRAIN_SETTLE /\
         _time_in_current_state (fst (snd (Update 100 150 (fst w, snd w)))) = 0 /\
         both_valves_stopped (snd (Update 100 150 (fst w, snd w)))
  end.
Proof.
  cbv zeta.
  set (w := after (Update 100 150) (after (Update 100 150) hour_column)).
  assert (Hst : _state (fst w) = COLUMN_DRAIN_ACTIVE) by (vm_compute; reflexivity).
  assert (Hf : uint8 (_feed_valve_actuator_pin (fst w)))
    by (vm_compute; split; [discriminate | reflexivity]).
  assert (Hd : uint8 (_drain_valve_actuator_pin (fst w)))
    by (vm_compute; split; [discriminate | reflexivity]).
  assert (Hne : _feed_valve_actuator_pin (fst w) <> _drain_valve_actuator_pin (fst w))
    by (vm_compute; discriminate).
  assert (Hen : _regulator_enable (fst w) = true) by (vm_compute; reflexivity).
  assert (Hrq : no_requests (fst w)) by (split; vm_compute; reflexivity).
  assert (Hfault : expander_fault (fst w, snd w) = false)
    by (vm_compute; reflexivity).
  split; [exact Hst|].
  exact (X17_drain_active_step 100 150 (fst w) (snd w) Hf Hd Hne Hst Hen Hrq Hfault).
Defined.

(** X18. How a manual actuation runs out.  In ManualFill (ManualDrain),
    without a new request and with the expander fault inactive,
    [Update] is busy and drives the feed (drain) valve HIGH and the
    other valve LOW, the manual period run out or not.  Before the
    period has run out the state is kept; once it has, the state is
    Idle, the valve is still HIGH, and it is the [Update] after that
    one, whenever it comes and whatever its inputs, that closes both
    valves. *)
Theorem X18_manual_actuation_runs_out
    (e s dt e2 s2 : Z) (o : ColumnManager) (b : Board) :
  uint8 (_feed_valve_actuator_pin o) -> uint8 (_drain_valve_actuator_pin o) ->
  _feed_valve_actuator_pin o <> _drain_valve_actuator_pin o ->
  _state o = COLUMN_MANUAL_FILL \/ _state o = COLUMN_MANUAL_DRAIN ->
  no_requests o ->
  expander_fault (o, b) = false ->
  let filling := match _state o with COLUMN_MANUAL_FILL => true | _ => false end in
  let period := if filling then _manual_fill_period o
                else _manual_drain_period o in
  let w' := snd (Update e s (o, b)) in
  fst (Update e s (o, b)) = true /\
  feed_valve w' = filling /\ drain_valve w' = negb filling /\
  (_time_in_current_state o < period -> _state (fst w') = _state o) /\
  (_time_in_current_state o >= period ->
   _state (fst w') = COLUMN_IDLE /\
   both_valves_stopped (after (Update e2 s2) (wait dt w'))).
Proof.
  intros Hf Hd Hne Hst Hrq Hfault. cbv zeta.
  assert (Hnow :
    fst (Update e s (o, b)) = true /\
    feed_valve (snd (Update e s (o, b)))
    = match _state o with COLUMN_MANUAL_FILL => true | _ => false end /\
    drain_valve (snd (Update e s (o, b)))
    = negb match _state o with COLUMN_MANUAL_FILL => true | _ => false end /\
    (_time_in_current_state o
     < (if match _state o with COLUMN_MANUAL_FILL => true | _ => false end
        then _manual_fill_period o else _manual_drain_period o) ->
     _state (fst (snd (Update e s (o, b)))) = _state o) /\
    (_time_in_current_state o
     >= (if match _state o with COLUMN_MANUAL_FILL => true | _ => false end
         then _manual_fill_period o else _manual_drain_period o) ->
     _state (fst (snd (Update e s (o, b)))) = COLUMN_IDLE)).
  { assert (Hft := pin_test _ Hf). assert (Hdt := pin_test _ Hd).
    destruct Hrq as [Hrf Hrd].
    change (wp (Update e s)
              (fun r w' =>
                 r = true /\
                 feed_valve w'
                 = match _state o with COLUMN_MANUAL_FILL => true | _ => false end /\
                 drain_valve w'
                 = negb match _state o with
                        | COLUMN_MANUAL_FILL => true | _ => false end /\
                 (_time_in_current_state o
                  < (if match _state o with
                        | COLUMN_MANUAL_FILL => true | _ => false end
                     then _manual_fill_period o else _manual_drain_period o) ->
                  _state (fst w') = _state o) /\
                 (_time_in_current_state o
                  >= (if match _state o with
                         | COLUMN_MANUAL_FILL => true | _ => false end
                      then _manual_fill_period o else _manual_drain_period o) ->
                  _state (fst w') = COLUMN_IDLE)) (o, b)).
    unfold expander_fault in Hfault.
    destruct o, b. reduce_members. subst.
    destruct Hst as [Hst | Hst]; subst;
      wp_full ltac:(rewrite ?Hft, ?Hdt, ?Hfault);
      try discriminate;
      repeat match goal with
             | H : (_ >=? _) = true |- _ => apply Z.geb_ge in H
             | H : (_ >=? _) = false |- _ =>
                 rewrite Z.geb_leb in H; apply Z.leb_gt in H
             end;
      repeat split; intros; try lia; try reflexivity;
      pin_levels; try reflexivity; try congruence. }
  destruct Hnow as (Hbusy & Hfeed & Hdrain & Hkeep & Hleave).
  split; [exact Hbusy|]. split; [exact Hfeed|]. split; [exact Hdrain|].
  split; [exact Hkeep|]. intros Hout. split; [apply Hleave; exact Hout|].
  - unfold after, wait.
    destruct (Update_keeps_pins e s _ _ (o, b) (conj eq_refl eq_refl))
      as [Hf' Hd'].
    cbn [fst] in Hf', Hd'.
    apply (Update_stops (_feed_valve_actuator_pin o) (_drain_valve_actuator_pin o));
      try assumption; try apply Hf; try apply Hd.
    + cbn [fst]. unfold elapse. reduce_members. rewrite (Hleave Hout).
      reflexivity.
    + pose proof (Update_clears_requests e s (o, b)) as [Hrf' Hrd'].
      split; unfold elapse; reduce_members; assumption.
    + unfold expander_fault in *. cbn [snd] in *.
      rewrite (Update_keeps_faults e s (system_faults b) (o, b) eq_refl).
      exact Hfault.
Qed.

Lemma X18_manual_actuation_runs_out_witness :
  let w := wait 150 (after (Update 150 150) hour_column_manual_fill) in
  _state (fst w) = COLUMN_MANUAL_FILL /\
  feed_valve (snd (Update 150 150 (fst w, snd w))) = HIGH /\
  both_valves_stopped
    (after (Update 150 150) (wait 10 (snd (Update 150 150 (fst w, snd w))))).
Proof.
  cbv zeta.
  set (w := wait 150 (after (Update 150 150) hour_column_manual_fill)).
  assert (Hst : _state (fst w) = COLUMN_MANUAL_FILL) by (vm_compute; reflexivity).
  assert (Hf : uint8 (_feed_valve_actuator_pin (fst w)))
    by (vm_compute; split; [discriminate | reflexivity]).
  assert (Hd : uint8 (_drain_valve_actuator_pin (fst w)))
    by (vm_compute; split; [discriminate | reflexivity]).
  assert (Hne : _feed_valve_actuator_pin (fst w) <> _drain_valve_actuator_pin (fst w))
    by (vm_compute; discriminate).
  assert (Hrq : no_requests (fst w)) by (split; vm_compute; reflexivity).
  assert (Hfault : expander_fault (fst w, snd w) = false)
    by (vm_compute; reflexivity).
  destruct (X18_manual_actuation_runs_out 150 150 10 150 150 (fst w) (snd w)
              Hf Hd Hne (or_introl Hst) Hrq Hfault)
    as (_ & Hfeed & _ & _ & Hout).
  split; [exact Hst|]. split.
  - rewrite Hfeed, Hst. reflexivity.
  - apply Hout. rewrite Hst. vm_compute. discriminate.
Defined.

(** *** Under the expander fault

    [stop_flows] and [start_draining] leave the expander alone while
    the expander fault is active; [start_filling] writes it. *)










End Column.

(** ** The tank regulator *)

Section Tank.
Import TankManager.

Ltac reduce_members :=
  cbn [fst snd negb andb orb when Bool.eqb
       _feed_pump_drive_pin _feed_tank_level_high_pin _feed_tank_level_low_pin
       _feed_tank_level_above_high _feed_tank_level_above_low _pump_active
       _enable _enable_logging _state _time_in_current_state
       _time_since_last_update _request_manual_fill _manual_fill_period
       _post_pump_settle_period system_faults io_expander Serial
       set_feed_tank_level_above_high set_feed_tank_level_above_low
       set_pump_active set_enable set_enable_logging set_state
       set_time_in_current_state set_time_since_last_update
       set_request_manual_fill set_manual_fill_period] in *.

Ltac tank_methods :=
  lazymatch goal with
  | |- wp Update _ _ => unfold Update
  | |- wp state_machine _ _ => unfold state_machine
  | |- wp update_feed_tank_level_status _ _ =>
      unfold update_feed_tank_level_status
  | |- wp start_pumping _ _ => unfold start_pumping
  | |- wp stop_pumping _ _ => unfold stop_pumping
  | |- wp case_TANK_IDLE _ _ => unfold case_TANK_IDLE
  | |- wp case_TANK_FILL_ACTIVE _ _ => unfold case_TANK_FILL_ACTIVE
  | |- wp case_TANK_FILL_SETTLE _ _ => unfold case_TANK_FILL_SETTLE
  | |- wp case_TANK_MANUAL_FILL _ _ => unfold case_TANK_MANUAL_FILL
  | |- wp case_TANK_FILL_TIMEOUT_FAULT _ _ => unfold case_TANK_FILL_TIMEOUT_FAULT
  | |- wp (log_println _) _ _ => unfold log_println
  | |- wp Is_Feed_Tank_Above_High_Mark _ _ => unfold Is_Feed_Tank_Above_High_Mark
  | |- wp Is_Feed_Tank_Above_Low_Mark _ _ => unfold Is_Feed_Tank_Above_Low_Mark
  | |- wp (Serial_out _) _ _ => unfold Serial_out
  | |- wp (FAULT_SET _) _ _ => unfold FAULT_SET
  | |- wp (io_digitalWrite _ _) _ _ => unfold io_digitalWrite
  | |- wp (io_digitalRead _) _ _ => unfold io_digitalRead
  end.

Ltac wp_tank known :=
  wp_forwards ltac:(reduce_members) known ltac:(idtac; tank_methods).

Ltac unfold_tank :=
  unfold Update, state_machine, update_feed_tank_level_status,
    case_TANK_IDLE, case_TANK_FILL_ACTIVE, case_TANK_FILL_SETTLE,
    case_TANK_MANUAL_FILL, case_TANK_FILL_TIMEOUT_FAULT,
    start_pumping, stop_pumping, log_println,
    Is_Feed_Tank_Above_High_Mark, Is_Feed_Tank_Above_Low_Mark,
    Serial_out, FAULT_SET, io_digitalWrite, io_digitalRead.

Ltac tank_untouched :=
  let o := fresh "o" in
  let b := fresh "b" in
  let H := fresh "H" in
  intros o b H; reduce_members; first [exact H | discriminate | congruence].

(** No transition of [Update] leads into the timeout fault state. *)
Lemma Update_never_enters_timeout_fault :
  preserves (fun w => _state (fst w) <> TANK_FILL_TIMEOUT_FAULT) Update.
Proof. unfold_tank. preserving fail tank_untouched. Qed.

(** In the timeout fault state [Update] keeps the state and writes no pin. *)
Lemma timeout_fault_terminal o b :
  _state o = TANK_FILL_TIMEOUT_FAULT ->
  let w' := snd (Update (o, b)) in
  _state (fst w') = TANK_FILL_TIMEOUT_FAULT /\
  io_expander (snd w') = io_expander b /\
  _pump_active (fst w') = _pump_active o.
Proof.
  intros Hst.
  change (wp Update
             (fun _ w' => _state (fst w') = TANK_FILL_TIMEOUT_FAULT /\
                          io_expander (snd w') = io_expander b /\
                          _pump_active (fst w') = _pump_active o) (o, b)).
  destruct o, b. reduce_members. subst.
  wp_tank idtac; auto.
Qed.

(** The fill timeout in general: the fault is set, and that is all. *)
Lemma Update_fill_timeout o b :
  uint8 (_feed_pump_drive_pin o) -> uint8 (_feed_tank_level_high_pin o) ->
  rate_limited o = false ->
  _state o = TANK_FILL_ACTIVE -> _enable o = true ->
  digitalRead (io_expander b) (_feed_tank_level_high_pin o) = HIGH ->
  _time_in_current_state o >= MAX_PUMP_FILL_TIME_MSEC ->
  let w' := snd (Update (o, b)) in
  FAULT_ACTIVE_bits (system_faults (snd w')) FAULT_TANK_FILL_TIMEOUT = true /\
  _state (fst w') = TANK_FILL_ACTIVE /\
  pump_pin w' = HIGH /\
  _pump_active (fst w') = true.
Proof.
  intros [Hp _] [Hh _] Hrate Hst Hen Hdry Ht.
  assert (Hpt : (_feed_pump_drive_pin o >=? 0) = true) by (apply Z.geb_le; lia).
  assert (Hht : (_feed_tank_level_high_pin o >=? 0) = true)
    by (apply Z.geb_le; lia).
  apply Z.geb_ge in Ht.
  change (wp Update
            (fun _ w' =>
               FAULT_ACTIVE_bits (system_faults (snd w')) FAULT_TANK_FILL_TIMEOUT
               = true /\
               _state (fst w') = TANK_FILL_ACTIVE /\
               pump_pin w' = HIGH /\
               _pump_active (fst w') = true) (o, b)).
  unfold rate_limited, pump_pin, digitalRead, HIGH in *.
  destruct o, b. reduce_members. subst.
  wp_tank ltac:(rewrite ?Hpt, ?Hht, ?Hrate, ?Hdry, ?Ht).
  all: unfold digitalWrite, digitalRead, HIGH, LOW in *; reduce_members;
    try discriminate;
    try (match goal with
         | H : negb (_ _) = true |- _ => rewrite Hdry in H; discriminate H
         end);
    rewrite ?Z.eqb_refl;
    repeat split; auto using FAULT_SET_active.
  all: rewrite FAULT_SET_others by discriminate; apply FAULT_SET_active.
Qed.

Ltac by_running :=
  repeat split;
  try (vm_compute; reflexivity);
  try (unfold uint8, uint16, uint32; lia);
  try (let H := fresh in intro H; vm_compute in H; discriminate H).

(** C8, as stated, fails: a manual fill requested while the tank regulator
    is in FillActive is not taken up by the next [Update] that the rate
    limiter lets through; the state is still FillActive and the request
    is still pending. *)
Lemma C8_counterexample :
  let w := after (Manual_Fill 150) tank_pumping in
  rate_limited (fst w) = false /\
  _request_manual_fill (fst w) = true /\
  _state (fst w) = TANK_FILL_ACTIVE /\
  _state (fst (after Update w)) <> TANK_MANUAL_FILL /\
  _state (fst (after Update w)) = TANK_FILL_ACTIVE /\
  _request_manual_fill (fst (after Update w)) = true.
Proof. by_running. Qed.

(** C8 (amended). A pending manual fill request is taken up in Idle only:
    there the next [Update] let through by the rate limiter clears the
    request and moves to ManualFill with the time in state at zero.  In
    any other state that [Update] leaves the request pending and makes
    no transition into ManualFill. *)
Theorem C8_manual_fill_taken_up_in_idle (o : TankManager) (b : Board) :
  rate_limited o = false ->
  _request_manual_fill o = true ->
  let o' := fst (snd (Update (o, b))) in
  (_state o = TANK_IDLE ->
   _state o' = TANK_MANUAL_FILL /\
   _request_manual_fill o' = false /\
   _time_in_current_state o' = 0) /\
  (_state o <> TANK_IDLE ->
   _request_manual_fill o' = true /\
   (_state o' = TANK_MANUAL_FILL -> _state o = TANK_MANUAL_FILL)).
Proof.
  intros Hrate Hreq. cbv zeta.
  change (wp Update
            (fun _ w' =>
               (_state o = TANK_IDLE ->
                _state (fst w') = TANK_MANUAL_FILL /\
                _request_manual_fill (fst w') = false /\
                _time_in_current_state (fst w') = 0) /\
               (_state o <> TANK_IDLE ->
                _request_manual_fill (fst w') = true /\
                (_state (fst w') = TANK_MANUAL_FILL ->
                 _state o = TANK_MANUAL_FILL))) (o, b)).
  unfold rate_limited in Hrate.
  destruct o, b. reduce_members. subst.
  wp_tank ltac:(rewrite ?Hrate).
  all: reduce_members; repeat split; intros;
    try discriminate; try congruence; try reflexivity.
Qed.

Lemma C8_manual_fill_taken_up_in_idle_witness :
  let b := mkBoard 0 (fun _ => HIGH) [] in
  _state (fst (snd (Update (tank_with_request, b)))) = TANK_MANUAL_FILL /\
  _request_manual_fill (fst (snd (Update (tank_with_request, b)))) = false /\
  _time_in_current_state (fst (snd (Update (tank_with_request, b)))) = 0.
Proof.
  intros b.
  apply (C8_manual_fill_taken_up_in_idle tank_with_request b eq_refl eq_refl).
  reflexivity.
Defined.

(** C2 at its failing input: the tank regulator has been in FillActive
    for the maximum pump time, enabled, the high switch dry.  [Update]
    sets the fill timeout fault, but drives the pump HIGH as before and
    stays in FillActive; the next [Update] pumps on. *)
Theorem C2_fill_timeout_keeps_pumping :
  let w := wait 29980 tank_pumping in
  let w' := after Update w in
  let w'' := after Update (wait 10 w') in
  (_state (fst w) = TANK_FILL_ACTIVE /\
   _time_in_current_state (fst w) = MAX_PUMP_FILL_TIME_MSEC /\
   rate_limited (fst w) = false /\
   FAULT_ACTIVE_bits (system_faults (snd w)) FAULT_TANK_FILL_TIMEOUT = false) /\
  (FAULT_ACTIVE_bits (system_faults (snd w')) FAULT_TANK_FILL_TIMEOUT = true /\
   pump_pin w' = HIGH /\
   fst (Is_Pump_Active w') = true /\
   _state (fst w') = TANK_FILL_ACTIVE /\
   _state (fst w') <> TANK_FILL_TIMEOUT_FAULT) /\
  (pump_pin w'' = HIGH /\ _state (fst w'') = TANK_FILL_ACTIVE).
Proof. by_running. Qed.


(** *** More of the tank regulator *)

Lemma FAULT_SET_keeps (faults : Z) (x y : SYSTEM_FAULT_T) :
  FAULT_ACTIVE_bits faults y = true ->
  FAULT_ACTIVE_bits (FAULT_SET_bits faults x) y = true.
Proof.
  rewrite !FAULT_ACTIVE_testbit. unfold FAULT_SET_bits.
  rewrite Z.lor_spec. intros ->. reflexivity.
Qed.

Lemma level_pin_test (pin : Z) : uint8 pin -> (pin >=? 0) = true.
Proof. intros [H _]. apply Z.geb_le. exact H. Qed.

Ltac tank_levels :=
  unfold fault_active, high_switch_wet, low_switch_wet, pump_pin,
    digitalRead, digitalWrite, HIGH, LOW in *;
  reduce_members.

(** X19. The level-switch check of [Update] runs on every call, the
    rate-limited ones too.  With both switches wired, the call stores
    what the two switches read (wet is LOW), and the sense-fail fault
    is active after it exactly when it was active before or the high
    switch reads wet while the low switch reads dry.  No fault that was
    active is cleared, and no fault but the sense-fail and the
    fill-timeout fault is changed. *)
Theorem X19_level_sense_fault (o : TankManager) (b : Board) :
  uint8 (_feed_tank_level_high_pin o) -> uint8 (_feed_tank_level_low_pin o) ->
  let w' := snd (Update (o, b)) in
  fst (Is_Feed_Tank_Above_High_Mark w') = high_switch_wet (o, b) /\
  fst (Is_Feed_Tank_Above_Low_Mark w') = low_switch_wet (o, b) /\
  fault_active FAULT_TANK_LEVEL_SENSE_FAIL w'
  = (fault_active FAULT_TANK_LEVEL_SENSE_FAIL (o, b)
     || (high_switch_wet (o, b) && negb (low_switch_wet (o, b)))) /\
  (forall x, fault_active x (o, b) = true -> fault_active x w' = true) /\
  (forall x, x <> FAULT_TANK_LEVEL_SENSE_FAIL -> x <> FAULT_TANK_FILL_TIMEOUT ->
     fault_active x w' = fault_active x (o, b)).
Proof.
  intros Hh Hl. cbv zeta.
  apply level_pin_test in Hh. apply level_pin_test in Hl.
  change (wp Update
            (fun _ w' =>
               fst (Is_Feed_Tank_Above_High_Mark w') = high_switch_wet (o, b) /\
               fst (Is_Feed_Tank_Above_Low_Mark w') = low_switch_wet (o, b) /\
               fault_active FAULT_TANK_LEVEL_SENSE_FAIL w'
               = (fault_active FAULT_TANK_LEVEL_SENSE_FAIL (o, b)
                  || (high_switch_wet (o, b) && negb (low_switch_wet (o, b)))) /\
               (forall x, fault_active x (o, b) = true ->
                          fault_active x w' = true) /\
               (forall x, x <> FAULT_TANK_LEVEL_SENSE_FAIL ->
                          x <> FAULT_TANK_FILL_TIMEOUT ->
                          fault_active x w' = fault_active x (o, b))) (o, b)).
  unfold Is_Feed_Tank_Above_High_Mark at 1, Is_Feed_Tank_Above_Low_Mark at 1, this.
  destruct o, b. tank_levels. subst.
  wp_tank ltac:(rewrite ?Hh, ?Hl);
    tank_levels; try discriminate;
    repeat match goal with
           | H : Bool.eqb _ _ && Bool.eqb _ _ = _ |- _ => revert H
           | H : negb _ = _ |- _ => revert H
           end;
    repeat match goal with
           | |- context [io_expander0 ?p] => destruct (io_expander0 p)
           end;
    cbn; intros; try discriminate;
    (split; [reflexivity|]); (split; [reflexivity|]);
    (split; [| split; intros x ?; intros;
               rewrite ?FAULT_SET_others
                 by (intros Heq; subst x; congruence);
               repeat apply FAULT_SET_keeps; auto]);
    rewrite ?(FAULT_SET_others _ FAULT_TANK_FILL_TIMEOUT) by discriminate;
    rewrite ?FAULT_SET_active, ?orb_true_r, ?orb_false_r; reflexivity.
Qed.

Lemma X19_level_sense_fault_witness :
  fault_active FAULT_TANK_LEVEL_SENSE_FAIL
    (snd (Update (fst contradicting_tank, snd contradicting_tank))) = true.
Proof.
  assert (Hh : uint8 (_feed_tank_level_high_pin (fst contradicting_tank)))
    by (vm_compute; split; [discriminate | reflexivity]).
  assert (Hl : uint8 (_feed_tank_level_low_pin (fst contradicting_tank)))
    by (vm_compute; split; [discriminate | reflexivity]).
  destruct (X19_level_sense_fault (fst contradicting_tank)
              (snd contradicting_tank) Hh Hl) as (_ & _ & Hfault & _).
  rewrite Hfault. vm_compute. reflexivity.
Defined.

Lemma preserves_from_wp_tank {A} (P : TankManager * Board -> Prop) (c : Method A) :
  (forall w, P w -> wp c (fun _ w' => P w') w) -> preserves P c.
Proof. intros H w Hw. exact (H w Hw). Qed.

(** [Update] keeps the pump flag equal to the level of the pump pin. *)
Lemma Update_pump_flag (p : Z) :
  0 <= p ->
  preserves (fun w => _feed_pump_drive_pin (fst w) = p /\
                      _pump_active (fst w) = pump_pin w) Update.
Proof.
  intros Hp. assert (Hpt : (p >=? 0) = true) by (apply Z.geb_le; lia).
  apply preserves_from_wp_tank. intros [o b] [Hpin Hflag].
  destruct o, b. tank_levels. subst.
  wp_tank ltac:(rewrite ?Hpt); tank_levels;
    rewrite ?Z.eqb_refl; split; try reflexivity; try assumption.
Qed.

(** X20. [Is_Pump_Active] tells the level of the pump pin.  Whatever
    public member functions are called on a regulator constructed on an
    expander pin, however time goes by between the calls, and whatever
    else happens on the board that leaves the pump pin alone, the pump
    flag is true exactly when the pump pin is driven HIGH. *)
Theorem X20_pump_flag_is_pin_level
    (feed_pump_pin low_pin high_pin : Z) (b : Board) (w : TankManager * Board) :
  0 <= feed_pump_pin ->
  reachable (constructor feed_pump_pin low_pin high_pin b) w ->
  _feed_pump_drive_pin (fst w) = feed_pump_pin /\
  fst (Is_Pump_Active w) = pump_pin w.
Proof.
  intros Hp Hreach.
  assert (Hpt : (feed_pump_pin >=? 0) = true) by (apply Z.geb_le; lia).
  unfold Is_Pump_Active, this. cbn [fst].
  induction Hreach as [|w w' _ IH Hstep].
  - unfold constructor, run, stop_pumping, members.
    cbv [bind this when io_digitalWrite on_board assign ret fst snd
         _feed_pump_drive_pin].
    rewrite Hpt. tank_levels. rewrite Z.eqb_refl. split; reflexivity.
  - destruct IH as [Hpin Hflag].
    destruct Hstep as [w | w enable | w period _ | w | w | o b0 dt _ | o b0 b' Hsame].
    + apply (Update_pump_flag feed_pump_pin Hp w). split; assumption.
    + destruct w. split; [exact Hpin | exact Hflag].
    + destruct w. split; [exact Hpin | exact Hflag].
    + destruct w. split; [exact Hpin | exact Hflag].
    + destruct w. split; [exact Hpin | exact Hflag].
    + split; [exact Hpin | exact Hflag].
    + split; [exact Hpin|]. tank_levels. rewrite Hsame. exact Hflag.
Qed.

Lemma X20_pump_flag_is_pin_level_witness :
  fst (Is_Pump_Active (after Update (wait 10 dry_tank)))
  = pump_pin (after Update (wait 10 dry_tank)).
Proof.
  assert (Hp : 0 <= 8) by lia.
  refine (proj2 (X20_pump_flag_is_pin_level 8 0 1
                   (mkBoard 0 (fun p => if p =? 0 then HIGH
                                        else if p =? 1 then HIGH else LOW) [])
                   (after Update (wait 10 dry_tank)) Hp _)).
  unfold dry_tank.
  eapply reachable_step; [|apply step_Update].
  eapply reachable_step;
    [|apply (step_elapse (fst (after (Set_Regulator_Enable true) _))
                         (snd (after (Set_Regulator_Enable true) _)) 10); lia].
  eapply reachable_step; [apply reachable_start|].
  apply (step_Set_Regulator_Enable
           (constructor 8 0 1
              (mkBoard 0 (fun p => if p =? 0 then HIGH
                                   else if p =? 1 then HIGH else LOW) [])) true).
Defined.

(** X21. A due [Update] in Idle stops the pump first.  With the pump
    and the low switch wired, the pump pin is LOW and the pump flag
    false after the call; the state is ManualFill when a manual fill
    was requested, otherwise FillActive when the regulator is enabled
    and the low switch reads dry, otherwise Idle; a state entered has
    its time at zero. *)
Theorem X21_idle_step (o : TankManager) (b : Board) :
  uint8 (_feed_pump_drive_pin o) -> uint8 (_feed_tank_level_low_pin o) ->
  rate_limited o = false ->
  _state o = TANK_IDLE ->
  let w' := snd (Update (o, b)) in
  pump_pin w' = LOW /\ fst (Is_Pump_Active w') = false /\
  _state (fst w')
  = (if _request_manual_fill o then TANK_MANUAL_FILL
     else if _enable o && negb (low_switch_wet (o, b)) then TANK_FILL_ACTIVE
          else TANK_IDLE) /\
  (_state (fst w') <> TANK_IDLE -> _time_in_current_state (fst w') = 0).
Proof.
  intros Hp Hl Hrate Hst. cbv zeta.
  apply level_pin_test in Hp. apply level_pin_test in Hl.
  change (wp Update
            (fun _ w' =>
               pump_pin w' = LOW /\ fst (Is_Pump_Active w') = false /\
               _state (fst w')
               = (if _request_manual_fill o then TANK_MANUAL_FILL
                  else if _enable o && negb (low_switch_wet (o, b))
                       then TANK_FILL_ACTIVE else TANK_IDLE) /\
               (_state (fst w') <> TANK_IDLE ->
                _time_in_current_state (fst w') = 0)) (o, b)).
  unfold Is_Pump_Active, this, rate_limited in *.
  destruct o, b. tank_levels. subst.
  wp_tank ltac:(rewrite ?Hp, ?Hl, ?Hrate);
    tank_levels; try discriminate; rewrite ?Z.eqb_refl;
    repeat match goal with
           | H : negb _ = _ |- _ => revert H
           end;
    repeat match goal with
           | |- context [io_expander0 ?p] => destruct (io_expander0 p)
           end;
    cbn; intros; try discriminate;
    repeat match goal with
           | H : negb ?x = _ |- _ => destruct x; try discriminate H
           end;
    subst; cbn;
    repeat split; try reflexivity; try congruence.
Qed.

Lemma X21_idle_step_witness :
  _state (fst (snd (Update (fst (wait 10 dry_tank), snd (wait 10 dry_tank)))))
  = TANK_FILL_ACTIVE.
Proof.
  assert (Hp : uint8 (_feed_pump_drive_pin (fst (wait 10 dry_tank))))
    by (vm_compute; split; [discriminate | reflexivity]).
  assert (Hl : uint8 (_feed_tank_level_low_pin (fst (wait 10 dry_tank))))
    by (vm_compute; split; [discriminate | reflexivity]).
  assert (Hrate : rate_limited (fst (wait 10 dry_tank)) = false)
    by (vm_compute; reflexivity).
  assert (Hst : _state (fst (wait 10 dry_tank)) = TANK_IDLE)
    by (vm_compute; reflexivity).
  destruct (X21_idle_step (fst (wait 10 dry_tank)) (snd (wait 10 dry_tank))
              Hp Hl Hrate Hst) as (_ & _ & Hnext & _).
  rewrite Hnext. vm_compute. reflexivity.
Defined.

Ltac tank_cases :=
  tank_levels; try discriminate; rewrite ?Z.eqb_refl;
  repeat match goal with
         | H : negb _ = _ |- _ => revert H
         | H : Bool.eqb _ _ && Bool.eqb _ _ = _ |- _ => clear H
         end;
  repeat match goal with
         | |- context [?f ?p] =>
             is_var f;
             lazymatch type of f with SX1509 => destruct (f p) end
         end;
  cbn [negb andb orb]; intros; try discriminate;
  repeat match goal with
         | H : negb ?x = _ |- _ => destruct x; try discriminate H
         end;
  subst; cbn [negb andb orb];
  repeat match goal with
         | H : (?t >=? ?p) = _ |- context [?t >=? ?p] => rewrite H
         end;
  cbn [negb andb orb].

(** X22. A due [Update] in FillActive, pump and high switch wired.
    When the high switch reads wet the fill is over: FillSettle with
    the time in state at zero, the pump pin LOW, and the fill-timeout
    fault as it was, however long the fill took and enabled or not.
    When it reads dry the pump pin is driven HIGH, also when the
    regulator is disabled: then the state is Idle with the pump still
    running; an enabled regulator stays in FillActive, and the
    fill-timeout fault is raised once the time in state has reached the
    maximum fill time. *)
Theorem X22_fill_active_step (o : TankManager) (b : Board) :
  uint8 (_feed_pump_drive_pin o) -> uint8 (_feed_tank_level_high_pin o) ->
  rate_limited o = false ->
  _state o = TANK_FILL_ACTIVE ->
  let w' := snd (Update (o, b)) in
  if high_switch_wet (o, b)
  then _state (fst w') = TANK_FILL_SETTLE /\
       _time_in_current_state (fst w') = 0 /\
       pump_pin w' = LOW /\ fst (Is_Pump_Active w') = false /\
       fault_active FAULT_TANK_FILL_TIMEOUT w'
       = fault_active FAULT_TANK_FILL_TIMEOUT (o, b)
  else pump_pin w' = HIGH /\ fst (Is_Pump_Active w') = true /\
       _state (fst w') = (if _enable o then TANK_FILL_ACTIVE else TANK_IDLE) /\
       _time_in_current_state (fst w')
       = (if _enable o then _time_in_current_state o else 0) /\
       fault_active FAULT_TANK_FILL_TIMEOUT w'
       = (fault_active FAULT_TANK_FILL_TIMEOUT (o, b)
          || (_enable o
              && (_time_in_current_state o >=? MAX_PUMP_FILL_TIME_MSEC))).
Proof.
  intros Hp Hh Hrate Hst. cbv zeta.
  apply level_pin_test in Hp. apply level_pin_test in Hh.
  change (wp Update
            (fun _ w' =>
               if high_switch_wet (o, b)
               then _state (fst w') = TANK_FILL_SETTLE /\
                    _time_in_current_state (fst w') = 0 /\
                    pump_pin w' = LOW /\ fst (Is_Pump_Active w') = false /\
                    fault_active FAULT_TANK_FILL_TIMEOUT w'
                    = fault_active FAULT_TANK_FILL_TIMEOUT (o, b)
               else pump_pin w' = HIGH /\ fst (Is_Pump_Active w') = true /\
                    _state (fst w')
                    = (if _enable o then TANK_FILL_ACTIVE else TANK_IDLE) /\
                    _time_in_current_state (fst w')
                    = (if _enable o then _time_in_current_state o else 0) /\
                    fault_active FAULT_TANK_FILL_TIMEOUT w'
                    = (fault_active FAULT_TANK_FILL_TIMEOUT (o, b)
                       || (_enable o
                           && (_time_in_current_state o
                               >=? MAX_PUMP_FILL_TIME_MSEC)))) (o, b)).
  unfold Is_Pump_Active, this, rate_limited in *.
  destruct o, b. tank_levels. subst.
  wp_tank ltac:(rewrite ?Hp, ?Hh, ?Hrate);
    tank_cases;
    rewrite ?(FAULT_SET_others _ FAULT_TANK_LEVEL_SENSE_FAIL) by discriminate;
    rewrite ?FAULT_SET_active, ?orb_true_r, ?orb_false_r;
    repeat split; try reflexivity; try congruence.
Qed.

Lemma X22_fill_active_step_witness :
  let w := wait 10 (after Update (wait 10 dry_tank)) in
  _state (fst w) = TANK_FILL_ACTIVE /\
  pump_pin (snd (Update (fst w, snd w))) = HIGH.
Proof.
  cbv zeta.
  set (w := wait 10 (after Update (wait 10 dry_tank))).
  assert (Hp : uint8 (_feed_pump_drive_pin (fst w)))
    by (vm_compute; split; [discriminate | reflexivity]).
  assert (Hh : uint8 (_feed_tank_level_high_pin (fst w)))
    by (vm_compute; split; [discriminate | reflexivity]).
  assert (Hrate : rate_limited (fst w) = false) by (vm_compute; reflexivity).
  assert (Hst : _state (fst w) = TANK_FILL_ACTIVE) by (vm_compute; reflexivity).
  split; [exact Hst|].
  pose proof (X22_fill_active_step (fst w) (snd w) Hp Hh Hrate Hst) as Hstep.
  cbv zeta in Hstep.
  replace (high_switch_wet (fst w, snd w)) with false in Hstep
    by (vm_compute; reflexivity).
  exact (proj1 Hstep).
Defined.

(** X23. A due [Update] in FillSettle, the pump wired: the pump pin is
    LOW and the pump flag false; the regulator returns to Idle, the
    time in state at zero, when it is disabled or the settle period has
    gone by, and otherwise stays with the time in state as it was.  The
    level switches play no part. *)
Theorem X23_fill_settle_step (o : TankManager) (b : Board) :
  uint8 (_feed_pump_drive_pin o) ->
  rate_limited o = false ->
  _state o = TANK_FILL_SETTLE ->
  let w' := snd (Update (o, b)) in
  let leaves := negb (_enable o)
                || (_time_in_current_state o >=? _post_pump_settle_period o) in
  pump_pin w' = LOW /\ fst (Is_Pump_Active w') = false /\
  _state (fst w') = (if leaves then TANK_IDLE else TANK_FILL_SETTLE) /\
  _time_in_current_state (fst w')
  = (if leaves then 0 else _time_in_current_state o).
Proof.
  intros Hp Hrate Hst. cbv zeta.
  apply level_pin_test in Hp.
  change (wp Update
            (fun _ w' =>
               pump_pin w' = LOW /\ fst (Is_Pump_Active w') = false /\
               _state (fst w')
               = (if negb (_enable o)
                     || (_time_in_current_state o
                         >=? _post_pump_settle_period o)
                  then TANK_IDLE else TANK_FILL_SETTLE) /\
               _time_in_current_state (fst w')
               = (if negb (_enable o)
                     || (_time_in_current_state o
                         >=? _post_pump_settle_period o)
                  then 0 else _time_in_current_state o)) (o, b)).
  unfold Is_Pump_Active, this, rate_limited in *.
  destruct o, b. tank_levels. subst.
  wp_tank ltac:(rewrite ?Hp, ?Hrate);
    tank_cases;
    repeat split; try reflexivity; try congruence.
Qed.

Lemma X23_fill_settle_step_witness :
  let o := set_time_since_last_update 10
             (set_time_in_current_state 1000
                (set_state TANK_FILL_SETTLE (set_enable true (members 8 0 1)))) in
  _state (fst (snd (Update (o, mkBoard 0 (fun _ => HIGH) [])))) = TANK_IDLE.
Proof.
  cbv zeta.
  set (o := set_time_since_last_update 10
              (set_time_in_current_state 1000
                 (set_state TANK_FILL_SETTLE (set_enable true (members 8 0 1))))).
  assert (Hp : uint8 (_feed_pump_drive_pin o))
    by (vm_compute; split; [discriminate | reflexivity]).
  assert (Hrate : rate_limited o = false) by (vm_compute; reflexivity).
  assert (Hst : _state o = TANK_FILL_SETTLE) by (vm_compute; reflexivity).
  destruct (X23_fill_settle_step o (mkBoard 0 (fun _ => HIGH) []) Hp Hrate Hst)
    as (_ & _ & Hnext & _).
  rewrite Hnext. vm_compute. reflexivity.
Defined.

(** X24. A due [Update] in ManualFill, the pump wired: the pump pin is
    driven HIGH and the pump flag is true, whatever the level switches
    read and enabled or not; the regulator returns to Idle, the time in
    state at zero, once the manual fill period has gone by, and
    otherwise stays with the time in state as it was.  A manual fill
    requested meanwhile stays pending. *)
Theorem X24_manual_fill_step (o : TankManager) (b : Board) :
  uint8 (_feed_pump_drive_pin o) ->
  rate_limited o = false ->
  _state o = TANK_MANUAL_FILL ->
  let w' := snd (Update (o, b)) in
  let over := _time_in_current_state o >=? _manual_fill_period o in
  pump_pin w' = HIGH /\ fst (Is_Pump_Active w') = true /\
  _state (fst w') = (if over then TANK_IDLE else TANK_MANUAL_FILL) /\
  _time_in_current_state (fst w')
  = (if over then 0 else _time_in_current_state o) /\
  _request_manual_fill (fst w') = _request_manual_fill o.
Proof.
  intros Hp Hrate Hst. cbv zeta.
  apply level_pin_test in Hp.
  change (wp Update
            (fun _ w' =>
               pump_pin w' = HIGH /\ fst (Is_Pump_Active w') = true /\
               _state (fst w')
               = (if _time_in_current_state o >=? _manual_fill_period o
                  then TANK_IDLE else TANK_MANUAL_FILL) /\
               _time_in_current_state (fst w')
               = (if _time_in_current_state o >=? _manual_fill_period o
                  then 0 else _time_in_current_state o) /\
               _request_manual_fill (fst w') = _request_manual_fill o) (o, b)).
  unfold Is_Pump_Active, this, rate_limited in *.
  destruct o, b. tank_levels. subst.
  wp_tank ltac:(rewrite ?Hp, ?Hrate);
    tank_cases;
    repeat split; try reflexivity; try congruence.
Qed.

Lemma X24_manual_fill_step_witness :
  pump_pin (snd (Update (tank_in_manual_fill, mkBoard 0 (fun _ => LOW) [])))
  = HIGH.
Proof.
  assert (Hp : uint8 (_feed_pump_drive_pin tank_in_manual_fill))
    by (vm_compute; split; [discriminate | reflexivity]).
  assert (Hrate : rate_limited tank_in_manual_fill = false)
    by (vm_compute; reflexivity).
  assert (Hst : _state tank_in_manual_fill = TANK_MANUAL_FILL)
    by (vm_compute; reflexivity).
  exact (proj1 (X24_manual_fill_step tank_in_manual_fill
                  (mkBoard 0 (fun _ => LOW) []) Hp Hrate Hst)).
Defined.

Lemma step_wait (dt : Z) (w : TankManager * Board) :
  0 <= dt -> step w (wait dt w).
Proof. intros Hdt. destruct w as [o b]. apply step_elapse. exact Hdt. Qed.

(** X25. The timeout fault state is never entered.  Whatever public
    member functions are called on a constructed regulator, however
    time goes by and whatever happens on the board, the state is not
    TANK_FILL_TIMEOUT_FAULT. *)
Theorem X25_timeout_state_unreachable
    (feed_pump_pin low_pin high_pin : Z) (b : Board) (w : TankManager * Board) :
  reachable (constructor feed_pump_pin low_pin high_pin b) w ->
  fst (Get_State w) <> TANK_FILL_TIMEOUT_FAULT.
Proof.
  intros Hreach. unfold Get_State, this. cbn [fst].
  induction Hreach as [|w w' _ IH Hstep].
  - unfold constructor, run, stop_pumping, members.
    cbv [bind this when io_digitalWrite on_board assign ret fst snd
         _feed_pump_drive_pin].
    destruct (feed_pump_pin >=? 0); reduce_members; discriminate.
  - destruct Hstep as [w | w enable | w period _ | w | w | o b0 dt _ | o b0 b' _].
    + apply (Update_never_enters_timeout_fault w). exact IH.
    + destruct w. exact IH.
    + destruct w. exact IH.
    + destruct w. exact IH.
    + destruct w. exact IH.
    + exact IH.
    + exact IH.
Qed.

Lemma X25_timeout_state_unreachable_witness :
  fst (Get_State (after Update (wait 40000 tank_pumping)))
  <> TANK_FILL_TIMEOUT_FAULT.
Proof.
  refine (X25_timeout_state_unreachable 8 0 1
            (mkBoard 0 (fun p => if p =? 0 then HIGH
                                 else if p =? 1 then HIGH else LOW) [])
            (after Update (wait 40000 tank_pumping)) _).
  unfold tank_pumping, dry_tank.
  repeat first
    [ apply reachable_start
    | eapply reachable_step; [|apply step_Update]
    | eapply reachable_step; [|apply step_wait; lia]
    | eapply reachable_step;
      [|match goal with
        | |- step _ (after (Set_Regulator_Enable ?e) ?w) =>
            apply (step_Set_Regulator_Enable w e)
        end] ].
Defined.

(** The value [Update] returns is the rate limiter's test, and nothing
    else. *)
Lemma Update_result (w : TankManager * Board) :
  fst (Update w) = rate_limited (fst w).
Proof.
  destruct w as [o b].
  change (wp Update (fun r _ => r = rate_limited o) (o, b)).
  unfold rate_limited. destruct o, b. reduce_members.
  wp_tank idtac;
    match goal with
    | H : (_ <? _) = _ |- _ => rewrite H; reflexivity
    end.
Qed.

(** C10. [Update] returns true exactly when the rate limiter turns the
    call away, that is when fewer than TANK_UPDATE_PERIOD_MSEC
    milliseconds have gone by since the last call it let through: a
    call let through restarts the period, a call turned away does not.
    A call turned away does not run the state machine: the state, the
    pump pin and what [Is_Pump_Active] returns are as before.  A call
    let through returns false whether it drives the pump or not, and
    [Is_Pump_Active] then tells which: in ManualFill, and in FillActive
    while the high switch is dry, the pump pin is HIGH and
    [Is_Pump_Active] is true; in Idle, in FillSettle, and in FillActive
    when the high switch is wet, the pump pin is LOW and
    [Is_Pump_Active] is false. *)
Theorem C10_busy_is_rate_limit (o : TankManager) (b : Board) :
  uint8 (_feed_pump_drive_pin o) ->
  uint8 (_feed_tank_level_high_pin o) ->
  let w' := snd (Update (o, b)) in
  fst (Update (o, b)) = rate_limited o /\
  (rate_limited o = true ->
   _state (fst w') = _state o /\
   _pump_active (fst w') = _pump_active o /\
   io_expander (snd w') = io_expander b /\
   pump_pin w' = pump_pin (o, b) /\
   fst (Is_Pump_Active w') = fst (Is_Pump_Active (o, b)) /\
   _time_since_last_update (fst w') = _time_since_last_update o /\
   (forall dt, 0 <= _time_since_last_update o + dt < 2 ^ 32 ->
      fst (Update (wait dt w'))
      = (_time_since_last_update o + dt <? TANK_UPDATE_PERIOD_MSEC))) /\
  (rate_limited o = false ->
   fst (Update (o, b)) = false /\
   _time_since_last_update (fst w') = 0 /\
   (forall dt, 0 <= dt < 2 ^ 32 ->
      fst (Update (wait dt w')) = (dt <? TANK_UPDATE_PERIOD_MSEC)) /\
   (_state o <> TANK_FILL_TIMEOUT_FAULT ->
    fst (Is_Pump_Active w') = pump_pin w') /\
   (_state o = TANK_MANUAL_FILL \/
    (_state o = TANK_FILL_ACTIVE /\
     digitalRead (io_expander b) (_feed_tank_level_high_pin o) = HIGH) ->
    pump_pin w' = HIGH /\ fst (Is_Pump_Active w') = true) /\
   (_state o = TANK_IDLE \/ _state o = TANK_FILL_SETTLE \/
    (_state o = TANK_FILL_ACTIVE /\
     digitalRead (io_expander b) (_feed_tank_level_high_pin o) = LOW) ->
    pump_pin w' = LOW /\ fst (Is_Pump_Active w') = false)).
Proof.
  intros Hp Hh. cbv zeta.
  apply level_pin_test in Hp. apply level_pin_test in Hh.
  assert (Hrun :
    wp Update
       (fun r w' =>
          (rate_limited o = true ->
           _state (fst w') = _state o /\
           _pump_active (fst w') = _pump_active o /\
           io_expander (snd w') = io_expander b /\
           _feed_pump_drive_pin (fst w') = _feed_pump_drive_pin o /\
           _time_since_last_update (fst w') = _time_since_last_update o) /\
          (rate_limited o = false ->
           _time_since_last_update (fst w') = 0 /\
           (_state o <> TANK_FILL_TIMEOUT_FAULT ->
            _pump_active (fst w') = pump_pin w') /\
           (_state o = TANK_MANUAL_FILL \/
            (_state o = TANK_FILL_ACTIVE /\
             digitalRead (io_expander b) (_feed_tank_level_high_pin o) = HIGH) ->
            pump_pin w' = HIGH /\ _pump_active (fst w') = true) /\
           (_state o = TANK_IDLE \/ _state o = TANK_FILL_SETTLE \/
            (_state o = TANK_FILL_ACTIVE /\
             digitalRead (io_expander b) (_feed_tank_level_high_pin o) = LOW) ->
            pump_pin w' = LOW /\ _pump_active (fst w') = false))) (o, b)).
  { unfold rate_limited.
    destruct o, b. tank_levels.
    wp_tank ltac:(rewrite ?Hp, ?Hh);
      tank_levels; rewrite ?Z.eqb_refl;
      (split; intros Hrate; [try congruence | try congruence]);
      repeat split; intros;
      repeat match goal with
             | H : _ \/ _ |- _ => destruct H
             | H : _ /\ _ |- _ => destruct H
             end;
      try discriminate; try congruence; try reflexivity;
      try match goal with
          | H : ?io ?p = _, H' : context [negb (?io ?p)] |- _ =>
              rewrite H in H'; discriminate H'
          end. }
  unfold wp in Hrun. destruct Hrun as [Hno Hyes].
  split; [apply (Update_result (o, b))|]. split.
  - intros Hrate. destruct (Hno Hrate) as (Hst & Hflag & Hio & Hpin & Htime).
    unfold Is_Pump_Active, this, pump_pin. cbn [fst snd].
    repeat split; try assumption.
    + rewrite Hpin, Hio. reflexivity.
    + intros dt Hdt. rewrite Update_result. unfold rate_limited, wait, elapse.
      reduce_members. rewrite Htime. unfold to_uint32.
      rewrite Z.mod_small by exact Hdt. reflexivity.
  - intros Hrate. destruct (Hyes Hrate) as (Htime & Hflag & Hon & Hoff).
    unfold Is_Pump_Active, this. cbn [fst].
    split; [rewrite (Update_result (o, b)); exact Hrate|].
    split; [exact Htime|]. split; [|split; [exact Hflag | split; assumption]].
    intros dt Hdt. rewrite Update_result. unfold rate_limited, wait, elapse.
    reduce_members. rewrite Htime. unfold to_uint32.
    rewrite Z.add_0_l, Z.mod_small by exact Hdt. reflexivity.
Qed.

Lemma C10_busy_is_rate_limit_witness :
  let w := wait 10 (after Update (wait 10 dry_tank)) in
  let w' := snd (Update (fst w, snd w)) in
  (_state (fst w) = TANK_FILL_ACTIVE /\ fst (Is_Pump_Active w) = false) /\
  fst (Update (fst w, snd w)) = false /\
  pump_pin w' = HIGH /\ fst (Is_Pump_Active w') = true /\
  fst (Update (wait 9 w')) = true /\
  fst (Update (wait 10 w')) = false.
Proof.
  cbv zeta.
  set (w := wait 10 (after Update (wait 10 dry_tank))).
  assert (Hp : uint8 (_feed_pump_drive_pin (fst w)))
    by (vm_compute; split; [discriminate | reflexivity]).
  assert (Hh : uint8 (_feed_tank_level_high_pin (fst w)))
    by (vm_compute; split; [discriminate | reflexivity]).
  assert (Hrate : rate_limited (fst w) = false) by (vm_compute; reflexivity).
  assert (Hst : _state (fst w) = TANK_FILL_ACTIVE) by (vm_compute; reflexivity).
  assert (Hdry : digitalRead (io_expander (snd w))
                             (_feed_tank_level_high_pin (fst w)) = HIGH)
    by (vm_compute; reflexivity).
  destruct (C10_busy_is_rate_limit (fst w) (snd w) Hp Hh) as (_ & _ & Hrun).
  destruct (Hrun Hrate) as (Hres & _ & Hnext & _ & Hon & _).
  destruct (Hon (or_intror (conj Hst Hdry))) as [Hpin Hflag].
  split; [split; [exact Hst | vm_compute; reflexivity]|].
  split; [exact Hres|]. split; [exact Hpin|]. split; [exact Hflag|].
  split.
  - rewrite (Hnext 9) by (change (2 ^ 32) with 4294967296; lia). reflexivity.
  - rewrite (Hnext 10) by (change (2 ^ 32) with 4294967296; lia). reflexivity.
Defined.

End Tank.

(** ** The fault bitmap *)

Section FaultBitmap.

Lemma uint32_fixed (z : Z) : uint32 z <-> to_uint32 z = z.
Proof.
  unfold uint32, to_uint32. split.
  - intros Hz. apply Z.mod_small. exact Hz.
  - intros Hz. rewrite <- Hz. apply Z.mod_pos_bound. reflexivity.
Qed.

Lemma uint32_high_bits (z : Z) (n : Z) :
  uint32 z -> 32 <= n -> Z.testbit z n = false.
Proof.
  intros Hz Hn. apply uint32_fixed in Hz. rewrite <- Hz.
  unfold to_uint32. apply Z.mod_pow2_bits_high. lia.
Qed.

Lemma uint32_from_bits (z : Z) :
  (forall n, 32 <= n -> Z.testbit z n = false) -> uint32 z.
Proof.
  intros Hbits. apply uint32_fixed. unfold to_uint32.
  apply Z.bits_inj'. intros n Hn.
  destruct (Z_lt_le_dec n 32) as [Hlt | Hge].
  - apply Z.mod_pow2_bits_low. exact Hlt.
  - rewrite Z.mod_pow2_bits_high by lia. symmetry. apply Hbits, Hge.
Qed.

(** The bits of the mask of [FAULT_CLEAR]. *)
Lemma clear_mask_bits (x : SYSTEM_FAULT_T) (n : Z) :
  0 <= n ->
  Z.testbit (to_uint32 (Z.lnot (Z.shiftl 1 (fault_bit x)))) n
  = (n <? 32) && negb (n =? fault_bit x).
Proof.
  intros Hn. pose proof (fault_bit_range x) as Hx.
  unfold to_uint32. rewrite Z.shiftl_1_l.
  destruct (Z.ltb_spec n 32) as [Hlt | Hge].
  - rewrite Z.mod_pow2_bits_low by lia.
    rewrite Z.lnot_spec by lia. cbn [andb]. f_equal.
    destruct (Z.eqb_spec n (fault_bit x)) as [-> | Hne].
    + apply Z.pow2_bits_true. lia.
    + apply Z.pow2_bits_false. lia.
  - rewrite Z.mod_pow2_bits_high by lia. reflexivity.
Qed.

Lemma FAULT_CLEAR_testbit (faults : Z) (x : SYSTEM_FAULT_T) (n : Z) :
  uint32 faults -> 0 <= n ->
  Z.testbit (FAULT_CLEAR_bits faults x) n
  = Z.testbit faults n && negb (n =? fault_bit x).
Proof.
  intros Hf Hn. unfold FAULT_CLEAR_bits.
  rewrite Z.land_spec, clear_mask_bits by exact Hn.
  destruct (Z.ltb_spec n 32) as [Hlt | Hge]; [reflexivity|].
  rewrite (uint32_high_bits faults n Hf Hge). reflexivity.
Qed.

Lemma FAULT_SET_testbit (faults : Z) (x : SYSTEM_FAULT_T) (n : Z) :
  0 <= n ->
  Z.testbit (FAULT_SET_bits faults x) n
  = Z.testbit faults n || (n =? fault_bit x).
Proof.
  intros Hn. pose proof (fault_bit_range x) as Hx.
  unfold FAULT_SET_bits. rewrite Z.lor_spec, Z.shiftl_1_l. f_equal.
  destruct (Z.eqb_spec n (fault_bit x)) as [-> | Hne].
  - apply Z.pow2_bits_true. lia.
  - apply Z.pow2_bits_false. lia.
Qed.

Lemma fault_bit_injective (x y : SYSTEM_FAULT_T) :
  fault_bit x = fault_bit y -> x = y.
Proof. destruct x, y; cbn; intros H; congruence. Qed.

(** X1. [FAULT_SET] on a 32-bit bitmap gives a 32-bit bitmap in which
    the fault is active and every other fault is as before; setting a
    fault that is active already changes nothing. *)
Theorem X1_fault_set (faults : Z) (x : SYSTEM_FAULT_T) :
  uint32 faults ->
  uint32 (FAULT_SET_bits faults x) /\
  FAULT_ACTIVE_bits (FAULT_SET_bits faults x) x = true /\
  (forall y, y <> x ->
     FAULT_ACTIVE_bits (FAULT_SET_bits faults x) y = FAULT_ACTIVE_bits faults y) /\
  (FAULT_ACTIVE_bits faults x = true -> FAULT_SET_bits faults x = faults).
Proof.
  intros Hf. pose proof (fault_bit_range x) as Hx.
  split; [|split; [|split]].
  - apply uint32_from_bits. intros n Hn.
    rewrite FAULT_SET_testbit by lia.
    rewrite (uint32_high_bits faults n Hf Hn).
    apply Z.eqb_neq. lia.
  - apply FAULT_SET_active.
  - intros y Hy. apply FAULT_SET_others. congruence.
  - intros Hact. rewrite FAULT_ACTIVE_testbit in Hact.
    apply Z.bits_inj'. intros n Hn.
    rewrite FAULT_SET_testbit by exact Hn.
    destruct (Z.eqb_spec n (fault_bit x)) as [-> | Hne].
    + rewrite Hact. reflexivity.
    + apply orb_false_r.
Qed.

Lemma X1_fault_set_witness :
  FAULT_ACTIVE_bits (FAULT_SET_bits 32768 FAULT_TANK_FILL_TIMEOUT)
                    FAULT_TANK_FILL_TIMEOUT = true /\
  FAULT_ACTIVE_bits (FAULT_SET_bits 32768 FAULT_TANK_FILL_TIMEOUT)
                    FAULT_SX1509_IO_EXPANDER_INIT_FAIL = true.
Proof.
  assert (Hf : uint32 32768) by (unfold uint32; lia).
  destruct (X1_fault_set 32768 FAULT_TANK_FILL_TIMEOUT Hf)
    as (_ & Hset & Hothers & _).
  split; [exact Hset|].
  rewrite Hothers by discriminate. reflexivity.
Defined.

(** X2. [FAULT_CLEAR] on a 32-bit bitmap gives a 32-bit bitmap in which
    the fault is inactive and every other fault is as before; clearing
    a fault right after setting it, when it was inactive, gives the
    bitmap back. *)
Theorem X2_fault_clear (faults : Z) (x : SYSTEM_FAULT_T) :
  uint32 faults ->
  uint32 (FAULT_CLEAR_bits faults x) /\
  FAULT_ACTIVE_bits (FAULT_CLEAR_bits faults x) x = false /\
  (forall y, y <> x ->
     FAULT_ACTIVE_bits (FAULT_CLEAR_bits faults x) y = FAULT_ACTIVE_bits faults y) /\
  (FAULT_ACTIVE_bits faults x = false ->
   FAULT_CLEAR_bits (FAULT_SET_bits faults x) x = faults).
Proof.
  intros Hf. pose proof (fault_bit_range x) as Hx.
  split; [|split; [|split]].
  - apply uint32_from_bits. intros n Hn.
    rewrite FAULT_CLEAR_testbit by (assumption || lia).
    rewrite (uint32_high_bits faults n Hf Hn). reflexivity.
  - rewrite FAULT_ACTIVE_testbit, FAULT_CLEAR_testbit by (assumption || lia).
    rewrite Z.eqb_refl. apply andb_false_r.
  - intros y Hy. pose proof (fault_bit_range y) as Hyr.
    rewrite !FAULT_ACTIVE_testbit, FAULT_CLEAR_testbit by (assumption || lia).
    replace (fault_bit y =? fault_bit x) with false; [apply andb_true_r|].
    symmetry. apply Z.eqb_neq. intros Heq. apply Hy, fault_bit_injective, Heq.
  - intros Hin. rewrite FAULT_ACTIVE_testbit in Hin.
    assert (Hs : uint32 (FAULT_SET_bits faults x)).
    { apply uint32_from_bits. intros n Hn.
      rewrite FAULT_SET_testbit by lia.
      rewrite (uint32_high_bits faults n Hf Hn). apply Z.eqb_neq. lia. }
    apply Z.bits_inj'. intros n Hn.
    rewrite FAULT_CLEAR_testbit, FAULT_SET_testbit by assumption.
    destruct (Z.eqb_spec n (fault_bit x)) as [-> | Hne].
    + rewrite Hin. reflexivity.
    + rewrite orb_false_r. apply andb_true_r.
Qed.

Lemma X2_fault_clear_witness :
  FAULT_CLEAR_bits (FAULT_SET_bits 32768 FAULT_NVM_FAIL) FAULT_NVM_FAIL = 32768.
Proof.
  assert (Hf : uint32 32768) by (unfold uint32; lia).
  destruct (X2_fault_clear 32768 FAULT_NVM_FAIL Hf) as (_ & _ & _ & Hround).
  apply Hround. reflexivity.
Defined.

End FaultBitmap.

(** ** The range sensor *)

Section Sensor.
Import RangeSensor.

Ltac reduce_members :=
  cbn [fst snd negb andb orb when Bool.eqb sensor_state_eqb
       _sensor_num _sensor_state _time_since_last_read_msec _readings
       init dataReady read
       set_sensor_state set_time_since_last_read_msec set_readings
       system_faults io_expander Serial] in *.

Ltac sensor_methods :=
  lazymatch goal with
  | |- wp (Startup _) _ _ => unfold Startup
  | |- wp (Update _) _ _ => unfold Update
  | |- wp (process_reading _) _ _ => unfold process_reading
  | |- wp (Serial_out _) _ _ => unfold Serial_out
  | |- wp (FAULT_SET _) _ _ => unfold FAULT_SET
  end.

Ltac wp_sensor known :=
  wp_forwards ltac:(reduce_members) known ltac:(idtac; sensor_methods).

Lemma init_fault_is_not_timeout_fault (n m : Z) : init_fault n <> timeout_fault m.
Proof.
  unfold init_fault, timeout_fault.
  destruct n as [|[[|[]|]|[|[]|]|]|]; destruct m as [|[[|[]|]|[|[]|]|]|];
    discriminate.
Qed.

(** X5. [Startup] returns what the driver's [init()] answered.  When it
    failed, the sensor is left in the init error state with the init
    fault of its sensor number active (sensors 1, 2, 3 have their own,
    any other number the unknown one) and every other fault as before;
    when it succeeded, the sensor is working and the fault bitmap is
    untouched.  The readings are untouched either way. *)
Theorem X5_startup (device : VL53L1X) (o : RangeUtil) (b : Board) :
  let w' := snd (Startup device (o, b)) in
  fst (Startup device (o, b)) = init device /\
  _readings (fst w') = _readings o /\
  (init device = false ->
   _sensor_state (fst w') = RANGE_SENSOR_INIT_ERROR /\
   FAULT_ACTIVE_bits (system_faults (snd w')) (init_fault (_sensor_num o)) = true /\
   forall y, y <> init_fault (_sensor_num o) ->
     FAULT_ACTIVE_bits (system_faults (snd w')) y
     = FAULT_ACTIVE_bits (system_faults b) y) /\
  (init device = true ->
   _sensor_state (fst w') = RANGE_SENSOR_WORKING /\
   system_faults (snd w') = system_faults b).
Proof.
  cbv zeta.
  change (wp (Startup device)
            (fun res w' =>
               res = init device /\
               _readings (fst w') = _readings o /\
               (init device = false ->
                _sensor_state (fst w') = RANGE_SENSOR_INIT_ERROR /\
                FAULT_ACTIVE_bits (system_faults (snd w'))
                  (init_fault (_sensor_num o)) = true /\
                forall y, y <> init_fault (_sensor_num o) ->
                  FAULT_ACTIVE_bits (system_faults (snd w')) y
                  = FAULT_ACTIVE_bits (system_faults b) y) /\
               (init device = true ->
                _sensor_state (fst w') = RANGE_SENSOR_WORKING /\
                system_faults (snd w') = system_faults b)) (o, b)).
  destruct device as [i d r]. destruct i; wp_sensor idtac;
    repeat split; intros; try discriminate; auto using FAULT_SET_active.
  apply FAULT_SET_others. congruence.
Qed.

Lemma X5_startup_witness :
  let w' := snd (Startup (mkVL53L1X false false 0)
                   (constructor 3, mkBoard 0 (fun _ => LOW) [])) in
  _sensor_state (fst w') = RANGE_SENSOR_INIT_ERROR /\
  FAULT_ACTIVE_bits (system_faults (snd w')) FAULT_VL53L1X_SENSOR_3_INIT_FAIL = true.
Proof.
  cbv zeta.
  destruct (X5_startup (mkVL53L1X false false 0) (constructor 3)
              (mkBoard 0 (fun _ => LOW) [])) as (_ & _ & Hfail & _).
  destruct (Hfail eq_refl) as (Hst & Hact & _).
  split; [exact Hst | exact Hact].
Defined.

(** X6. A sensor that is not working is left alone by [Update]: no
    reading is taken up and no timeout is raised, whatever the driver
    answers and however long ago the last reading was.  So it is after
    a failed [Startup]. *)
Theorem X6_update_needs_working_sensor
  (device device' : VL53L1X) (o : RangeUtil) (b : Board) :
  (_sensor_state o <> RANGE_SENSOR_WORKING ->
   Update device (o, b) = (tt, (o, b))) /\
  (init device = false ->
   Update device' (snd (Startup device (o, b)))
   = (tt, snd (Startup device (o, b)))).
Proof.
  split.
  - intros Hst. unfold Update, bind, this, when, ret. cbn [fst snd].
    destruct (_sensor_state o); try reflexivity. congruence.
  - intros Hinit.
    unfold Startup. rewrite Hinit. cbn [Bool.eqb].
    unfold Update, bind, this, assign, when, ret, Serial_out, FAULT_SET, on_board.
    reduce_members. reflexivity.
Qed.

Lemma X6_update_needs_working_sensor_witness :
  Update (with_reading 150) (elapse 5000 (constructor 1), mkBoard 0 (fun _ => LOW) [])
  = (tt, (elapse 5000 (constructor 1), mkBoard 0 (fun _ => LOW) [])).
Proof.
  apply (proj1 (X6_update_needs_working_sensor (with_reading 150) (with_reading 150)
                  (elapse 5000 (constructor 1)) (mkBoard 0 (fun _ => LOW) []))).
  discriminate.
Defined.

(** X7. When the driver has a reading, a working sensor takes it up: it
    is the newest reading, the median is the middle value of it and the
    two readings before, and the time since the last reading is zero.
    The board is untouched: a reading that comes late raises no
    timeout. *)
Theorem X7_update_with_reading (device : VL53L1X) (o : RangeUtil) (b : Board) :
  _sensor_state o = RANGE_SENSOR_WORKING ->
  dataReady device = true ->
  RangeUtil.populated (_readings o) -> uint16 (read device) ->
  let w' := snd (Update device (o, b)) in
  let h := RangeUtil._range_history (_readings o) in
  fst (Get_Newest_Reading w') = read device /\
  RangeUtil.middle_value
    [read device; RangeUtil.at_index h 0; RangeUtil.at_index h 1]
    (fst (Get_Median_Reading w')) /\
  _time_since_last_read_msec (fst w') = 0 /\
  _sensor_state (fst w') = RANGE_SENSOR_WORKING /\
  snd w' = b.
Proof.
  intros Hst Hready Hp Hr. cbv zeta.
  destruct (populated_inv _ Hp) as (x & y & z & Hh & Hx & Hy & Hz).
  destruct (median_of_new_history _ (read device) x y z Hh Hr Hx Hy)
    as (Hnew & Hmid & _).
  cbv zeta in Hmid. rewrite Hh. cbn [RangeUtil.at_index nth].
  destruct o as [num st t rd]. destruct device as [i d raw].
  reduce_members. subst.
  unfold Update, process_reading, Get_Newest_Reading, Get_Median_Reading,
    bind, this, assign, when, ret.
  reduce_members. unfold READ_TIMEOUT_MSEC. cbn [Z.geb Z.compare when].
  reduce_members.
  repeat split; auto.
  unfold RangeUtil.Get_Newest_Reading. rewrite Hnew. reflexivity.
Qed.

Lemma X7_update_with_reading_witness :
  let w' := snd (Update (with_reading 150)
                   (sensor_2_late, mkBoard 0 (fun _ => LOW) [])) in
  fst (Get_Newest_Reading w') = 150 /\
  _time_since_last_read_msec (fst w') = 0 /\
  system_faults (snd w') = 0.
Proof.
  cbv zeta.
  assert (Hp : RangeUtil.populated (_readings sensor_2_late)).
  { split; [reflexivity|]. cbn. repeat constructor; unfold uint16; lia. }
  assert (Hr : uint16 (read (with_reading 150))) by (unfold uint16; cbn; lia).
  destruct (X7_update_with_reading (with_reading 150) sensor_2_late
              (mkBoard 0 (fun _ => LOW) []) eq_refl eq_refl Hp Hr)
    as (Hnew & _ & Ht & _ & Hb).
  rewrite Hb. repeat split; assumption.
Defined.

(** X8. When the driver has no reading, a working sensor keeps its
    readings and stays working.  If 200 ms or more have gone by since
    the last reading, the timeout fault of its sensor number is active
    after [Update] and every other fault is as before; if less, the
    fault bitmap is untouched. *)
Theorem X8_update_without_reading (device : VL53L1X) (o : RangeUtil) (b : Board) :
  _sensor_state o = RANGE_SENSOR_WORKING ->
  dataReady device = false ->
  let w' := snd (Update device (o, b)) in
  fst w' = o /\
  (_time_since_last_read_msec o >= READ_TIMEOUT_MSEC ->
   FAULT_ACTIVE_bits (system_faults (snd w')) (timeout_fault (_sensor_num o)) = true /\
   forall y, y <> timeout_fault (_sensor_num o) ->
     FAULT_ACTIVE_bits (system_faults (snd w')) y
     = FAULT_ACTIVE_bits (system_faults b) y) /\
  (_time_since_last_read_msec o < READ_TIMEOUT_MSEC -> snd w' = b).
Proof.
  intros Hst Hready. cbv zeta.
  change (wp (Update device)
            (fun _ w' =>
               fst w' = o /\
               (_time_since_last_read_msec o >= READ_TIMEOUT_MSEC ->
                FAULT_ACTIVE_bits (system_faults (snd w'))
                  (timeout_fault (_sensor_num o)) = true /\
                forall y, y <> timeout_fault (_sensor_num o) ->
                  FAULT_ACTIVE_bits (system_faults (snd w')) y
                  = FAULT_ACTIVE_bits (system_faults b) y) /\
               (_time_since_last_read_msec o < READ_TIMEOUT_MSEC -> snd w' = b))
            (o, b)).
  destruct o as [num st t rd]. destruct device as [i d raw].
  reduce_members. subst.
  wp_sensor idtac;
    repeat match goal with
           | H : (_ >=? _) = true |- _ => apply Z.geb_ge in H
           | H : (_ >=? _) = false |- _ => rewrite Z.geb_leb in H; apply Z.leb_gt in H
           end;
    repeat split; intros; try lia; auto using FAULT_SET_active.
  apply FAULT_SET_others. congruence.
Qed.

Lemma X8_update_without_reading_witness :
  FAULT_ACTIVE_bits
    (system_faults (snd (snd (Update without_reading
                                (sensor_2_late, mkBoard 0 (fun _ => LOW) [])))))
    FAULT_VL53L1X_SENSOR_2_TIMEOUT = true.
Proof.
  destruct (X8_update_without_reading without_reading sensor_2_late
              (mkBoard 0 (fun _ => LOW) []) eq_refl eq_refl) as (_ & Hlate & _).
  apply Hlate. vm_compute. discriminate.
Defined.

End Sensor.

(** ** The setpoint adjustment of the user interface *)

Section Setpoints.
Import UIManager.

Lemma to_uint16_wraps_back (z : Z) :
  0 <= z < 65536 -> to_uint16 (to_int16 z) = z.
Proof.
  intros Hz. unfold to_uint16, to_int16.
  change (2 ^ 15) with 32768. change (2 ^ 16) with 65536.
  destruct (Z_lt_le_dec z 32768).
  - rewrite (Z.mod_small (z + 32768)) by lia.
    replace (z + 32768 - 32768) with z by lia. apply Z.mod_small. lia.
  - replace (z + 32768) with (z - 32768 + 1 * 65536) by lia.
    rewrite Z.mod_add by lia. rewrite (Z.mod_small (z - 32768)) by lia.
    replace (z - 32768 - 32768) with (z + (-1) * 65536) by lia.
    rewrite Z.mod_add by lia. apply Z.mod_small. lia.
Qed.

(** X29. [increment_setpoint] on 16-bit arguments.  While the sum of
    the setpoint and the increment fits the signed 16-bit local it is
    held in, the result is the sum, capped at the maximum.  A sum of
    32768 to 65535 goes negative in the local, passes the test against
    the maximum and is returned as it is, uncapped. *)
Theorem X29_increment_setpoint (cur_setpoint inc_value setpoint_max : Z) :
  uint16 cur_setpoint -> uint16 inc_value -> uint16 setpoint_max ->
  (cur_setpoint + inc_value <= 32767 ->
   increment_setpoint cur_setpoint inc_value setpoint_max
   = Z.min (cur_setpoint + inc_value) setpoint_max) /\
  (32768 <= cur_setpoint + inc_value <= 65535 ->
   increment_setpoint cur_setpoint inc_value setpoint_max
   = cur_setpoint + inc_value).
Proof.
  unfold uint16. change (2 ^ 16) with 65536. intros Hc Hi Hm.
  unfold increment_setpoint. cbv zeta. split; intros Hsum.
  - rewrite to_int16_fits by lia.
    destruct (Z.geb_spec (cur_setpoint + inc_value) setpoint_max).
    + lia.
    + unfold to_uint16. change (2 ^ 16) with 65536.
      rewrite Z.mod_small by lia. lia.
  - assert (Hneg : to_int16 (cur_setpoint + inc_value)
                   = cur_setpoint + inc_value - 65536).
    { unfold to_int16. change (2 ^ 15) with 32768. change (2 ^ 16) with 65536.
      replace (cur_setpoint + inc_value + 32768)
        with (cur_setpoint + inc_value - 32768 + 1 * 65536) by lia.
      rewrite Z.mod_add by lia. rewrite Z.mod_small by lia. lia. }
    destruct (Z.geb_spec (to_int16 (cur_setpoint + inc_value)) setpoint_max).
    + lia.
    + apply to_uint16_wraps_back. lia.
Qed.

Lemma X29_increment_setpoint_witness :
  increment_setpoint 300 10 305 = 305 /\
  increment_setpoint 30000 5000 305 = 35000.
Proof.
  assert (Hc : uint16 300) by (unfold uint16; lia).
  assert (Hi : uint16 10) by (unfold uint16; lia).
  assert (Hm : uint16 305) by (unfold uint16; lia).
  assert (Hc' : uint16 30000) by (unfold uint16; lia).
  assert (Hi' : uint16 5000) by (unfold uint16; lia).
  split.
  - rewrite (proj1 (X29_increment_setpoint 300 10 305 Hc Hi Hm)) by lia.
    reflexivity.
  - apply (proj2 (X29_increment_setpoint 30000 5000 305 Hc' Hi' Hm)). lia.
Defined.

(** X30. [decrement_setpoint] on 16-bit arguments.  While the
    difference of the setpoint and the decrement fits the signed 16-bit
    local, the result is the difference, held at the minimum from
    below: it never wraps below zero.  A setpoint that exceeds the
    decrement by more than 32767 goes negative in the local and the
    result is the minimum. *)
Theorem X30_decrement_setpoint (cur_setpoint dec_value setpoint_min : Z) :
  uint16 cur_setpoint -> uint16 dec_value -> uint16 setpoint_min ->
  (- 32768 <= cur_setpoint - dec_value <= 32767 ->
   decrement_setpoint cur_setpoint dec_value setpoint_min
   = Z.max (cur_setpoint - dec_value) setpoint_min) /\
  (32767 < cur_setpoint - dec_value ->
   decrement_setpoint cur_setpoint dec_value setpoint_min = setpoint_min).
Proof.
  unfold uint16. change (2 ^ 16) with 65536. intros Hc Hd Hm.
  unfold decrement_setpoint. cbv zeta. split; intros Hdiff.
  - rewrite to_int16_fits by lia.
    destruct (Z.leb_spec (cur_setpoint - dec_value) setpoint_min).
    + lia.
    + unfold to_uint16. change (2 ^ 16) with 65536.
      rewrite Z.mod_small by lia. lia.
  - assert (Hneg : to_int16 (cur_setpoint - dec_value)
                   = cur_setpoint - dec_value - 65536).
    { unfold to_int16. change (2 ^ 15) with 32768. change (2 ^ 16) with 65536.
      replace (cur_setpoint - dec_value + 32768)
        with (cur_setpoint - dec_value - 32768 + 1 * 65536) by lia.
      rewrite Z.mod_add by lia. rewrite Z.mod_small by lia. lia. }
    destruct (Z.leb_spec (to_int16 (cur_setpoint - dec_value)) setpoint_min).
    + reflexivity.
    + lia.
Qed.

Lemma X30_decrement_setpoint_witness :
  decrement_setpoint 55 10 50 = 50 /\
  decrement_setpoint 40000 10 50 = 50.
Proof.
  assert (Hc : uint16 55) by (unfold uint16; lia).
  assert (Hd : uint16 10) by (unfold uint16; lia).
  assert (Hm : uint16 50) by (unfold uint16; lia).
  assert (Hc' : uint16 40000) by (unfold uint16; lia).
  split.
  - rewrite (proj1 (X30_decrement_setpoint 55 10 50 Hc Hd Hm)) by lia.
    reflexivity.
  - apply (proj2 (X30_decrement_setpoint 40000 10 50 Hc' Hd Hm)). lia.
Defined.

End Setpoints.

(** ** The clock manager *)

Section Clock.
Import ClockManager.

Ltac reduce_members :=
  cbn [fst snd negb andb orb when Bool.eqb clock_state_eqb
       _clock_manager_state _time_since_last_update _online
       _rtc_seconds _rtc_minutes _rtc_hours _rtc_date _rtc_weekday
       _rtc_month _rtc_year _wake_hour _wake_min _sleep_hour _sleep_min
       _in_sleep
       begin updateTime getSeconds getMinutes getHours getDate getWeekday
       getMonth getYear setTime setEpoch
       set_clock_manager_state set_time_since_last_update
       set_rtc_seconds set_rtc_minutes set_rtc_hours set_rtc_date
       set_rtc_weekday set_rtc_month set_rtc_year
       set_wake_hour set_wake_min set_sleep_hour set_sleep_min set_in_sleep
       system_faults io_expander Serial] in *.

Ltac clock_methods :=
  lazymatch goal with
  | |- wp (Startup _) _ _ => unfold Startup
  | |- wp (Update _) _ _ => unfold Update
  | |- wp (Set_Time _) _ _ => unfold Set_Time
  | |- wp (Set_Time_Epoch _) _ _ => unfold Set_Time_Epoch
  | |- wp (Serial_out _) _ _ => unfold Serial_out
  | |- wp (FAULT_SET _) _ _ => unfold FAULT_SET
  end.

Ltac wp_clock known :=
  wp_forwards ltac:(reduce_members) known ltac:(idtac; clock_methods).

Lemma seconds_fit (h m s : Z) :
  uint8 h -> uint8 m -> uint8 s ->
  to_uint32 (h * 3600 + m * 60 + s) = h * 3600 + m * 60 + s.
Proof.
  unfold uint8, to_uint32. change (2 ^ 8) with 256.
  change (2 ^ 32) with 4294967296. intros Hh Hm Hs.
  apply Z.mod_small. lia.
Qed.

Lemma detect_sleep_window_value (o : ClockManager) (b : Board) :
  time_typed o ->
  fst (detect_sleep_window (o, b))
  = negb (if wake_seconds o <=? sleep_seconds o
          then (time_seconds o >=? wake_seconds o)
               && (time_seconds o <=? sleep_seconds o)
          else (time_seconds o >=? wake_seconds o)
               || (time_seconds o <=? sleep_seconds o)) /\
  snd (detect_sleep_window (o, b)) = (o, b).
Proof.
  intros (Hh & Hm & Hs & Hwh & Hwm & Hsh & Hsm).
  assert (H0 : uint8 0) by (unfold uint8; lia).
  unfold detect_sleep_window, bind, this, ret, time_seconds, wake_seconds,
    sleep_seconds. cbn [fst snd].
  rewrite (seconds_fit _ _ _ Hh Hm Hs).
  pose proof (seconds_fit _ _ _ Hwh Hwm H0) as Hw.
  pose proof (seconds_fit _ _ _ Hsh Hsm H0) as Hsl.
  rewrite !Z.add_0_r in Hw, Hsl. rewrite Hw, Hsl.
  split; reflexivity.
Qed.

(** X26. [detect_sleep_window] on 8-bit time members.  With the wake
    time not after the sleep time, it is sleep time exactly when the
    time of day is before the wake time or after the sleep time; with
    the wake time after the sleep time (a window across midnight), it
    is sleep time exactly when the time of day is after the sleep time
    and before the wake time.  Both ends of the window count as awake,
    and the call changes nothing. *)
Theorem X26_sleep_window (o : ClockManager) (b : Board) :
  time_typed o ->
  let sleeping := fst (detect_sleep_window (o, b)) in
  (wake_seconds o <= sleep_seconds o ->
   (sleeping = true <->
    time_seconds o < wake_seconds o \/ sleep_seconds o < time_seconds o)) /\
  (sleep_seconds o < wake_seconds o ->
   (sleeping = true <->
    sleep_seconds o < time_seconds o < wake_seconds o)) /\
  snd (detect_sleep_window (o, b)) = (o, b).
Proof.
  intros Hty. cbv zeta.
  destruct (detect_sleep_window_value o b Hty) as [-> ->].
  split; [|split; [|reflexivity]]; intros Hw.
  - destruct (Z.leb_spec (wake_seconds o) (sleep_seconds o)); [|lia].
    destruct (Z.geb_spec (time_seconds o) (wake_seconds o));
      destruct (Z.leb_spec (time_seconds o) (sleep_seconds o));
      cbn; split; intros; try discriminate; try reflexivity; lia.
  - destruct (Z.leb_spec (wake_seconds o) (sleep_seconds o)); [lia|].
    destruct (Z.geb_spec (time_seconds o) (wake_seconds o));
      destruct (Z.leb_spec (time_seconds o) (sleep_seconds o));
      cbn; split; intros; try discriminate; try reflexivity; lia.
Qed.

Lemma X26_sleep_window_witness :
  fst (detect_sleep_window (clock_at 6 59 0, mkBoard 0 (fun _ => LOW) [])) = true /\
  fst (detect_sleep_window (clock_at 17 0 0, mkBoard 0 (fun _ => LOW) [])) <> true.
Proof.
  assert (Hty : forall h m, 0 <= h < 24 -> 0 <= m < 60 ->
                            time_typed (clock_at h m 0)).
  { intros h m Hh Hm. unfold time_typed, uint8. cbn. lia. }
  split.
  - apply (proj1 (X26_sleep_window (clock_at 6 59 0)
                    (mkBoard 0 (fun _ => LOW) [])
                    (Hty 6 59 ltac:(lia) ltac:(lia)))).
    + vm_compute. discriminate.
    + left. vm_compute. reflexivity.
  - intros Hs.
    apply (proj1 (X26_sleep_window (clock_at 17 0 0)
                    (mkBoard 0 (fun _ => LOW) [])
                    (Hty 17 0 ltac:(lia) ltac:(lia)))) in Hs.
    + vm_compute in Hs. destruct Hs as [Hs | Hs]; discriminate Hs.
    + vm_compute. discriminate.
Defined.

(** In a state other than Working no call but [Startup] changes the
    state, the time of day, the sleep flag or the board. *)
Lemma step_not_working (w w' : ClockManager * Board) :
  step w w' ->
  _clock_manager_state (fst w) <> CLOCK_MANAGER_WORKING ->
  _clock_manager_state (fst w') = _clock_manager_state (fst w) /\
  (_rtc_seconds (fst w'), _rtc_minutes (fst w'), _rtc_hours (fst w'))
  = (_rtc_seconds (fst w), _rtc_minutes (fst w), _rtc_hours (fst w)) /\
  (_rtc_date (fst w'), _rtc_weekday (fst w'), _rtc_month (fst w'),
   _rtc_year (fst w'))
  = (_rtc_date (fst w), _rtc_weekday (fst w), _rtc_month (fst w),
     _rtc_year (fst w)) /\
  _in_sleep (fst w') = _in_sleep (fst w) /\
  snd w' = snd w.
Proof.
  intros Hstep Hst.
  destruct Hstep as [rtc [o b] | rtc [o b] | rtc [o b] | hour [o b] | m [o b]
                    | hour [o b] | m [o b] | o b dt _];
    cbn [fst snd] in *;
    try (repeat split; reflexivity).
  - change (wp (Update rtc)
              (fun _ w' =>
                 _clock_manager_state (fst w') = _clock_manager_state o /\
                 (_rtc_seconds (fst w'), _rtc_minutes (fst w'),
                  _rtc_hours (fst w'))
                 = (_rtc_seconds o, _rtc_minutes o, _rtc_hours o) /\
                 (_rtc_date (fst w'), _rtc_weekday (fst w'),
                  _rtc_month (fst w'), _rtc_year (fst w'))
                 = (_rtc_date o, _rtc_weekday o, _rtc_month o, _rtc_year o) /\
                 _in_sleep (fst w') = _in_sleep o /\
                 snd w' = b) (o, b)).
    destruct o, b, rtc. reduce_members.
    destruct _clock_manager_state0; try congruence;
      wp_clock idtac; try discriminate; repeat split; reflexivity.
  - unfold Set_Time, bind, this, ret. cbn [fst snd].
    destruct (_clock_manager_state o) eqn:Hstate; try congruence;
      cbn [clock_state_eqb fst snd]; repeat split; try reflexivity;
      exact Hstate.
  - unfold Set_Time_Epoch, bind, this, ret. cbn [fst snd].
    destruct (_clock_manager_state o) eqn:Hstate; try congruence;
      cbn [clock_state_eqb fst snd]; repeat split; try reflexivity;
      exact Hstate.
Qed.

(** X27. A failed read lasts until the next [Startup].  A due [Update]
    of a working clock manager whose driver fails to read the time
    raises the read fault, prints the error line and leaves the manager
    in the timeout state, with the time of day and the sleep flag as
    they were.  From a state other than Working, whatever is called
    next short of [Startup] ([Update], [Set_Time], [Set_Time_Epoch],
    the wake and sleep setters, with any driver answers and any time
    going by) leaves the manager in that state, not working, with the
    time of day, the date, the sleep flag and the board as they were.
    [Startup] with a driver that answers is the way back to Working. *)
Theorem X27_read_failure_lasts_until_startup
    (rtc : RV8803) (o : ClockManager) (b : Board) (w : ClockManager * Board) :
  (_clock_manager_state o = CLOCK_MANAGER_WORKING ->
   _time_since_last_update o >= RTC_UPDATE_PERIOD_MSEC ->
   updateTime rtc = false ->
   let w' := snd (Update rtc (o, b)) in
   fst (Is_Working w') = false /\
   _clock_manager_state (fst w') = CLOCK_MANAGER_TIMEOUT /\
   FAULT_ACTIVE_bits (system_faults (snd w')) FAULT_RV8803_RTC_READ_FAULT = true /\
   Serial (snd w')
   = Serial b ++ [Println "ERROR: Failed to read offboard RTC time!"] /\
   fst w' = set_clock_manager_state CLOCK_MANAGER_TIMEOUT
              (set_time_since_last_update 0 o)) /\
  (_clock_manager_state o <> CLOCK_MANAGER_WORKING ->
   reachable (o, b) w ->
   fst (Is_Working w) = false /\
   _clock_manager_state (fst w) = _clock_manager_state o /\
   (_rtc_seconds (fst w), _rtc_minutes (fst w), _rtc_hours (fst w))
   = (_rtc_seconds o, _rtc_minutes o, _rtc_hours o) /\
   (_rtc_date (fst w), _rtc_weekday (fst w), _rtc_month (fst w),
    _rtc_year (fst w))
   = (_rtc_date o, _rtc_weekday o, _rtc_month o, _rtc_year o) /\
   fst (Is_Sleep_Time w) = fst (Is_Sleep_Time (o, b)) /\
   snd w = b) /\
  (begin rtc = true -> fst (Is_Working (snd (Startup rtc w))) = true).
Proof.
  split; [|split].
  - intros Hst Hdue Hread. cbv zeta. apply Z.geb_ge in Hdue.
    unfold Is_Working, bind, this, ret. cbn [fst].
    change (wp (Update rtc)
              (fun _ w' =>
                 clock_state_eqb (_clock_manager_state (fst w'))
                                 CLOCK_MANAGER_WORKING = false /\
                 _clock_manager_state (fst w') = CLOCK_MANAGER_TIMEOUT /\
                 FAULT_ACTIVE_bits (system_faults (snd w'))
                                   FAULT_RV8803_RTC_READ_FAULT = true /\
                 Serial (snd w')
                 = Serial b ++ [Println "ERROR: Failed to read offboard RTC time!"] /\
                 fst w' = set_clock_manager_state CLOCK_MANAGER_TIMEOUT
                            (set_time_since_last_update 0 o)) (o, b)).
    destruct o, b, rtc. reduce_members. subst.
    wp_clock ltac:(rewrite ?Hdue); try discriminate.
    repeat split; auto using FAULT_SET_active.
  - intros Hst Hreach.
    assert (Hkept :
      _clock_manager_state (fst w) = _clock_manager_state o /\
      (_rtc_seconds (fst w), _rtc_minutes (fst w), _rtc_hours (fst w))
      = (_rtc_seconds o, _rtc_minutes o, _rtc_hours o) /\
      (_rtc_date (fst w), _rtc_weekday (fst w), _rtc_month (fst w),
       _rtc_year (fst w))
      = (_rtc_date o, _rtc_weekday o, _rtc_month o, _rtc_year o) /\
      _in_sleep (fst w) = _in_sleep o /\
      snd w = b).
    { induction Hreach as [|w w' _ IH Hstep].
      - repeat split; reflexivity.
      - destruct IH as (Hs & Ht & Hd & Hsl & Hb).
        assert (Hst' : _clock_manager_state (fst w) <> CLOCK_MANAGER_WORKING)
          by (rewrite Hs; exact Hst).
        destruct (step_not_working w w' Hstep Hst')
          as (Hs' & Ht' & Hd' & Hsl' & Hb').
        repeat split; congruence. }
    destruct Hkept as (Hs & Ht & Hd & Hsl & Hb).
    unfold Is_Working, Is_Sleep_Time, bind, this, ret. cbn [fst snd].
    repeat split; try assumption.
    rewrite Hs. destruct (_clock_manager_state o); try reflexivity; congruence.
  - intros Hbegin. destruct w as [o1 b1].
    unfold Startup, Is_Working, Serial_out, bind, this, ret, assign, on_board.
    rewrite Hbegin. reflexivity.
Qed.

Lemma X27_read_failure_lasts_until_startup_witness :
  let b := mkBoard 0 (fun _ => LOW) [] in
  let w' := snd (Update rtc_offline (clock_at 12 0 0, b)) in
  let later := snd (Update (rtc_at 12 0 5) (elapse 1000 (fst w'), snd w')) in
  fst (Is_Working w') = false /\
  fst (Is_Working later) = false /\
  _rtc_seconds (fst later) = 0 /\
  fst (Is_Working (snd (Startup (rtc_at 12 0 5) later))) = true.
Proof.
  cbv zeta.
  set (b := mkBoard 0 (fun _ => LOW) []).
  assert (Hst : _clock_manager_state (clock_at 12 0 0) = CLOCK_MANAGER_WORKING)
    by reflexivity.
  assert (Hdue : _time_since_last_update (clock_at 12 0 0)
                 >= RTC_UPDATE_PERIOD_MSEC) by (vm_compute; discriminate).
  assert (Hread : updateTime rtc_offline = false) by reflexivity.
  destruct (X27_read_failure_lasts_until_startup rtc_offline (clock_at 12 0 0) b
              (clock_at 12 0 0, b)) as (Hfail & _ & _).
  destruct (Hfail Hst Hdue Hread) as (Hwork & Hstate & _).
  set (w' := snd (Update rtc_offline (clock_at 12 0 0, b))) in *.
  set (later := snd (Update (rtc_at 12 0 5) (elapse 1000 (fst w'), snd w'))).
  assert (Hnot : _clock_manager_state (fst w') <> CLOCK_MANAGER_WORKING)
    by (rewrite Hstate; discriminate).
  assert (Hreach : reachable (fst w', snd w') later).
  { unfold later.
    eapply reachable_step; [|apply step_Update].
    eapply reachable_step; [apply reachable_start|].
    apply step_elapse. lia. }
  destruct (X27_read_failure_lasts_until_startup (rtc_at 12 0 5) (fst w') (snd w')
              later) as (_ & Hkept & Hback).
  destruct (Hkept Hnot Hreach) as (Hwork' & _ & Htime & _).
  split; [exact Hwork|]. split; [exact Hwork'|]. split.
  - transitivity (_rtc_seconds (fst w')); [congruence|].
    vm_compute. reflexivity.
  - apply Hback. reflexivity.
Defined.

(** X28. Setting the time.  [Set_Time] and [Set_Time_Epoch] return
    true exactly when the manager is working and the driver accepted
    the time.  A manager that is not working, and a working one whose
    driver accepted, are left as they are, faults and serial output
    too; a working manager whose driver refused is left in the timeout
    state with the set-time fault raised. *)
Theorem X28_set_time (rtc : RV8803) (o : ClockManager) (b : Board) :
  let working := clock_state_eqb (_clock_manager_state o) CLOCK_MANAGER_WORKING in
  (fst (Set_Time rtc (o, b)) = working && setTime rtc /\
   fst (Set_Time_Epoch rtc (o, b)) = working && setEpoch rtc) /\
  (working = false \/ setTime rtc = true -> snd (Set_Time rtc (o, b)) = (o, b)) /\
  (working = false \/ setEpoch rtc = true ->
   snd (Set_Time_Epoch rtc (o, b)) = (o, b)) /\
  (working = true -> setTime rtc = false ->
   let w' := snd (Set_Time rtc (o, b)) in
   fst (Is_Working w') = false /\
   _clock_manager_state (fst w') = CLOCK_MANAGER_TIMEOUT /\
   FAULT_ACTIVE_bits (system_faults (snd w'))
                     FAULT_RV8803_RTC_SET_TIME_FAULT = true) /\
  (working = true -> setEpoch rtc = false ->
   let w' := snd (Set_Time_Epoch rtc (o, b)) in
   fst (Is_Working w') = false /\
   _clock_manager_state (fst w') = CLOCK_MANAGER_TIMEOUT /\
   FAULT_ACTIVE_bits (system_faults (snd w'))
                     FAULT_RV8803_RTC_SET_TIME_FAULT = true).
Proof.
  cbv zeta.
  unfold Set_Time, Set_Time_Epoch, Is_Working, FAULT_SET, Serial_out,
    bind, this, ret, assign, on_board.
  destruct o, b, rtc. reduce_members.
  destruct _clock_manager_state0, setTime0, setEpoch0; reduce_members;
    repeat split; intros;
    repeat match goal with
           | H : _ \/ _ |- _ => destruct H
           end;
    try discriminate; try reflexivity; apply FAULT_SET_active.
Qed.

Lemma X28_set_time_witness :
  let w' := snd (Set_Time rtc_offline (clock_at 12 0 0, mkBoard 0 (fun _ => LOW) [])) in
  fst (Is_Working w') = false /\
  snd (Set_Time (rtc_at 12 0 0) (fst w', snd w')) = (fst w', snd w').
Proof.
  cbv zeta.
  set (b := mkBoard 0 (fun _ => LOW) []).
  destruct (X28_set_time rtc_offline (clock_at 12 0 0) b)
    as (_ & _ & _ & Hrefused & _).
  destruct (Hrefused eq_refl eq_refl) as (Hwork & Hstate & _).
  split; [exact Hwork|].
  set (w' := snd (Set_Time rtc_offline (clock_at 12 0 0, b))) in *.
  destruct (X28_set_time (rtc_at 12 0 0) (fst w') (snd w'))
    as (_ & Hkept & _).
  apply Hkept. left. rewrite Hstate. reflexivity.
Defined.

End Clock.
